(** * Ambient-light-sensor brightness filter of MCE

    A shallow embedding of [modules/filter-brightness-als.c] (and of the
    calibration lookup of [mce-hal.c]) together with the properties the
    design document states about it.

    Conventions.  A [gint] is a [Z]; none of the arithmetic of the
    module can leave the [int] range for the values the module itself
    stores (levels are row indices, lux bounds come from the tables).
    Module-level statics and function-level statics are fields of
    [als_state].  What the module does to the outside world (sysfs
    writes, log lines, datapipe executions) is appended to [trace] in
    program order.  What the outside world hands to a callback (the
    result of a device read, a D-Bus sender) is an argument of the
    callback.

    Two smaller parts follow the module: the symbol tables and name
    parsers of the command line tool ([mcetool.c]) and the lookup of
    the product name in the environment of the init process
    ([mce-hal.c]). *)

From Stdlib Require Import ZArith List Ascii String Bool Lia Permutation.
From Stdlib Require Strings.Byte.
Import ListNotations.
Local Open Scope string_scope.
Local Open Scope list_scope.
Local Open Scope Z_scope.

(** ** Declarations the module takes from headers

    [filter-brightness-als.h], [mce.h] and [median_filter.h] are not
    part of the sources at hand.  The constants and the median-filter
    interface the module uses from them are the fields of this class;
    every result below holds for any instance. *)
Class als_header := {
  ALS_RANGES : nat;
  ALS_PROFILE_MINIMUM : Z;
  ALS_PROFILE_MAXIMUM : Z;
  ALS_PROFILE_NORMAL : Z;
  ALS_DISPLAY_ON_POLL_FREQ : Z;
  ALS_DISPLAY_DIM_POLL_FREQ : Z;
  ALS_DISPLAY_OFF_POLL_FREQ : Z;
  ALS_DISPLAY_OFF_FLUSH_FILTER : bool;
  ALS_BRIGHTNESS_STEPDOWN_DELAY : Z;
  MEDIAN_FILTER_WINDOW_SIZE : Z;
  median_filter_struct : Type;
  median_filter_init : median_filter_struct -> Z -> median_filter_struct * bool;
  median_filter_map : median_filter_struct -> Z -> median_filter_struct * Z
}.

(** Maximum number of monitored ALS owners *)
Definition ALS_MAX_MONITORED : nat := 16.

(** ** Data *)

(** [loglevel_t] of [mce-log.h] *)
Inductive loglevel_t :=
| LL_NONE | LL_ALERT | LL_CRIT | LL_ERR | LL_WARN | LL_NOTICE | LL_INFO | LL_DEBUG.

Inductive display_state_t :=
| MCE_DISPLAY_UNDEF
| MCE_DISPLAY_OFF
| MCE_DISPLAY_LPM_OFF
| MCE_DISPLAY_LPM_ON
| MCE_DISPLAY_DIM
| MCE_DISPLAY_ON.

Inductive cover_state_t := COVER_UNDEF | COVER_CLOSED | COVER_OPEN.

(** Ambient Light Sensor type *)
Inductive als_type_t :=
| ALS_TYPE_UNSET
| ALS_TYPE_NONE
| ALS_TYPE_TSL2562
| ALS_TYPE_TSL2563
| ALS_TYPE_DIPRO
| ALS_TYPE_AVAGO.

Inductive brightness_step_policy_t :=
| BRIGHTNESS_STEP_DIRECT
| BRIGHTNESS_STEP_UNBLANK.

(** [gint range[ALS_RANGES][2]; gint value[ALS_RANGES + 1]] *)
Record als_profile_struct := {
  range : list (Z * Z);
  value : list Z
}.

(** [gint range[2]; const gchar *coefficients] *)
Record cpa_profile_struct := {
  cpa_range : Z * Z;
  coefficients : string
}.

Inductive datapipe_t :=
| display_brightness_pipe_id
| led_brightness_pipe_id
| key_backlight_pipe_id.

(** What the module does to its surroundings. *)
Inductive event :=
| EvLog (level : loglevel_t) (msg : string)
    (* mce_log() *)
| EvWriteNumber (path : string) (number : Z)
    (* mce_write_number_string_to_file() *)
| EvWriteThreshold (path : string) (lower upper : Z)
    (* mce_write_string_to_file(path, "%d %d") *)
| EvWriteString (path : string) (str : string)
    (* mce_write_string_to_file() *)
| EvDatapipe (pipe : datapipe_t) (output : Z)
    (* execute_datapipe(): the filtered value handed to the triggers *)
| EvCloseFile
    (* mce_close_file(als_lux_path, &als_fp) *)
| EvUnregisterIoMonitor (id : nat)
    (* mce_unregister_io_monitor() *).

(** The callbacks this module hands to the GLib main loop. *)
Inductive source_cb :=
| ALS_POLL_TIMER_CB (interval : Z)
| BRIGHTNESS_DELAY_TIMER_CB (seconds : Z).

(** The statics that [get_als_type] assigns on its first call and the
    configuration read at module load; constant afterwards. *)
Record als_config := {
  als_type : als_type_t;
  als_calib0_path : option string;
  als_calib1_path : option string;
  als_threshold_range_path : option string;
  use_median_filter : bool;
  display_als_profiles : option (list als_profile_struct);
  led_als_profiles : option (list als_profile_struct);
  kbd_als_profiles : option (list als_profile_struct);
  display_cpa_profiles : option (list cpa_profile_struct);
  display_cpa_enabled : bool;
  display_cpa_enable_path : option string;
  display_cpa_coefficients_path : option string;
  brightness_stepdown_delay : Z;
  brightness_step_down_policy : brightness_step_policy_t
}.

(** The sysfs paths and the profile tables of
    [filter-brightness-als.h], which is not part of the sources at
    hand. *)
Record als_tables := {
  ALS_CALIB_PATH_AVAGO : string;
  ALS_THRESHOLD_RANGE_PATH_AVAGO : string;
  ALS_CALIB_PATH_DIPRO : string;
  ALS_THRESHOLD_RANGE_PATH_DIPRO : string;
  ALS_CALIB0_PATH_TSL2563 : string;
  ALS_CALIB1_PATH_TSL2563 : string;
  ALS_CALIB0_PATH_TSL2562 : string;
  ALS_CALIB1_PATH_TSL2562 : string;
  COLOUR_PHASE_ENABLE_PATH : string;
  COLOUR_PHASE_COEFFICIENTS_PATH : string;
  display_als_profiles_rm696 : list als_profile_struct;
  led_als_profiles_rm696 : list als_profile_struct;
  display_als_profiles_rm680 : list als_profile_struct;
  led_als_profiles_rm680 : list als_profile_struct;
  kbd_als_profiles_rm680 : list als_profile_struct;
  display_als_profiles_rx51 : list als_profile_struct;
  led_als_profiles_rx51 : list als_profile_struct;
  kbd_als_profiles_rx51 : list als_profile_struct;
  display_als_profiles_rx44 : list als_profile_struct;
  led_als_profiles_rx44 : list als_profile_struct;
  kbd_als_profiles_rx44 : list als_profile_struct;
  rm696_phase_profile : list cpa_profile_struct;
  rm680_phase_profile : list cpa_profile_struct
}.

(** What [g_access] answers during the probe: [R_OK] on the four
    device nodes, [W_OK] on the colour phase switch and on the
    threshold range entry of the family found. *)
Record als_probe := {
  avago_readable : bool;
  dipro_readable : bool;
  tsl2563_readable : bool;
  tsl2562_readable : bool;
  cpa_enable_writable : bool;
  threshold_range_writable : bool
}.

Section Model.

Context {hdr : als_header}.

(** The statics of the module ([cached_lower], [cached_upper], the
    three [*_als_level] and [old_display_state] are function-level
    statics), the cached values of the datapipes it reads, and the
    timeout sources of the main loop. *)
Record als_state := {
  als_iomon_id : option nat;
  als_enabled : bool;
  als_lux : Z;
  delayed_lux : Z;
  display_brightness_lower : Z;
  display_brightness_upper : Z;
  led_brightness_lower : Z;
  led_brightness_upper : Z;
  kbd_brightness_lower : Z;
  kbd_brightness_upper : Z;
  display_als_level : Z;
  led_als_level : Z;
  kbd_als_level : Z;
  display_state : display_state_t;
  old_display_state : display_state_t;
  median_filter : median_filter_struct;
  als_poll_interval : Z;
  als_poll_timer_cb_id : nat;
  brightness_delay_timer_cb_id : nat;
  als_external_refcount : Z;
  als_owner_monitor_list : list string;
  cached_lower : Z;
  cached_upper : Z;
  display_brightness_pipe : Z;
  led_brightness_pipe : Z;
  key_backlight_pipe : Z;
  proximity_sensor_pipe : cover_state_t;
  sources : list (nat * source_cb);
  source_counter : nat;
  trace : list event
}.

Definition set_als_iomon_id (als_iomon_id' : option nat) (s : als_state) : als_state :=
  let 'Build_als_state _ x1 x2 x3 x4 x5 x6 x7 x8 x9 x10 x11 x12 x13 x14 x15 x16 x17 x18 x19
      x20 x21 x22 x23 x24 x25 x26 x27 x28 x29 := s in
  Build_als_state als_iomon_id' x1 x2 x3 x4 x5 x6 x7 x8 x9 x10 x11 x12 x13 x14 x15 x16 x17
      x18 x19 x20 x21 x22 x23 x24 x25 x26 x27 x28 x29.

Definition set_als_enabled (als_enabled' : bool) (s : als_state) : als_state :=
  let 'Build_als_state x0 _ x2 x3 x4 x5 x6 x7 x8 x9 x10 x11 x12 x13 x14 x15 x16 x17 x18 x19
      x20 x21 x22 x23 x24 x25 x26 x27 x28 x29 := s in
  Build_als_state x0 als_enabled' x2 x3 x4 x5 x6 x7 x8 x9 x10 x11 x12 x13 x14 x15 x16 x17
      x18 x19 x20 x21 x22 x23 x24 x25 x26 x27 x28 x29.

Definition set_als_lux (als_lux' : Z) (s : als_state) : als_state :=
  let 'Build_als_state x0 x1 _ x3 x4 x5 x6 x7 x8 x9 x10 x11 x12 x13 x14 x15 x16 x17 x18 x19
      x20 x21 x22 x23 x24 x25 x26 x27 x28 x29 := s in
  Build_als_state x0 x1 als_lux' x3 x4 x5 x6 x7 x8 x9 x10 x11 x12 x13 x14 x15 x16 x17 x18
      x19 x20 x21 x22 x23 x24 x25 x26 x27 x28 x29.

Definition set_delayed_lux (delayed_lux' : Z) (s : als_state) : als_state :=
  let 'Build_als_state x0 x1 x2 _ x4 x5 x6 x7 x8 x9 x10 x11 x12 x13 x14 x15 x16 x17 x18 x19
      x20 x21 x22 x23 x24 x25 x26 x27 x28 x29 := s in
  Build_als_state x0 x1 x2 delayed_lux' x4 x5 x6 x7 x8 x9 x10 x11 x12 x13 x14 x15 x16 x17
      x18 x19 x20 x21 x22 x23 x24 x25 x26 x27 x28 x29.

Definition set_display_thresholds (display_als_level' : Z) (display_brightness_lower' : Z) (display_brightness_upper' : Z) (s : als_state) : als_state :=
  let 'Build_als_state x0 x1 x2 x3 _ _ x6 x7 x8 x9 _ x11 x12 x13 x14 x15 x16 x17 x18 x19 x20
      x21 x22 x23 x24 x25 x26 x27 x28 x29 := s in
  Build_als_state x0 x1 x2 x3 display_brightness_lower' display_brightness_upper' x6 x7 x8
      x9 display_als_level' x11 x12 x13 x14 x15 x16 x17 x18 x19 x20 x21 x22 x23 x24 x25 x26
      x27 x28 x29.

Definition set_led_thresholds (led_als_level' : Z) (led_brightness_lower' : Z) (led_brightness_upper' : Z) (s : als_state) : als_state :=
  let 'Build_als_state x0 x1 x2 x3 x4 x5 _ _ x8 x9 x10 _ x12 x13 x14 x15 x16 x17 x18 x19 x20
      x21 x22 x23 x24 x25 x26 x27 x28 x29 := s in
  Build_als_state x0 x1 x2 x3 x4 x5 led_brightness_lower' led_brightness_upper' x8 x9 x10
      led_als_level' x12 x13 x14 x15 x16 x17 x18 x19 x20 x21 x22 x23 x24 x25 x26 x27 x28
      x29.

Definition set_kbd_thresholds (kbd_als_level' : Z) (kbd_brightness_lower' : Z) (kbd_brightness_upper' : Z) (s : als_state) : als_state :=
  let 'Build_als_state x0 x1 x2 x3 x4 x5 x6 x7 _ _ x10 x11 _ x13 x14 x15 x16 x17 x18 x19 x20
      x21 x22 x23 x24 x25 x26 x27 x28 x29 := s in
  Build_als_state x0 x1 x2 x3 x4 x5 x6 x7 kbd_brightness_lower' kbd_brightness_upper' x10
      x11 kbd_als_level' x13 x14 x15 x16 x17 x18 x19 x20 x21 x22 x23 x24 x25 x26 x27 x28
      x29.

Definition set_display_state (display_state' : display_state_t) (s : als_state) : als_state :=
  let 'Build_als_state x0 x1 x2 x3 x4 x5 x6 x7 x8 x9 x10 x11 x12 _ x14 x15 x16 x17 x18 x19
      x20 x21 x22 x23 x24 x25 x26 x27 x28 x29 := s in
  Build_als_state x0 x1 x2 x3 x4 x5 x6 x7 x8 x9 x10 x11 x12 display_state' x14 x15 x16 x17
      x18 x19 x20 x21 x22 x23 x24 x25 x26 x27 x28 x29.

Definition set_old_display_state (old_display_state' : display_state_t) (s : als_state) : als_state :=
  let 'Build_als_state x0 x1 x2 x3 x4 x5 x6 x7 x8 x9 x10 x11 x12 x13 _ x15 x16 x17 x18 x19
      x20 x21 x22 x23 x24 x25 x26 x27 x28 x29 := s in
  Build_als_state x0 x1 x2 x3 x4 x5 x6 x7 x8 x9 x10 x11 x12 x13 old_display_state' x15 x16
      x17 x18 x19 x20 x21 x22 x23 x24 x25 x26 x27 x28 x29.

Definition set_median_filter (median_filter' : median_filter_struct) (s : als_state) : als_state :=
  let 'Build_als_state x0 x1 x2 x3 x4 x5 x6 x7 x8 x9 x10 x11 x12 x13 x14 _ x16 x17 x18 x19
      x20 x21 x22 x23 x24 x25 x26 x27 x28 x29 := s in
  Build_als_state x0 x1 x2 x3 x4 x5 x6 x7 x8 x9 x10 x11 x12 x13 x14 median_filter' x16 x17
      x18 x19 x20 x21 x22 x23 x24 x25 x26 x27 x28 x29.

Definition set_als_poll_interval (als_poll_interval' : Z) (s : als_state) : als_state :=
  let 'Build_als_state x0 x1 x2 x3 x4 x5 x6 x7 x8 x9 x10 x11 x12 x13 x14 x15 _ x17 x18 x19
      x20 x21 x22 x23 x24 x25 x26 x27 x28 x29 := s in
  Build_als_state x0 x1 x2 x3 x4 x5 x6 x7 x8 x9 x10 x11 x12 x13 x14 x15 als_poll_interval'
      x17 x18 x19 x20 x21 x22 x23 x24 x25 x26 x27 x28 x29.

Definition set_als_poll_timer_cb_id (als_poll_timer_cb_id' : nat) (s : als_state) : als_state :=
  let 'Build_als_state x0 x1 x2 x3 x4 x5 x6 x7 x8 x9 x10 x11 x12 x13 x14 x15 x16 _ x18 x19
      x20 x21 x22 x23 x24 x25 x26 x27 x28 x29 := s in
  Build_als_state x0 x1 x2 x3 x4 x5 x6 x7 x8 x9 x10 x11 x12 x13 x14 x15 x16
      als_poll_timer_cb_id' x18 x19 x20 x21 x22 x23 x24 x25 x26 x27 x28 x29.

Definition set_brightness_delay_timer_cb_id (brightness_delay_timer_cb_id' : nat) (s : als_state) : als_state :=
  let 'Build_als_state x0 x1 x2 x3 x4 x5 x6 x7 x8 x9 x10 x11 x12 x13 x14 x15 x16 x17 _ x19
      x20 x21 x22 x23 x24 x25 x26 x27 x28 x29 := s in
  Build_als_state x0 x1 x2 x3 x4 x5 x6 x7 x8 x9 x10 x11 x12 x13 x14 x15 x16 x17
      brightness_delay_timer_cb_id' x19 x20 x21 x22 x23 x24 x25 x26 x27 x28 x29.

Definition set_als_external_refcount (als_external_refcount' : Z) (s : als_state) : als_state :=
  let 'Build_als_state x0 x1 x2 x3 x4 x5 x6 x7 x8 x9 x10 x11 x12 x13 x14 x15 x16 x17 x18 _
      x20 x21 x22 x23 x24 x25 x26 x27 x28 x29 := s in
  Build_als_state x0 x1 x2 x3 x4 x5 x6 x7 x8 x9 x10 x11 x12 x13 x14 x15 x16 x17 x18
      als_external_refcount' x20 x21 x22 x23 x24 x25 x26 x27 x28 x29.

Definition set_als_owner_monitor_list (als_owner_monitor_list' : list string) (s : als_state) : als_state :=
  let 'Build_als_state x0 x1 x2 x3 x4 x5 x6 x7 x8 x9 x10 x11 x12 x13 x14 x15 x16 x17 x18 x19
      _ x21 x22 x23 x24 x25 x26 x27 x28 x29 := s in
  Build_als_state x0 x1 x2 x3 x4 x5 x6 x7 x8 x9 x10 x11 x12 x13 x14 x15 x16 x17 x18 x19
      als_owner_monitor_list' x21 x22 x23 x24 x25 x26 x27 x28 x29.

Definition set_cached (cached_lower' : Z) (cached_upper' : Z) (s : als_state) : als_state :=
  let 'Build_als_state x0 x1 x2 x3 x4 x5 x6 x7 x8 x9 x10 x11 x12 x13 x14 x15 x16 x17 x18 x19
      x20 _ _ x23 x24 x25 x26 x27 x28 x29 := s in
  Build_als_state x0 x1 x2 x3 x4 x5 x6 x7 x8 x9 x10 x11 x12 x13 x14 x15 x16 x17 x18 x19 x20
      cached_lower' cached_upper' x23 x24 x25 x26 x27 x28 x29.

Definition set_sources (sources' : list (nat * source_cb)) (source_counter' : nat) (s : als_state) : als_state :=
  let 'Build_als_state x0 x1 x2 x3 x4 x5 x6 x7 x8 x9 x10 x11 x12 x13 x14 x15 x16 x17 x18 x19
      x20 x21 x22 x23 x24 x25 x26 _ _ x29 := s in
  Build_als_state x0 x1 x2 x3 x4 x5 x6 x7 x8 x9 x10 x11 x12 x13 x14 x15 x16 x17 x18 x19 x20
      x21 x22 x23 x24 x25 x26 sources' source_counter' x29.

Definition set_trace (trace' : list event) (s : als_state) : als_state :=
  let 'Build_als_state x0 x1 x2 x3 x4 x5 x6 x7 x8 x9 x10 x11 x12 x13 x14 x15 x16 x17 x18 x19
      x20 x21 x22 x23 x24 x25 x26 x27 x28 _ := s in
  Build_als_state x0 x1 x2 x3 x4 x5 x6 x7 x8 x9 x10 x11 x12 x13 x14 x15 x16 x17 x18 x19 x20
      x21 x22 x23 x24 x25 x26 x27 x28 trace'.

Definition emit (e : event) (s : als_state) : als_state :=
  set_trace (trace s ++ [e]) s.

Definition emit_all (es : list event) (s : als_state) : als_state :=
  set_trace (trace s ++ es) s.

(** The values of the static initialisers; the datapipes hold nothing
    yet and no source is registered. *)
Definition als_initial_state (mf : median_filter_struct) : als_state :=
  {| als_iomon_id := None;
     als_enabled := true;
     als_lux := -1;
     delayed_lux := -1;
     display_brightness_lower := -1;
     display_brightness_upper := -1;
     led_brightness_lower := -1;
     led_brightness_upper := -1;
     kbd_brightness_lower := -1;
     kbd_brightness_upper := -1;
     display_als_level := -1;
     led_als_level := -1;
     kbd_als_level := -1;
     display_state := MCE_DISPLAY_UNDEF;
     old_display_state := MCE_DISPLAY_UNDEF;
     median_filter := mf;
     als_poll_interval := ALS_DISPLAY_ON_POLL_FREQ;
     als_poll_timer_cb_id := 0%nat;
     brightness_delay_timer_cb_id := 0%nat;
     als_external_refcount := 0;
     als_owner_monitor_list := [];
     cached_lower := -1;
     cached_upper := -1;
     display_brightness_pipe := 0;
     led_brightness_pipe := 0;
     key_backlight_pipe := 0;
     proximity_sensor_pipe := COVER_UNDEF;
     sources := [];
     source_counter := 0%nat;
     trace := [] |}.

(** ** GLib timeout sources

    Modelled from the GLib contract ([g_timeout_add],
    [g_timeout_add_seconds], [g_source_remove]): a new source gets an id
    that is not 0 and not in use; removing drops the source. *)
Definition g_timeout_add (cb : source_cb) (s : als_state) : nat * als_state :=
  let id := S (source_counter s) in
  (id, set_sources (sources s ++ [(id, cb)]) id s).

Definition g_source_remove (id : nat) (s : als_state) : als_state :=
  set_sources (filter (fun src => negb (fst src =? id)%nat) (sources s))
              (source_counter s) s.

(** The delay timers the main loop currently holds. *)
Definition is_delay_source (src : nat * source_cb) : bool :=
  match snd src with
  | BRIGHTNESS_DELAY_TIMER_CB _ => true
  | ALS_POLL_TIMER_CB _ => false
  end.

Definition armed_delay_timers (s : als_state) : list (nat * source_cb) :=
  filter is_delay_source (sources s).

(** ** Profile evaluation: [filter_data] *)

(** [profiles[profile].range[i][k]] *)
Definition range_cell (p : als_profile_struct) (i k : nat) : Z :=
  let row := nth i (range p) (0, 0) in
  match k with
  | O => fst row
  | _ => snd row
  end.

(** [(((i + 1) - tmp) > 0) ? 1 : 0] *)
Definition boundary_column (tmp : Z) (i : nat) : nat :=
  if Z.of_nat i + 1 - tmp >? 0 then 1%nat else 0%nat.

(** [if (tmp == -1) tmp = 0; else if (tmp > ALS_RANGES) tmp = ALS_RANGES;] *)
Definition clamp_level (level : Z) : Z :=
  if level =? -1 then 0
  else if level >? Z.of_nat ALS_RANGES then Z.of_nat ALS_RANGES
  else level.

(** The [for] loop; [fuel] is the number of indices left below
    [ALS_RANGES].  Returns the final [i] and [*level]. *)
Fixpoint filter_data_scan (p : als_profile_struct) (lux tmp : Z)
         (fuel i : nat) (level : Z) : nat * Z :=
  match fuel with
  | O => (i, level)
  | S fuel' =>
      let level := Z.of_nat i in
      if range_cell p i 0 =? -1 then (i, level)
      else if lux <? range_cell p i (boundary_column tmp i) then (i, level)
      else filter_data_scan p lux tmp fuel' (S i) level
  end.

Record filter_result := {
  fr_value : Z;          (* the return value *)
  fr_level : Z;          (* *level *)
  fr_lower : Z;          (* *lower *)
  fr_upper : Z;          (* *upper *)
  fr_log : list event
}.

(** [profiles[profile]] *)
Definition profile_at (profiles : list als_profile_struct) (profile : Z)
  : als_profile_struct :=
  nth (Z.to_nat profile) profiles {| range := []; value := [] |}.

Definition filter_data (profiles : list als_profile_struct) (profile : Z)
           (lux level : Z) : filter_result :=
  let p := profile_at profiles profile in
  let tmp := clamp_level level in
  let '(i, level) := filter_data_scan p lux tmp ALS_RANGES 0 level in
  let lower := if (i =? 0)%nat then 0 else range_cell p (i - 1) 0 in
  let missing := (ALS_RANGES <=? i)%nat in
  let upper :=
    if missing then 65535
    else if range_cell p i 1 =? -1 then 65535
    else range_cell p i 1 in
  {| fr_value := nth (Z.to_nat level) (value p) 0;
     fr_level := level;
     fr_lower := lower;
     fr_upper := upper;
     fr_log := if missing
               then [EvLog LL_CRIT "The ALS profile lacks terminating { -1, -1 }"]
               else [] |}.

(** ** The three datapipe filters *)

Definition display_is_off (d : display_state_t) : bool :=
  match d with
  | MCE_DISPLAY_OFF | MCE_DISPLAY_LPM_OFF | MCE_DISPLAY_LPM_ON => true
  | _ => false
  end.

Definition display_is_on (d : display_state_t) : bool :=
  match d with
  | MCE_DISPLAY_ON | MCE_DISPLAY_DIM => true
  | _ => false
  end.

(** ** Device detection: [get_als_type] *)

(** The static initialisers of what [get_als_type] assigns, with the
    step-down configuration at its defaults. *)
Definition als_config_unset : als_config :=
  {| als_type := ALS_TYPE_UNSET;
     als_calib0_path := None;
     als_calib1_path := None;
     als_threshold_range_path := None;
     use_median_filter := false;
     display_als_profiles := None;
     led_als_profiles := None;
     kbd_als_profiles := None;
     display_cpa_profiles := None;
     display_cpa_enabled := false;
     display_cpa_enable_path := None;
     display_cpa_coefficients_path := None;
     brightness_stepdown_delay := ALS_BRIGHTNESS_STEPDOWN_DELAY;
     brightness_step_down_policy := BRIGHTNESS_STEP_DIRECT |}.

(** "If the range path doesn't exist, disable it" *)
Definition checked_range_path (probe : als_probe) (path : option string)
  : option string :=
  match path with
  | Some p => if threshold_range_writable probe then Some p else None
  | None => None
  end.

Definition get_als_type (t : als_tables) (probe : als_probe) (c : als_config)
  : als_config :=
  match als_type c with
  | ALS_TYPE_UNSET =>
      if avago_readable probe then
        {| als_type := ALS_TYPE_AVAGO;
           als_calib0_path := Some (ALS_CALIB_PATH_AVAGO t);
           als_calib1_path := als_calib1_path c;
           als_threshold_range_path :=
             checked_range_path probe (Some (ALS_THRESHOLD_RANGE_PATH_AVAGO t));
           use_median_filter := false;
           display_als_profiles := Some (display_als_profiles_rm696 t);
           led_als_profiles := Some (led_als_profiles_rm696 t);
           kbd_als_profiles := kbd_als_profiles c;
           display_cpa_profiles :=
             if cpa_enable_writable probe then Some (rm696_phase_profile t)
             else display_cpa_profiles c;
           display_cpa_enabled := display_cpa_enabled c;
           display_cpa_enable_path := Some (COLOUR_PHASE_ENABLE_PATH t);
           display_cpa_coefficients_path := Some (COLOUR_PHASE_COEFFICIENTS_PATH t);
           brightness_stepdown_delay := brightness_stepdown_delay c;
           brightness_step_down_policy := brightness_step_down_policy c |}
      else if dipro_readable probe then
        {| als_type := ALS_TYPE_DIPRO;
           als_calib0_path := Some (ALS_CALIB_PATH_DIPRO t);
           als_calib1_path := als_calib1_path c;
           als_threshold_range_path :=
             checked_range_path probe (Some (ALS_THRESHOLD_RANGE_PATH_DIPRO t));
           use_median_filter := false;
           display_als_profiles := Some (display_als_profiles_rm680 t);
           led_als_profiles := Some (led_als_profiles_rm680 t);
           kbd_als_profiles := Some (kbd_als_profiles_rm680 t);
           display_cpa_profiles :=
             if cpa_enable_writable probe then Some (rm680_phase_profile t)
             else display_cpa_profiles c;
           display_cpa_enabled := display_cpa_enabled c;
           display_cpa_enable_path := Some (COLOUR_PHASE_ENABLE_PATH t);
           display_cpa_coefficients_path := Some (COLOUR_PHASE_COEFFICIENTS_PATH t);
           brightness_stepdown_delay := brightness_stepdown_delay c;
           brightness_step_down_policy := brightness_step_down_policy c |}
      else if tsl2563_readable probe then
        {| als_type := ALS_TYPE_TSL2563;
           als_calib0_path := Some (ALS_CALIB0_PATH_TSL2563 t);
           als_calib1_path := Some (ALS_CALIB1_PATH_TSL2563 t);
           als_threshold_range_path :=
             checked_range_path probe (als_threshold_range_path c);
           use_median_filter := true;
           display_als_profiles := Some (display_als_profiles_rx51 t);
           led_als_profiles := Some (led_als_profiles_rx51 t);
           kbd_als_profiles := Some (kbd_als_profiles_rx51 t);
           display_cpa_profiles := display_cpa_profiles c;
           display_cpa_enabled := display_cpa_enabled c;
           display_cpa_enable_path := display_cpa_enable_path c;
           display_cpa_coefficients_path := display_cpa_coefficients_path c;
           brightness_stepdown_delay := brightness_stepdown_delay c;
           brightness_step_down_policy := brightness_step_down_policy c |}
      else if tsl2562_readable probe then
        {| als_type := ALS_TYPE_TSL2562;
           als_calib0_path := Some (ALS_CALIB0_PATH_TSL2562 t);
           als_calib1_path := Some (ALS_CALIB1_PATH_TSL2562 t);
           als_threshold_range_path :=
             checked_range_path probe (als_threshold_range_path c);
           use_median_filter := true;
           display_als_profiles := Some (display_als_profiles_rx44 t);
           led_als_profiles := Some (led_als_profiles_rx44 t);
           kbd_als_profiles := Some (kbd_als_profiles_rx44 t);
           display_cpa_profiles := display_cpa_profiles c;
           display_cpa_enabled := display_cpa_enabled c;
           display_cpa_enable_path := display_cpa_enable_path c;
           display_cpa_coefficients_path := display_cpa_coefficients_path c;
           brightness_stepdown_delay := brightness_stepdown_delay c;
           brightness_step_down_policy := brightness_step_down_policy c |}
      else
        {| als_type := ALS_TYPE_NONE;
           als_calib0_path := als_calib0_path c;
           als_calib1_path := als_calib1_path c;
           als_threshold_range_path :=
             checked_range_path probe (als_threshold_range_path c);
           use_median_filter := use_median_filter c;
           display_als_profiles := display_als_profiles c;
           led_als_profiles := led_als_profiles c;
           kbd_als_profiles := kbd_als_profiles c;
           display_cpa_profiles := display_cpa_profiles c;
           display_cpa_enabled := display_cpa_enabled c;
           display_cpa_enable_path := display_cpa_enable_path c;
           display_cpa_coefficients_path := display_cpa_coefficients_path c;
           brightness_stepdown_delay := brightness_stepdown_delay c;
           brightness_step_down_policy := brightness_step_down_policy c |}
  | _ => c
  end.

Section Callbacks.

Variable cfg : als_config.

Definition display_brightness_filter (data : Z) (s : als_state) : Z * als_state :=
  let raw := data - 1 in
  if display_is_off (display_state s) then (0, s)
  else
    let raw := if raw <? ALS_PROFILE_MINIMUM then ALS_PROFILE_MINIMUM
               else if raw >? ALS_PROFILE_MAXIMUM then ALS_PROFILE_MAXIMUM
               else raw in
    match als_enabled s, display_als_profiles cfg with
    | true, Some profiles =>
        let r := filter_data profiles raw (als_lux s) (display_als_level s) in
        (fr_value r,
         emit_all (fr_log r)
           (set_display_thresholds (fr_level r) (fr_lower r) (fr_upper r) s))
    | _, _ => ((raw + 1) * 20, s)
    end.

Definition led_brightness_filter (data : Z) (s : als_state) : Z * als_state :=
  match als_enabled s, led_als_profiles cfg with
  | true, Some profiles =>
      let r := filter_data profiles ALS_PROFILE_NORMAL (als_lux s) (led_als_level s) in
      (Z.quot (data * fr_value r) 100,
       emit_all (fr_log r)
         (set_led_thresholds (fr_level r) (fr_lower r) (fr_upper r) s))
  | _, _ => (data, s)
  end.

Definition key_backlight_filter (data : Z) (s : als_state) : Z * als_state :=
  match als_enabled s, kbd_als_profiles cfg with
  | true, Some profiles =>
      let r := filter_data profiles ALS_PROFILE_NORMAL (als_lux s) (kbd_als_level s) in
      (Z.quot (data * fr_value r) 100,
       emit_all (fr_log r)
         (set_kbd_thresholds (fr_level r) (fr_lower r) (fr_upper r) s))
  | _, _ => (data, s)
  end.

(** Modelled from the spec: [datapipe.c] is not among the sources.
    [execute_datapipe(&pipe, NULL, USE_CACHE, DONT_CACHE_INDATA)]
    threads the cached value of the pipe through the filters and hands
    the output to the triggers without caching it; the filter of this
    module is the one that is run here, the output is recorded. *)
Definition execute_datapipe (pipe : datapipe_t) (s : als_state) : als_state :=
  let '(output, s') :=
    match pipe with
    | display_brightness_pipe_id =>
        display_brightness_filter (display_brightness_pipe s) s
    | led_brightness_pipe_id =>
        led_brightness_filter (led_brightness_pipe s) s
    | key_backlight_pipe_id =>
        key_backlight_filter (key_backlight_pipe s) s
    end in
  emit (EvDatapipe pipe output) s'.

(** "Re-filter the brightness" *)
Definition refilter_brightness (s : als_state) : als_state :=
  execute_datapipe key_backlight_pipe_id
    (execute_datapipe led_brightness_pipe_id
       (execute_datapipe display_brightness_pipe_id s)).

(** ** Median filter wrappers and the device read *)

Definition als_median_filter_init (s : als_state) : bool * als_state :=
  if negb (use_median_filter cfg) then (true, s)
  else
    let '(mf, ok) := median_filter_init (median_filter s) MEDIAN_FILTER_WINDOW_SIZE in
    let s := set_median_filter mf s in
    if ok then (true, s)
    else (false,
          set_als_enabled false (emit (EvLog LL_CRIT "median_filter_init() failed") s)).

Definition als_median_filter_map (v : Z) (s : als_state) : Z * als_state :=
  if use_median_filter cfg then
    let '(mf, filtered) := median_filter_map (median_filter s) v in
    (filtered, set_median_filter mf s)
  else (v, s).

(** [raw] is what the device read produced: [None] for a failed or
    short read, [Some lux] otherwise (saturation already mapped to
    [G_MAXINT]). *)
Definition als_read_value_filtered (raw : option Z) (s : als_state) : Z * als_state :=
  if negb (als_enabled s) then (-2, s)
  else
    match raw with
    | None => (-1, s)
    | Some lux => als_median_filter_map lux s
    end.

(** ** Threshold adjustment: [adjust_als_thresholds] *)

Definition adjust_als_thresholds (lower upper : Z) (s : als_state) : als_state :=
  match als_threshold_range_path cfg with
  | None => s
  | Some path =>
      let '(lower, upper, s) :=
        if (lower >? upper) || ((lower =? upper) && (lower =? 0)) then
          (0, 0, s)
        else if (lower =? upper) && (lower =? -1) then
          if cached_lower s =? -1 then (0, 0, s)
          else (cached_lower s, cached_upper s, s)
        else if (lower =? 0) && (upper =? 65535) then
          (lower, upper, s)
        else
          (lower, upper, set_cached lower upper s) in
      emit (EvWriteThreshold path lower upper) s
  end.

(** [ptr != NULL] *)
Definition not_null {A : Type} (ptr : option A) : bool :=
  match ptr with
  | Some _ => true
  | None => false
  end.

(** GLib's [MAX] and [MIN] *)
Definition MAX (a b : Z) : Z := if a >? b then a else b.
Definition MIN (a b : Z) : Z := if a <? b then a else b.

(** "The lower threshold is the largest of the lower thresholds",
    "the upper threshold is the smallest of the upper thresholds" *)
Definition merged_thresholds (s : als_state) : Z * Z :=
  let lower := display_brightness_lower s in
  let lower := if not_null (led_als_profiles cfg) then MAX lower (led_brightness_lower s) else lower in
  let lower := if not_null (kbd_als_profiles cfg) then MAX lower (kbd_brightness_lower s) else lower in
  let upper := display_brightness_upper s in
  let upper := if not_null (led_als_profiles cfg) then MIN upper (led_brightness_upper s) else upper in
  let upper := if not_null (kbd_als_profiles cfg) then MIN upper (kbd_brightness_upper s) else upper in
  (lower, upper).

(** ** Colour phase adjustment *)

Fixpoint cpa_find (profiles : list cpa_profile_struct) (lux : Z)
  : option cpa_profile_struct :=
  match profiles with
  | [] => None
  | p :: rest =>
      if fst (cpa_range p) =? -1 then None
      else if (lux >=? fst (cpa_range p))
              && ((lux <? snd (cpa_range p)) || (snd (cpa_range p) =? -1))
      then Some p
      else cpa_find rest lux
  end.

(** [mce_write_string_to_file(path, str)]; nothing reaches a file
    when [path] is [NULL]. *)
Definition write_string (path : option string) (str : string) (s : als_state)
  : als_state :=
  match path with
  | Some path => emit (EvWriteString path str) s
  | None => s
  end.

Definition adjust_colour_phase (s : als_state) : als_state :=
  match display_cpa_profiles cfg with
  | None => s
  | Some profiles =>
      match cpa_find profiles (als_lux s) with
      | None => s
      | Some p =>
          let s := write_string (display_cpa_coefficients_path cfg) (coefficients p) s in
          if display_cpa_enabled cfg then s
          else write_string (display_cpa_enable_path cfg) "1" s
      end
  end.

(** The statements both [als_poll_timer_cb] and [als_iomon_common] run
    once they have accepted [new_lux]: store it, re-filter the three
    pipes, adjust the colour phase, merge the thresholds and write them
    unless the sensor is externally owned. *)
Definition als_lux_update (new_lux : Z) (s : als_state) : als_state :=
  let s := set_als_lux new_lux s in
  let s := refilter_brightness s in
  let s := adjust_colour_phase s in
  let '(lower, upper) := merged_thresholds s in
  if als_external_refcount s =? 0 then adjust_als_thresholds lower upper s
  else s.

(** "no readjustment is needed if the read is identical to the old
    value, unless we've never set the threshold values before" *)
Definition lux_unusable (new_lux : Z) (s : als_state) : bool :=
  (new_lux =? -1)
  || ((als_lux s =? new_lux) && negb (display_brightness_lower s =? -1)).

(** ** Timer callbacks *)

Definition als_poll_timer_cb (raw : option Z) (s : als_state) : bool * als_state :=
  let '(new_lux, s) := als_read_value_filtered raw s in
  if new_lux =? -2 then (false, set_als_poll_timer_cb_id 0%nat s)
  else if lux_unusable new_lux s then (true, s)
  else (true, als_lux_update new_lux s).

Definition cancel_brightness_delay_timer (s : als_state) : als_state :=
  if (brightness_delay_timer_cb_id s =? 0)%nat then s
  else set_brightness_delay_timer_cb_id 0%nat
         (g_source_remove (brightness_delay_timer_cb_id s) s).

Definition als_iomon_common (lux : Z) (no_delay : bool) (s : als_state) : als_state :=
  let proximity_sensor_state := proximity_sensor_pipe s in
  let '(new_lux, s) := als_median_filter_map lux s in
  if lux_unusable new_lux s then s
  else
    match proximity_sensor_state with
    | COVER_CLOSED => s
    | _ =>
        if als_lux s >? new_lux then
          if no_delay then
            als_lux_update new_lux (set_brightness_delay_timer_cb_id 0%nat s)
          else
            let s :=
              if (brightness_delay_timer_cb_id s =? 0)%nat then
                let '(id, s) :=
                  g_timeout_add
                    (BRIGHTNESS_DELAY_TIMER_CB (brightness_stepdown_delay cfg)) s in
                set_brightness_delay_timer_cb_id id s
              else s in
            set_delayed_lux lux s
        else
          als_lux_update new_lux (cancel_brightness_delay_timer s)
    end.

(** The step-down branch that defers: at most a timer is armed and the
    pending lux is recorded. *)
Definition defer_step_down (lux : Z) (s : als_state) : als_state :=
  set_delayed_lux lux
    (if (brightness_delay_timer_cb_id s =? 0)%nat then
       let '(id, s) :=
         g_timeout_add (BRIGHTNESS_DELAY_TIMER_CB (brightness_stepdown_delay cfg)) s in
       set_brightness_delay_timer_cb_id id s
     else s).

Definition brightness_delay_timer_cb (s : als_state) : bool * als_state :=
  (false, als_iomon_common (delayed_lux s) true s).

(** ** Poll timer and I/O monitor set-up *)

Definition cancel_als_poll_timer (s : als_state) : als_state :=
  let s :=
    match als_iomon_id s with
    | Some id => set_als_iomon_id None (emit (EvUnregisterIoMonitor id) s)
    | None => s
    end in
  if (als_poll_timer_cb_id s =? 0)%nat then s
  else set_als_poll_timer_cb_id 0%nat (g_source_remove (als_poll_timer_cb_id s) s).

(** [iomon] is what [mce_register_io_monitor_chunk] returns if it is
    called. *)
Definition setup_als_poll_timer (iomon : option nat) (s : als_state) : als_state :=
  if als_poll_interval s =? 0 then emit EvCloseFile (cancel_als_poll_timer s)
  else
    match als_type cfg with
    | ALS_TYPE_AVAGO | ALS_TYPE_DIPRO =>
        match als_iomon_id s with
        | Some _ => s
        | None => set_als_iomon_id iomon s
        end
    | _ =>
        let s := cancel_als_poll_timer s in
        let '(id, s) := g_timeout_add (ALS_POLL_TIMER_CB (als_poll_interval s)) s in
        set_als_poll_timer_cb_id id s
    end.

(** [data] is [None] when [bytes_read] is not the size of the record. *)
Definition als_dipro_iomon_cb (data : option Z) (s : als_state) : als_state :=
  match data with
  | None => cancel_als_poll_timer (set_als_poll_timer_cb_id 0%nat s)
  | Some lux => als_iomon_common lux false s
  end.

Definition G_MAXINT : Z := 2147483647.

(** The record of the Avago sensor: lux and the two status bits. *)
Definition als_avago_iomon_cb (data : option (Z * bool * bool)) (s : als_state)
  : als_state :=
  match data with
  | None => cancel_als_poll_timer (set_als_poll_timer_cb_id 0%nat s)
  | Some (lux, updated, saturated) =>
      if negb updated then s
      else if saturated then als_iomon_common G_MAXINT false s
      else als_iomon_common lux false s
  end.

(** ** Display state changes: [display_state_trigger] *)

Definition poll_interval_for (d : display_state_t) : Z :=
  match d with
  | MCE_DISPLAY_OFF | MCE_DISPLAY_LPM_OFF | MCE_DISPLAY_LPM_ON =>
      ALS_DISPLAY_OFF_POLL_FREQ
  | MCE_DISPLAY_DIM => ALS_DISPLAY_DIM_POLL_FREQ
  | MCE_DISPLAY_UNDEF | MCE_DISPLAY_ON => ALS_DISPLAY_ON_POLL_FREQ
  end.

(** "Reprogram timer, if needed", then the [EXIT] label. *)
Definition display_state_reprogram (old_als_poll_interval : Z) (iomon : option nat)
           (s : als_state) : als_state :=
  let s :=
    if negb (als_poll_interval s =? old_als_poll_interval)
       || ((als_poll_timer_cb_id s =? 0)%nat && negb (not_null (als_iomon_id s)))
    then setup_als_poll_timer iomon s
    else s in
  set_old_display_state (display_state s) s.

Definition display_state_trigger (raw : option Z) (iomon : option nat)
           (data : display_state_t) (s : als_state) : als_state :=
  let old_als_poll_interval := als_poll_interval s in
  let s := set_display_state data s in
  if negb (als_enabled s) then set_old_display_state (display_state s) s
  else
    let s := set_als_poll_interval (poll_interval_for (display_state s)) s in
    if display_is_off (old_display_state s) && display_is_on (display_state s) then
      let s := cancel_als_poll_timer s in
      let '(ok, s) :=
        if ALS_DISPLAY_OFF_FLUSH_FILTER then als_median_filter_init s else (true, s) in
      if negb ok then set_old_display_state (display_state s) s
      else
        let '(new_lux, s) := als_read_value_filtered raw s in
        let s :=
          if (new_lux >=? 0)
             && (negb (als_lux s =? new_lux)
                 || match brightness_step_down_policy cfg with
                    | BRIGHTNESS_STEP_UNBLANK => true
                    | BRIGHTNESS_STEP_DIRECT => false
                    end)
          then refilter_brightness s
          else s in
        display_state_reprogram old_als_poll_interval iomon
          (adjust_als_thresholds (-1) (-1) s)
    else if display_is_on (old_display_state s) && display_is_off (display_state s) then
      display_state_reprogram old_als_poll_interval iomon
        (adjust_als_thresholds 0 65535 s)
    else
      display_state_reprogram old_als_poll_interval iomon s.

(** ** External ownership *)

(** Modelled from the spec: [mce_dbus_owner_monitor_add] lives in
    [mce-dbus.c], which is not among the sources.  The tracked
    requesters form a set whose size is the count; a request is
    idempotent per requester; a request beyond the capacity fails
    ([-1]) without side effects; otherwise the new count is returned. *)
Definition mce_dbus_owner_monitor_add (service : string) (monitor_list : list string)
           (max_num : nat) : Z * list string :=
  if existsb (String.eqb service) monitor_list then
    (Z.of_nat (List.length monitor_list), monitor_list)
  else if (max_num <=? List.length monitor_list)%nat then (-1, monitor_list)
  else (Z.of_nat (S (List.length monitor_list)), service :: monitor_list).

(** Modelled from the spec: [mce_dbus_owner_monitor_remove] lives in
    [mce-dbus.c], which is not among the sources.  Releasing an unknown
    requester fails ([-1]) without state change; otherwise the
    requester leaves the set and the new count is returned. *)
Definition mce_dbus_owner_monitor_remove (service : string) (monitor_list : list string)
  : Z * list string :=
  if existsb (String.eqb service) monitor_list then
    let l := filter (fun x => negb (String.eqb service x)) monitor_list in
    (Z.of_nat (List.length l), l)
  else (-1, monitor_list).

(** The parts of a method call the handlers look at; [sent] is the
    result of [dbus_send_message] should a reply be sent. *)
Record dbus_request := {
  sender : option string;
  no_reply : bool;
  sent : bool
}.

(** [msg] is [None] when [dbus_message_get_args] fails, otherwise the
    three strings of [NameOwnerChanged]. *)
Definition als_owner_monitor_dbus_cb (msg : option (string * string * string))
           (s : als_state) : bool * als_state :=
  match msg with
  | None => (false, emit (EvLog LL_ERR "Failed to get argument") s)
  | Some (_, old_name, _) =>
      let '(retval, l) :=
        mce_dbus_owner_monitor_remove old_name (als_owner_monitor_list s) in
      let s := set_als_owner_monitor_list l s in
      if retval =? -1 then
        (true, emit (EvLog LL_INFO "Failed to remove name owner monitoring") s)
      else
        let s := set_als_external_refcount retval s in
        (true,
         if als_external_refcount s =? 0 then adjust_als_thresholds (-1) (-1) s
         else s)
  end.

Definition als_enable_req_dbus_cb (msg : dbus_request) (s : als_state)
  : bool * als_state :=
  match sender msg with
  | None => (false, emit (EvLog LL_ERR "Received invalid ALS enable request") s)
  | Some sender =>
      let s := emit (EvLog LL_DEBUG "Received ALS enable request") s in
      let '(retval, l) :=
        mce_dbus_owner_monitor_add sender (als_owner_monitor_list s)
                                   ALS_MAX_MONITORED in
      let s := set_als_owner_monitor_list l s in
      let s :=
        if retval =? -1 then
          emit (EvLog LL_INFO "Failed to add name owner monitoring") s
        else
          let s := set_als_external_refcount retval s in
          if als_external_refcount s =? 1 then adjust_als_thresholds 0 0 s
          else s in
      (if no_reply msg then true else sent msg, s)
  end.

Definition als_disable_req_dbus_cb (msg : dbus_request) (s : als_state)
  : bool * als_state :=
  match sender msg with
  | None => (false, emit (EvLog LL_ERR "Received invalid ALS disable request") s)
  | Some sender =>
      let s := emit (EvLog LL_DEBUG "Received ALS disable request") s in
      let '(retval, l) :=
        mce_dbus_owner_monitor_remove sender (als_owner_monitor_list s) in
      let s := set_als_owner_monitor_list l s in
      let s :=
        if retval =? -1 then
          emit (EvLog LL_INFO "Failed to remove name owner monitoring") s
        else
          let s := set_als_external_refcount retval s in
          if als_external_refcount s =? 0 then adjust_als_thresholds (-1) (-1) s
          else s in
      (if no_reply msg then true else sent msg, s)
  end.

(** ** The main loop dispatching a timeout source

    Modelled from the GLib contract: the callback of the source runs;
    a callback that returns [FALSE] has its source removed. *)
Definition dispatch_timeout (id : nat) (raw : option Z) (s : als_state) : als_state :=
  match find (fun src => (fst src =? id)%nat) (sources s) with
  | None => s
  | Some (_, cb) =>
      let '(keep, s) :=
        match cb with
        | ALS_POLL_TIMER_CB _ => als_poll_timer_cb raw s
        | BRIGHTNESS_DELAY_TIMER_CB _ => brightness_delay_timer_cb s
        end in
      if keep then s else g_source_remove id s
  end.

(** ** Calibration: [calibrate_als] *)

(** [get_sysinfo_value] of [mce-hal.c], built with
    [ENABLE_SYSINFOD_QUERIES]: [reply] is the byte array of the D-Bus
    reply, [None] when the blocking call fails.  Returns the status and
    the array ([*len] is its length). *)
Definition get_sysinfo_value (reply : option (list Byte.byte)) : bool * list Byte.byte :=
  match reply with
  | Some array => (true, array)
  | None => (false, [])
  end.

Definition byte_val (b : Byte.byte) : Z := Z.of_N (Byte.to_N b).

(** [memcpy(&calib, tmp, sizeof (guint32))] on the little-endian
    targets of the daemon: the first four bytes of [tmp]. *)
Definition memcpy_guint32 (tmp : list Byte.byte) : Z :=
  byte_val (nth 0 tmp Byte.x00)
  + Z.shiftl (byte_val (nth 1 tmp Byte.x00)) 8
  + Z.shiftl (byte_val (nth 2 tmp Byte.x00)) 16
  + Z.shiftl (byte_val (nth 3 tmp Byte.x00)) 24.

Definition calibrate_als (reply : option (list Byte.byte)) : list event :=
  if negb (not_null (als_calib0_path cfg)) && negb (not_null (als_calib1_path cfg))
  then []
  else
    let '(ok, tmp) := get_sysinfo_value reply in
    if negb ok then [EvLog LL_ERR "Failed to retrieve calibration data"]
    else
      let len := List.length tmp in
      if negb (len mod 4 =? 0)%nat then
        [EvLog LL_ERR "Invalid calibration data returned"]
      else
        let count := (len / 4)%nat in
        if (count =? 0)%nat then [EvLog LL_INFO "No calibration data available"]
        else
          (* switch (count): default falls through to case 2, case 2 to case 1 *)
          let excess :=
            if (2 <? count)%nat
            then [EvLog LL_INFO "Ignored excess calibration data"]
            else [] in
          let calib1 := if (2 <=? count)%nat then memcpy_guint32 tmp else 0 in
          let calib0 := memcpy_guint32 tmp in
          excess
          ++ match als_calib0_path cfg with
             | Some path => [EvWriteNumber path calib0]
             | None => []
             end
          ++ match als_calib1_path cfg with
             | Some path => if (1 <? count)%nat then [EvWriteNumber path calib1] else []
             | None => []
             end.

End Callbacks.

(** ** Vocabulary of the properties *)

(** The bands written to the threshold channel, in order. *)
Definition threshold_writes (es : list event) : list (Z * Z) :=
  flat_map (fun e => match e with
                     | EvWriteThreshold _ lower upper => [(lower, upper)]
                     | _ => []
                     end) es.

(** The column rule in the words of the design document: the lower
    boundary when the scan index is at or below the level, the upper
    boundary otherwise. *)
Definition boundary_column_at_or_below (L : Z) (i : nat) : nat :=
  if Z.of_nat i <=? L then 0%nat else 1%nat.

(** Row [i] ends the scan under the column rule [col]: it is the
    sentinel row, or its chosen boundary exceeds [lux]. *)
Definition scan_stops (col : Z -> nat -> nat) (p : als_profile_struct)
           (lux L : Z) (i : nat) : Prop :=
  range_cell p i 0 = -1 \/ lux < range_cell p i (col (clamp_level L) i).

(** [r] is the outcome of a scan under [col] that ends at row [n]. *)
Definition evaluator_outcome (col : Z -> nat -> nat) (p : als_profile_struct)
           (lux L : Z) (r : filter_result) (n : nat) : Prop :=
  fr_level r = Z.of_nat n
  /\ scan_stops col p lux L n
  /\ (forall j, (j < n)%nat -> ~ scan_stops col p lux L j)
  /\ fr_lower r = (if (n =? 0)%nat then 0 else range_cell p (n - 1) 0)
  /\ fr_upper r = (if range_cell p n 1 =? -1 then 65535 else range_cell p n 1).

(** The two bands that are never cached. *)
Definition degenerate_band (b : Z * Z) : bool :=
  ((fst b =? 0) && (snd b =? 0)) || ((fst b =? 0) && (snd b =? 65535)).

(** The last band of [ws] that is neither (0,0) nor (0,65535). *)
Definition last_nondegenerate (ws : list (Z * Z)) : option (Z * Z) :=
  fold_left (fun acc b => if degenerate_band b then acc else Some b) ws None.

Definition cached_band (s : als_state) : Z * Z :=
  (cached_lower s, cached_upper s).

(** The band a request comes to in the words of the design document:
    the restore request (-1,-1) stands for the band cached last, or
    for (0,0) when there is none; a request with its bounds out of
    order is turned into (0,0); every other request, the two special
    bands (0,0) and (0,65535) among them, is written as it is. *)
Definition written_band (r : Z * Z) (cached : option (Z * Z)) : Z * Z :=
  if fst r >? snd r then (0, 0)
  else if (fst r =? -1) && (snd r =? -1) then
    match cached with
    | Some c => c
    | None => (0, 0)
    end
  else r.

(** A sequence of calls of [adjust_als_thresholds]. *)
Definition run_adjust (cfg : als_config) (reqs : list (Z * Z)) (s : als_state)
  : als_state :=
  fold_left (fun s r => adjust_als_thresholds cfg (fst r) (snd r) s) reqs s.

(** The requests the module makes: a lower bound of -1 only comes with
    an upper bound that is -1 or less, that is in the restore request
    (-1,-1) or in a request with [lower > upper]; no band to be cached
    has the lower bound -1. *)
Definition caller_band (r : Z * Z) : Prop :=
  fst r = -1 -> snd r <= -1.

Definition is_threshold_write (e : event) : bool :=
  match e with
  | EvWriteThreshold _ _ _ => true
  | _ => false
  end.

(** The state with what the three datapipe filters own blanked out:
    the per-consumer levels and bounds, and every event that is not a
    threshold write.  Two states with the same image differ at most
    there. *)
Definition outside_filters (s : als_state) : als_state :=
  set_trace (filter is_threshold_write (trace s))
    (set_display_thresholds 0 0 0
       (set_led_thresholds 0 0 0
          (set_kbd_thresholds 0 0 0 s))).

(** What the restore request (-1,-1) writes. *)
Definition restore_band (s : als_state) : Z * Z :=
  if cached_lower s =? -1 then (0, 0) else cached_band s.

(** The refcount is the number of tracked owners. *)
Definition refcount_consistent (s : als_state) : Prop :=
  als_external_refcount s = Z.of_nat (List.length (als_owner_monitor_list s)).

(** [who] is one of the tracked owners. *)
Definition tracked (who : string) (s : als_state) : bool :=
  existsb (String.eqb who) (als_owner_monitor_list s).

(** [who] is tracked already or there is room for one more owner. *)
Definition can_track (who : string) (s : als_state) : bool :=
  tracked who s
  || (List.length (als_owner_monitor_list s) <? ALS_MAX_MONITORED)%nat.


(** A consumer whose lower bound is still the initial -1 has an upper
    bound of at most -1: its filter has not run yet. *)
Definition bounds_paired (s : als_state) : Prop :=
  (display_brightness_lower s = -1 -> display_brightness_upper s <= -1)
  /\ (led_brightness_lower s = -1 -> led_brightness_upper s <= -1)
  /\ (kbd_brightness_lower s = -1 -> kbd_brightness_upper s <= -1).

(** The per-consumer bands of the consumers whose profile table is
    configured. *)
Definition active_bands (cfg : als_config) (s : als_state) : list (Z * Z) :=
  (if not_null (display_als_profiles cfg)
   then [(display_brightness_lower s, display_brightness_upper s)] else [])
  ++ (if not_null (led_als_profiles cfg)
      then [(led_brightness_lower s, led_brightness_upper s)] else [])
  ++ (if not_null (kbd_als_profiles cfg)
      then [(kbd_brightness_lower s, kbd_brightness_upper s)] else []).

End Model.

(** Merging bands one after the other, in the order of the list:
    the largest lower bound and the smallest upper bound. *)
Definition band_merge (a b : Z * Z) : Z * Z :=
  (Z.max (fst a) (fst b), Z.min (snd a) (snd b)).

Definition band_union (bands : list (Z * Z)) : option (Z * Z) :=
  match bands with
  | [] => None
  | b :: rest => Some (fold_left band_merge rest b)
  end.

(** ** Concrete instances used to run the model *)

(** Eleven ranges, five profiles, polling stopped while the display is
    off; the median filter is the identity. *)
Definition sample_header : als_header :=
  {| ALS_RANGES := 11;
     ALS_PROFILE_MINIMUM := 0;
     ALS_PROFILE_MAXIMUM := 4;
     ALS_PROFILE_NORMAL := 2;
     ALS_DISPLAY_ON_POLL_FREQ := 1500;
     ALS_DISPLAY_DIM_POLL_FREQ := 5000;
     ALS_DISPLAY_OFF_POLL_FREQ := 0;
     ALS_DISPLAY_OFF_FLUSH_FILTER := true;
     ALS_BRIGHTNESS_STEPDOWN_DELAY := 5;
     MEDIAN_FILTER_WINDOW_SIZE := 5;
     median_filter_struct := unit;
     median_filter_init := fun mf _ => (mf, true);
     median_filter_map := fun mf v => (mf, v) |}.

(** An interrupt-driven sensor with one calibration point and a
    threshold channel. *)
Definition dipro_config : als_config :=
  {| als_type := ALS_TYPE_DIPRO;
     als_calib0_path := Some "als_calib";
     als_calib1_path := None;
     als_threshold_range_path := Some "als_thres_range";
     use_median_filter := false;
     display_als_profiles := None;
     led_als_profiles := None;
     kbd_als_profiles := None;
     display_cpa_profiles := None;
     display_cpa_enabled := false;
     display_cpa_enable_path := Some "cpa_enable";
     display_cpa_coefficients_path := Some "cpa_coefficients";
     brightness_stepdown_delay := 5;
     brightness_step_down_policy := BRIGHTNESS_STEP_DIRECT |}.

(** A polled sensor with two calibration points and no threshold
    channel. *)
Definition tsl2563_config : als_config :=
  {| als_type := ALS_TYPE_TSL2563;
     als_calib0_path := Some "calib0";
     als_calib1_path := Some "calib1";
     als_threshold_range_path := None;
     use_median_filter := true;
     display_als_profiles := None;
     led_als_profiles := None;
     kbd_als_profiles := None;
     display_cpa_profiles := None;
     display_cpa_enabled := false;
     display_cpa_enable_path := Some "cpa_enable";
     display_cpa_coefficients_path := Some "cpa_coefficients";
     brightness_stepdown_delay := 5;
     brightness_step_down_policy := BRIGHTNESS_STEP_DIRECT |}.

(** The module right after load on such a header. *)
Definition sample_state : @als_state sample_header :=
  @als_initial_state sample_header tt.

(** The display is on, the sensor reads 500 lux, nothing covers the
    proximity sensor, no timer is armed. *)
Definition sample_on_state : @als_state sample_header :=
  {| als_iomon_id := Some 1%nat;
     als_enabled := true;
     als_lux := 500;
     delayed_lux := -1;
     display_brightness_lower := 300;
     display_brightness_upper := 65535;
     led_brightness_lower := -1;
     led_brightness_upper := -1;
     kbd_brightness_lower := -1;
     kbd_brightness_upper := -1;
     display_als_level := 3;
     led_als_level := -1;
     kbd_als_level := -1;
     display_state := MCE_DISPLAY_ON;
     old_display_state := MCE_DISPLAY_ON;
     median_filter := (tt : @median_filter_struct sample_header);
     als_poll_interval := 1500;
     als_poll_timer_cb_id := 0%nat;
     brightness_delay_timer_cb_id := 0%nat;
     als_external_refcount := 0;
     als_owner_monitor_list := [];
     cached_lower := 300;
     cached_upper := 65535;
     display_brightness_pipe := 3;
     led_brightness_pipe := 100;
     key_backlight_pipe := 100;
     proximity_sensor_pipe := COVER_OPEN;
     sources := [];
     source_counter := 0%nat;
     trace := [] |}.

(** The same with the proximity sensor covered. *)
Definition sample_covered_state : @als_state sample_header :=
  {| als_iomon_id := Some 1%nat;
     als_enabled := true;
     als_lux := 500;
     delayed_lux := -1;
     display_brightness_lower := 300;
     display_brightness_upper := 65535;
     led_brightness_lower := -1;
     led_brightness_upper := -1;
     kbd_brightness_lower := -1;
     kbd_brightness_upper := -1;
     display_als_level := 3;
     led_als_level := -1;
     kbd_als_level := -1;
     display_state := MCE_DISPLAY_ON;
     old_display_state := MCE_DISPLAY_ON;
     median_filter := (tt : @median_filter_struct sample_header);
     als_poll_interval := 1500;
     als_poll_timer_cb_id := 0%nat;
     brightness_delay_timer_cb_id := 0%nat;
     als_external_refcount := 0;
     als_owner_monitor_list := [];
     cached_lower := 300;
     cached_upper := 65535;
     display_brightness_pipe := 3;
     led_brightness_pipe := 100;
     key_backlight_pipe := 100;
     proximity_sensor_pipe := COVER_CLOSED;
     sources := [];
     source_counter := 0%nat;
     trace := [] |}.

(** A profile in the notation of the design document: one triple
    (lower, upper, brightness) for each level, -1 for an upper bound
    that is open.  In the arrays of the code the triple of level [i]
    is what [filter_data] returns there: the brightness is [value[i]],
    the lower bound is [range[i-1][0]] (0 for level 0) and the upper
    bound is [range[i][1]].  So row [i] of [range] holds the lower
    bound of level [i+1] and the upper bound of level [i]; the row of
    the last level, above which there is none, is the terminating
    { -1, -1 }. *)
Fixpoint level_rows (levels : list (Z * Z * Z)) : list (Z * Z) :=
  match levels with
  | [] => []
  | (_, upper, _) :: above =>
      (match above with
       | (lower, _, _) :: _ => lower
       | [] => -1
       end, upper) :: level_rows above
  end.

Definition level_values (levels : list (Z * Z * Z)) : list Z :=
  map snd levels.

(** The three levels (0,100,20%), (100,300,50%), (300,-1,90%). *)
Definition scenario_levels : list (Z * Z * Z) :=
  [(0, 100, 20); (100, 300, 50); (300, -1, 90)].

(** Their arrays; as in a C initialiser the rest of both is 0. *)
Definition scenario_profile : als_profile_struct :=
  {| range := level_rows scenario_levels ++ repeat (0, 0) 8;
     value := level_values scenario_levels ++ repeat 0 9 |}.

(** Two boundaries: the level drops below 10 and rises at 20, drops
    below 30 and rises at 40. *)
Definition hysteresis_profile : als_profile_struct :=
  {| range := [(10, 20); (30, 40); (-1, -1)];
     value := [10; 50; 100] |}.

(** A device with all three profile tables. *)
Definition three_consumer_config : als_config :=
  {| als_type := ALS_TYPE_DIPRO;
     als_calib0_path := Some "als_calib";
     als_calib1_path := None;
     als_threshold_range_path := Some "als_thres_range";
     use_median_filter := false;
     display_als_profiles := Some [hysteresis_profile];
     led_als_profiles := Some [hysteresis_profile];
     kbd_als_profiles := Some [hysteresis_profile];
     display_cpa_profiles := None;
     display_cpa_enabled := false;
     display_cpa_enable_path := Some "cpa_enable";
     display_cpa_coefficients_path := Some "cpa_coefficients";
     brightness_stepdown_delay := 5;
     brightness_step_down_policy := BRIGHTNESS_STEP_DIRECT |}.

(** ** The module in the main loop *)

Section EventLoop.

Context {hdr : als_header}.

(** Other modules change what the datapipes hold. *)
Definition set_datapipes (display_brightness_pipe' led_brightness_pipe'
                          key_backlight_pipe' : Z)
           (proximity_sensor_pipe' : cover_state_t) (s : als_state) : als_state :=
  let 'Build_als_state x0 x1 x2 x3 x4 x5 x6 x7 x8 x9 x10 x11 x12 x13 x14 x15 x16 x17 x18 x19
      x20 x21 x22 _ _ _ _ x27 x28 x29 := s in
  Build_als_state x0 x1 x2 x3 x4 x5 x6 x7 x8 x9 x10 x11 x12 x13 x14 x15 x16 x17 x18 x19 x20
      x21 x22 display_brightness_pipe' led_brightness_pipe' key_backlight_pipe'
      proximity_sensor_pipe' x27 x28 x29.

(** What reaches the module once it is loaded: the sources and I/O
    monitors it registered, the trigger on the display state pipe, the
    three D-Bus handlers, and the three brightness pipes being
    executed or changed by others. *)
Inductive als_event :=
| TimeoutDispatched (id : nat) (raw : option Z)
| DiproData (data : option Z)
| AvagoData (data : option (Z * bool * bool))
| DisplayStateChanged (raw : option Z) (iomon : option nat) (data : display_state_t)
| EnableRequest (msg : dbus_request)
| DisableRequest (msg : dbus_request)
| NameOwnerChanged (msg : option (string * string * string))
| DatapipeExecuted (pipe : datapipe_t)
| DatapipesChanged (display led kbd : Z) (proximity : cover_state_t).

Variable cfg : als_config.

Definition handle_event (e : als_event) (s : als_state) : als_state :=
  match e with
  | TimeoutDispatched id raw => dispatch_timeout cfg id raw s
  | DiproData data => als_dipro_iomon_cb cfg data s
  | AvagoData data => als_avago_iomon_cb cfg data s
  | DisplayStateChanged raw iomon data => display_state_trigger cfg raw iomon data s
  | EnableRequest msg => snd (als_enable_req_dbus_cb cfg msg s)
  | DisableRequest msg => snd (als_disable_req_dbus_cb cfg msg s)
  | NameOwnerChanged msg => snd (als_owner_monitor_dbus_cb cfg msg s)
  | DatapipeExecuted pipe => execute_datapipe cfg pipe s
  | DatapipesChanged display led kbd proximity =>
      set_datapipes display led kbd proximity s
  end.

Definition run_events (events : list als_event) (s : als_state) : als_state :=
  fold_left (fun s e => handle_event e s) events s.

(** Three views of the state. *)
Definition thresholds_of (s : als_state) : list (Z * Z) * (Z * Z) :=
  (threshold_writes (trace s), cached_band s).

Definition bounds_of (s : als_state) : Z * Z * (Z * Z) * (Z * Z) :=
  (display_brightness_lower s, display_brightness_upper s,
   (led_brightness_lower s, led_brightness_upper s),
   (kbd_brightness_lower s, kbd_brightness_upper s)).

Definition timers_of (s : als_state) : list (nat * source_cb) * nat :=
  (sources s, brightness_delay_timer_cb_id s).

(** Operations that leave a view as it is. *)
Class KeepsThresholds (f : als_state -> als_state) : Prop :=
  keeps_thresholds : forall s, thresholds_of (f s) = thresholds_of s.

Class KeepsBounds (f : als_state -> als_state) : Prop :=
  keeps_bounds : forall s, bounds_of (f s) = bounds_of s.

Class KeepsTimers (f : als_state -> als_state) : Prop :=
  keeps_timers : forall s, timers_of (f s) = timers_of s.

(** Every source has an id other than 0, every armed delay timer is
    the one [brightness_delay_timer_cb_id] names, and there is at most
    one. *)
Definition delay_timer_tracked (s : als_state) : Prop :=
  Forall (fun src => fst src <> 0%nat) (sources s)
  /\ Forall (fun src => fst src = brightness_delay_timer_cb_id s)
            (armed_delay_timers s)
  /\ (List.length (armed_delay_timers s) <= 1)%nat.



Class KeepsPollId (f : als_state -> als_state) : Prop :=
  keeps_poll_id : forall s, als_poll_timer_cb_id (f s) = als_poll_timer_cb_id s.

(** The poll timers the main loop currently holds. *)
Definition is_poll_source (src : nat * source_cb) : bool :=
  negb (is_delay_source src).

Definition armed_poll_timers (s : als_state) : list (nat * source_cb) :=
  filter is_poll_source (sources s).

(** The sensors [setup_als_poll_timer] registers an I/O monitor
    for. *)
Definition interrupt_driven : bool :=
  match als_type cfg with
  | ALS_TYPE_AVAGO | ALS_TYPE_DIPRO => true
  | _ => false
  end.

(** Every source has an id other than 0, every armed poll timer is
    the one [als_poll_timer_cb_id] names, there is at most one, and
    none for an interrupt-driven sensor. *)
Definition poll_timer_tracked (s : als_state) : Prop :=
  Forall (fun src => fst src <> 0%nat) (sources s)
  /\ Forall (fun src => fst src = als_poll_timer_cb_id s) (armed_poll_timers s)
  /\ (List.length (armed_poll_timers s) <= 1)%nat
  /\ (interrupt_driven = true -> armed_poll_timers s = []).

(** An I/O monitor callback called with a record of the wrong
    size. *)
Definition is_short_read (e : als_event) : bool :=
  match e with
  | DiproData None | AvagoData None => true
  | _ => false
  end.

(** The cached band is the initial (-1,-1) or has its bounds in
    order. *)
Definition band_ordered (b : Z * Z) : Prop := fst b <= snd b.

(** Every band written so far and the cached band have their bounds
    in order. *)
Definition bands_ordered (s : als_state) : Prop :=
  Forall band_ordered (threshold_writes (trace s))
  /\ band_ordered (cached_band s).

End EventLoop.

(** The proximity sensor is covered while a step-down to 200 lux is
    pending. *)
Definition sample_pending_state : @als_state sample_header :=
  set_sources [(1%nat, BRIGHTNESS_DELAY_TIMER_CB 5)] 1%nat
    (set_brightness_delay_timer_cb_id 1%nat
       (set_delayed_lux 200 sample_covered_state)).

(** A profile of eleven rows without terminating row. *)
Definition unterminated_profile : als_profile_struct :=
  {| range := repeat (10, 20) 11;
     value := repeat 50 12 |}.


(** * The command line tool: symbol tables of [mcetool.c] *)

Module Mcetool.

(** [symbol_t]: the name of the symbol, [None] for the [NULL] that
    marks the end of a table, and its value. *)
Record symbol_t := {
  key : option string;
  val : Z
}.

(** [lookup]: the loop has no bound of its own; [None] stands for a
    read past the last element of the array. *)
Fixpoint lookup (stab : list symbol_t) (name : string) : option Z :=
  match stab with
  | [] => None
  | sym :: stab =>
      match key sym with
      | None => Some (val sym)
      | Some k => if String.eqb k name then Some (val sym) else lookup stab name
      end
  end.

(** [rlookup]: the result is the [key] pointer of the entry found,
    [Some None] for [NULL]. *)
Fixpoint rlookup (stab : list symbol_t) (value : Z) : option (option string) :=
  match stab with
  | [] => None
  | sym :: stab =>
      match key sym with
      | None => Some None
      | Some k => if val sym =? value then Some (Some k) else rlookup stab value
      end
  end.

Definition suspendpol_values : list symbol_t :=
  [ {| key := Some "disabled"; val := 0 |};
    {| key := Some "enabled"; val := 1 |};
    {| key := Some "early"; val := 2 |};
    {| key := None; val := -1 |} ].

Definition never_blank_values : list symbol_t :=
  [ {| key := Some "enabled"; val := 1 |};
    {| key := Some "disabled"; val := 0 |};
    {| key := None; val := -1 |} ].

Definition fake_doubletap_values : list symbol_t :=
  [ {| key := Some "disabled"; val := 0 |};
    {| key := Some "enabled"; val := 1 |};
    {| key := None; val := -1 |} ].

Definition tklockblank_values : list symbol_t :=
  [ {| key := Some "disabled"; val := 1 |};
    {| key := Some "enabled"; val := 0 |};
    {| key := None; val := -1 |} ].

Definition powerkeyevent_lut : list symbol_t :=
  [ {| key := Some "short"; val := 0 |};
    {| key := Some "long"; val := 1 |};
    {| key := Some "double"; val := 2 |};
    {| key := None; val := -1 |} ].

Definition inhibitmode_lut : list symbol_t :=
  [ {| key := Some "disabled"; val := 0 |};
    {| key := Some "stay-on-with-charger"; val := 1 |};
    {| key := Some "stay-dim-with-charger"; val := 2 |};
    {| key := Some "stay-on"; val := 3 |};
    {| key := Some "stay-dim"; val := 4 |};
    {| key := None; val := -1 |} ].

Definition doubletap_values : list symbol_t :=
  [ {| key := Some "disabled"; val := 0 |};
    {| key := Some "show-unlock-screen"; val := 1 |};
    {| key := Some "unlock"; val := 2 |};
    {| key := None; val := -1 |} ].

(** GLib's [TRUE] and [FALSE] *)
Definition TRUE : Z := 1.
Definition FALSE : Z := 0.

Definition enabled_lut : list symbol_t :=
  [ {| key := Some "enabled"; val := TRUE |};
    {| key := Some "disabled"; val := FALSE |};
    {| key := None; val := -1 |} ].

(** What a function that may call [exit(EXIT_FAILURE)] comes to: it
    returns, or the process ends with a message on [stderr]. *)
Inductive outcome (A : Type) :=
| Return (a : A)
| Exit (stderr : string).

Arguments Return {A} a.
Arguments Exit {A} stderr.

Definition newline : string := String (Ascii.ascii_of_nat 10) EmptyString.

(** [errorf(FMT, ARGS...)] is [fprintf(stderr, PROG_NAME": E: "FMT, ...)];
    [text] is the formatted message. *)
Definition errorf (text : string) : string := "mcetool: E: " ++ text.

(** The parsers below return [None] where [lookup] would read past
    its table. *)
Definition xmce_parse_powerkeyevent (args : string) : option (outcome Z) :=
  match lookup powerkeyevent_lut args with
  | None => None
  | Some res =>
      Some (if res <? 0
            then Exit (errorf (args ++ ": not a valid power key event" ++ newline))
            else Return res)
  end.

Definition parse_inhibitmode (args : string) : option (outcome Z) :=
  match lookup inhibitmode_lut args with
  | None => None
  | Some res =>
      Some (if res <? 0
            then Exit (errorf (args ++ ": not a valid inhibit mode value" ++ newline))
            else Return res)
  end.

Definition repr_inhibitmode (value : Z) : option (option string) :=
  rlookup inhibitmode_lut value.

Definition xmce_parse_enabled (args : string) : option (outcome bool) :=
  match lookup enabled_lut args with
  | None => None
  | Some res =>
      Some (if res <? 0
            then Exit (errorf (args ++ ": not a valid enable value" ++ newline))
            else Return (negb (res =? 0)))
  end.

(** The [MCE_RADIO_STATE_*] bits; the header that defines them is not
    among the sources. *)
Class radio_state_bits := {
  MCE_RADIO_STATE_MASTER : Z;
  MCE_RADIO_STATE_CELLULAR : Z;
  MCE_RADIO_STATE_WLAN : Z;
  MCE_RADIO_STATE_BLUETOOTH : Z;
  MCE_RADIO_STATE_NFC : Z;
  MCE_RADIO_STATE_FMTX : Z
}.

Section RadioStates.

Context {bits : radio_state_bits}.

Definition radio_states_lut : list symbol_t :=
  [ {| key := Some "master"; val := MCE_RADIO_STATE_MASTER |};
    {| key := Some "cellular"; val := MCE_RADIO_STATE_CELLULAR |};
    {| key := Some "wlan"; val := MCE_RADIO_STATE_WLAN |};
    {| key := Some "bluetooth"; val := MCE_RADIO_STATE_BLUETOOTH |};
    {| key := Some "nfc"; val := MCE_RADIO_STATE_NFC |};
    {| key := Some "fmtx"; val := MCE_RADIO_STATE_FMTX |};
    {| key := None; val := 0 |} ].

(** [end = strchr(pos, ','); if (end) *end++ = 0]: the text at [pos]
    up to the first comma, and what follows the comma if there is
    one. *)
Fixpoint strchr_cut (c : Ascii.ascii) (pos : string) : string * option string :=
  match pos with
  | EmptyString => (EmptyString, None)
  | String a rest =>
      if Ascii.eqb a c then (EmptyString, Some rest)
      else let '(tok, e) := strchr_cut c rest in (String a tok, e)
  end.

(** The [(unsigned)] cast of an [int]. *)
Definition to_unsigned (res : Z) : Z := res mod 2 ^ 32.

(** The loop of [xmce_parse_radio_states]; every round but the last
    consumes a comma, so the length of the argument bounds the number
    of rounds. *)
Fixpoint xmce_parse_radio_states_from (rounds : nat) (pos : string) (res : Z)
  : option (outcome Z) :=
  match rounds with
  | O => None
  | S rounds =>
      let '(pos, e) := strchr_cut ","%char pos in
      match lookup radio_states_lut pos with
      | None => None
      | Some bit =>
          if bit =? 0
          then Some (Exit (errorf (pos ++ ": not a valid radio state" ++ newline)))
          else
            let res := Z.lor res bit in
            match e with
            | Some e => xmce_parse_radio_states_from rounds e res
            | None => Some (Return (to_unsigned res))
            end
      end
  end.

Definition xmce_parse_radio_states (args : string) : option (outcome Z) :=
  xmce_parse_radio_states_from (S (String.length args)) args 0.

End RadioStates.

(** The named entries of a table: what precedes its end marker. *)
Fixpoint named_symbols (stab : list symbol_t) : list (string * Z) :=
  match stab with
  | [] => []
  | sym :: stab =>
      match key sym with
      | None => []
      | Some k => (k, val sym) :: named_symbols stab
      end
  end.

(** The table has an end marker, and this is its value. *)
Fixpoint end_marker (stab : list symbol_t) : option Z :=
  match stab with
  | [] => None
  | sym :: stab =>
      match key sym with
      | None => Some (val sym)
      | Some _ => end_marker stab
      end
  end.

(** The value a radio state name stands for, 0 for an unknown one. *)
Definition radio_state_bit {bits : radio_state_bits} (name : string) : Z :=
  match lookup radio_states_lut name with
  | Some bit => bit
  | None => 0
  end.

Definition no_comma (name : string) : Prop :=
  ~ In ","%char (list_ascii_of_string name).

(** The function ends the process. *)
Definition exits {A : Type} (r : option (outcome A)) : Prop :=
  exists stderr, r = Some (Exit stderr).

(** The function returns to its caller. *)
Definition returns {A : Type} (r : option (outcome A)) : Prop :=
  exists a, r = Some (Return a).

(** One bit for each radio. *)
Definition sample_bits : radio_state_bits :=
  {| MCE_RADIO_STATE_MASTER := 1;
     MCE_RADIO_STATE_CELLULAR := 2;
     MCE_RADIO_STATE_WLAN := 4;
     MCE_RADIO_STATE_BLUETOOTH := 8;
     MCE_RADIO_STATE_NFC := 16;
     MCE_RADIO_STATE_FMTX := 32 |}.

End Mcetool.

(** * The product name from the environment: [mce-hal.c] *)

Module MceHal.

Definition NUL : ascii := Ascii.zero.

(** [strchr(now, '=')] on the buffer, whose last byte the code has set
    to NUL itself: the bytes before the first '=' and those after it,
    [None] when a NUL or the end of the buffer comes first. *)
Fixpoint strchr_equals (now : list ascii) : option (list ascii * list ascii) :=
  match now with
  | [] => None
  | c :: now =>
      if Ascii.eqb c "="%char then Some ([], now)
      else if Ascii.eqb c NUL then None
      else
        match strchr_equals now with
        | Some (name, val) => Some (c :: name, val)
        | None => None
        end
  end.

(** The C string at a position: its bytes up to the first NUL, and
    the buffer from [strchr(p, 0) + 1] on. *)
Fixpoint c_string (p : list ascii) : list ascii * list ascii :=
  match p with
  | [] => ([], [])
  | c :: p =>
      if Ascii.eqb c NUL then ([], p)
      else let '(s, rest) := c_string p in (c :: s, rest)
  end.

(** [!strcmp(a, b)] *)
Definition strcmp_equal (a b : list ascii) : bool :=
  if list_eq_dec Ascii.ascii_dec (fst (c_string a)) (fst (c_string b))
  then true else false.

(** The loop over the entries; every round consumes an '=', so the
    size of the buffer bounds the number of rounds. *)
Fixpoint environ_scan (rounds : nat) (now key : list ascii) : option (list ascii) :=
  match rounds with
  | O => None
  | S rounds =>
      match now with
      | [] => None
      | _ :: _ =>
          match strchr_equals now with
          | None => None
          | Some (name, val) =>
              if strcmp_equal name key then Some (fst (c_string val))
              else environ_scan rounds (snd (c_string val)) key
          end
      end
  end.

(** What becomes of [/proc/1/environ]: [open], [malloc] or [read]
    fails, or [read] delivers bytes; [bytes] is what the file holds. *)
Inductive environ_read :=
| OpenFails
| MallocFails
| ReadFails
| ReadReturns (bytes : list ascii).

(** [mce_log(level, fmt, ...)] with its string and integer
    arguments, [None] for a [NULL] string. *)
Inductive log_arg :=
| ArgString (s : option (list ascii))
| ArgInt (n : Z).

Record log_entry := {
  log_level : loglevel_t;
  log_fmt : string;
  log_args : list log_arg
}.

Definition getenv_from_init_process (file : environ_read) (key : list ascii)
  : option (list ascii) * list log_entry :=
  let path := list_ascii_of_string "/proc/1/environ" in
  let size := 0x2000 in
  let '(res, log) :=
    match file with
    | OpenFails =>
        (None, [{| log_level := LL_WARN; log_fmt := "%s: %m";
                   log_args := [ArgString (Some path)] |}])
    | MallocFails => (None, [])
    | ReadFails =>
        (None, [{| log_level := LL_WARN; log_fmt := "%s: %m";
                   log_args := [ArgString (Some path)] |}])
    | ReadReturns bytes =>
        let data := firstn (Z.to_nat (size - 1)) bytes in
        (environ_scan (List.length data) data key, [])
    end in
  (res,
   log ++ [{| log_level := LL_NOTICE; log_fmt := "key=%s -> val=%s";
              log_args := [ArgString (Some key); ArgString res] |}]).

(** The [(int)] cast of a [gulong]. *)
Definition to_int (n : Z) : Z := (n + 2 ^ 31) mod 2 ^ 32 - 2 ^ 31.

Definition PRODUCT_SYSINFO_KEY : list ascii :=
  list_ascii_of_string "/component/product".

(** The body [get_sysinfo_value] has when built without
    [ENABLE_SYSINFOD_QUERIES]; [getenv] is the environment of the
    process.  The result is the status, [*array] and [*len], and what
    was logged. *)
Definition get_sysinfo_value_environ (getenv : list ascii -> option (list ascii))
           (file : environ_read) (key : list ascii)
  : bool * option (list ascii) * nat * list log_entry :=
  let env :=
    if strcmp_equal key PRODUCT_SYSINFO_KEY
    then Some (list_ascii_of_string "product_name")
    else None in
  let '(res, log) :=
    match env with
    | Some env =>
        match getenv env with
        | Some val => (Some val, [])
        | None => getenv_from_init_process file env
        end
    | None => (None, [])
    end in
  let cnt := match res with Some res => List.length res | None => 0%nat end in
  (match res with Some _ => true | None => false end, res, cnt,
   log ++ [{| log_level := LL_INFO; log_fmt := "key=%s, env=%s, val=%s, len=%d";
              log_args := [ArgString (Some key); ArgString env; ArgString res;
                           ArgInt (to_int (Z.of_nat cnt))] |}]).

(** An environment block as the kernel renders it: [name=value]
    entries, each ended by a NUL. *)
Definition environ_entry (e : list ascii * list ascii) : list ascii :=
  fst e ++ "="%char :: snd e ++ [NUL].

Definition environ_block (es : list (list ascii * list ascii)) : list ascii :=
  List.concat (map environ_entry es).

(** The name holds neither '=' nor NUL, the value no NUL. *)
Definition entry_ok (e : list ascii * list ascii) : Prop :=
  ~ In "="%char (fst e) /\ ~ In NUL (fst e) /\ ~ In NUL (snd e).

(** The first entry of that name. *)
Fixpoint environ_value (es : list (list ascii * list ascii)) (key : list ascii)
  : option (list ascii) :=
  match es with
  | [] => None
  | e :: es =>
      if list_eq_dec Ascii.ascii_dec (fst e) key then Some (snd e)
      else environ_value es key
  end.

(** No '=' before the first NUL or the end. *)
Fixpoint no_assignment (now : list ascii) : Prop :=
  match now with
  | [] => True
  | c :: now => c <> "="%char /\ (c = NUL \/ no_assignment now)
  end.

(** An environment of three variables. *)
Definition sample_environ : list (list ascii * list ascii) :=
  [ (list_ascii_of_string "PATH", list_ascii_of_string "/sbin:/bin");
    (list_ascii_of_string "product_name", list_ascii_of_string "RM-696");
    (list_ascii_of_string "TERM", list_ascii_of_string "linux") ].

End MceHal.
(** * Properties *)

(** ** Device detection *)

Section Detection.

Context {hdr : als_header}.
Variables (t : als_tables) (probe : als_probe).

(** X11: The type is resolved once: a second call changes nothing. *)
Lemma get_als_type_memoized c :
  als_type (get_als_type t probe c) <> ALS_TYPE_UNSET
  /\ forall probe', get_als_type t probe' (get_als_type t probe c)
                    = get_als_type t probe c.
Proof.
  assert (H : als_type (get_als_type t probe c) <> ALS_TYPE_UNSET).
  { unfold get_als_type. destruct (als_type c) eqn:Hc; try congruence.
    destruct (avago_readable probe), (dipro_readable probe),
      (tsl2563_readable probe), (tsl2562_readable probe); discriminate. }
  split; [exact H|].
  intros probe'. unfold get_als_type at 1.
  destruct (als_type (get_als_type t probe c)); try reflexivity. contradiction.
Qed.

(** X12: Every sensor family comes with a display profile table, and the
    two interrupt-driven families do without the median filter. *)
Lemma get_als_type_families :
  let c := get_als_type t probe als_config_unset in
  (als_type c <> ALS_TYPE_NONE -> not_null (display_als_profiles c) = true)
  /\ (als_type c = ALS_TYPE_AVAGO \/ als_type c = ALS_TYPE_DIPRO ->
      use_median_filter c = false)
  /\ (not_null (led_als_profiles c) = true \/ not_null (kbd_als_profiles c) = true ->
      not_null (display_als_profiles c) = true).
Proof.
  cbn zeta. unfold get_als_type. cbn [als_type als_config_unset].
  destruct (avago_readable probe), (dipro_readable probe),
    (tsl2563_readable probe), (tsl2562_readable probe); cbn;
    repeat split; intros; try reflexivity; try congruence;
    repeat match goal with H : _ \/ _ |- _ => destruct H end; congruence.
Qed.

End Detection.

(** ** The profile evaluator *)

Section EvaluatorProperties.

Context {hdr : als_header}.

(** The loop of [filter_data]: started at [i] with no earlier row
    ending the scan, it ends at the first row from [i] on that does, or
    at [i + fuel]. *)
Lemma filter_data_scan_first p lux L fuel :
  forall i level n level',
    filter_data_scan p lux (clamp_level L) fuel i level = (n, level') ->
    (forall j, (j < i)%nat -> ~ scan_stops boundary_column p lux L j) ->
    (i <= n <= i + fuel)%nat
    /\ (forall j, (j < n)%nat -> ~ scan_stops boundary_column p lux L j)
    /\ ((n < i + fuel)%nat ->
        scan_stops boundary_column p lux L n /\ level' = Z.of_nat n).
Proof.
  induction fuel as [|fuel IH]; intros i level n level' Hscan Hbefore;
    cbn [filter_data_scan] in Hscan.
  - inversion Hscan; subst. split; [lia|]. split; [exact Hbefore|]. intros; lia.
  - destruct (range_cell p i 0 =? -1) eqn:Hsent.
    + inversion Hscan; subst. apply Z.eqb_eq in Hsent.
      split; [lia|]. split; [exact Hbefore|]. intros _. split; [left; exact Hsent | reflexivity].
    + destruct (lux <? range_cell p i (boundary_column (clamp_level L) i)) eqn:Hlt.
      * inversion Hscan; subst. apply Z.ltb_lt in Hlt.
        split; [lia|]. split; [exact Hbefore|]. intros _. split; [right; exact Hlt | reflexivity].
      * apply IH in Hscan.
        -- destruct Hscan as (Hr & Hall & Hstop).
           split; [lia|]. split; [exact Hall|]. intros Hn. apply Hstop. lia.
        -- intros j Hj Hj'. destruct (Nat.eq_dec j i) as [->|Hne].
           ++ destruct Hj' as [Hs | Hl].
              ** apply Z.eqb_neq in Hsent. contradiction.
              ** apply Z.ltb_ge in Hlt. lia.
           ++ apply (Hbefore j); [lia | exact Hj'].
Qed.

(** The lower bound [filter_data] returns is never the sentinel [-1]:
    it is 0 or the lower boundary of a row the scan went past. *)
Lemma filter_data_lower_not_sentinel profiles profile lux L :
  fr_lower (filter_data profiles profile lux L) <> -1.
Proof.
  unfold filter_data.
  destruct (filter_data_scan (profile_at profiles profile) lux (clamp_level L)
                             ALS_RANGES 0 L) as [n level'] eqn:Hscan.
  apply filter_data_scan_first in Hscan; [|intros; lia].
  destruct Hscan as (_ & Hall & _). simpl.
  destruct (n =? 0)%nat eqn:Hn0; [lia|].
  apply Nat.eqb_neq in Hn0.
  intros Heq. apply (Hall (n - 1)%nat); [lia | left; exact Heq].
Qed.

(** C1, as amended: for every profile with a sentinel row below
    [ALS_RANGES] and every starting level [L] (clamped), [filter_data]
    scans the rows from index 0 upward and compares [lux] against the
    row's lower boundary when the scan index is strictly below [L] and
    against the row's upper boundary when it is at or above [L]; the
    first row that is the sentinel or whose chosen boundary exceeds
    [lux] becomes the new level; the returned lower bound is the lower
    boundary of the row immediately below it (0 for row 0) and the
    returned upper bound is its upper boundary (65535 when that is -1). *)
Theorem filter_data_scan_rule profiles profile lux L s :
  (s < ALS_RANGES)%nat ->
  range_cell (profile_at profiles profile) s 0 = -1 ->
  (forall i, boundary_column (clamp_level L) i
             = if Z.of_nat i <? clamp_level L then 0%nat else 1%nat)
  /\ exists n,
      (n <= s)%nat
      /\ evaluator_outcome boundary_column (profile_at profiles profile) lux L
                           (filter_data profiles profile lux L) n.
Proof.
  intros Hs Hsent. split.
  - intros i. unfold boundary_column.
    destruct (Z.of_nat i + 1 - clamp_level L >? 0) eqn:Hgt;
      destruct (Z.of_nat i <? clamp_level L) eqn:Hlt; try reflexivity.
    + apply Z.ltb_lt in Hlt. apply Z.gtb_lt in Hgt. lia.
    + apply Z.ltb_ge in Hlt. rewrite Z.gtb_ltb in Hgt. apply Z.ltb_ge in Hgt. lia.
  - unfold filter_data.
    destruct (filter_data_scan (profile_at profiles profile) lux (clamp_level L)
                               ALS_RANGES 0 L) as [n level'] eqn:Hscan.
    apply filter_data_scan_first in Hscan; [|intros; lia].
    destruct Hscan as (Hr & Hall & Hstop).
    assert (Hns : (n <= s)%nat).
    { destruct (Nat.le_gt_cases n s) as [|Hgt]; [assumption|].
      exfalso. apply (Hall s Hgt). left; exact Hsent. }
    exists n. split; [exact Hns|].
    destruct Hstop as [Hstop Hlevel]; [simpl; lia|].
    unfold evaluator_outcome; simpl.
    replace (ALS_RANGES <=? n)%nat with false
      by (symmetry; apply Nat.leb_gt; lia).
    repeat split; auto.
Qed.

(** C2: the profile of the three levels (0,100,20%), (100,300,50%),
    (300,-1,90%), laid out as the arrays of the code, the consumer
    being at level 0: lux 50 keeps it there, with 20% and the band
    (0, 100); lux 400 lifts it to level 2, with 90% and the band
    (300, 65535).  Holds whatever follows the three rows and the
    three values in the arrays, and in whatever slot of the table the
    profile sits. *)
Theorem filter_data_scenario profiles profile rows values :
  (3 <= ALS_RANGES)%nat ->
  profile_at profiles profile
  = {| range := level_rows scenario_levels ++ rows;
       value := level_values scenario_levels ++ values |} ->
  filter_data profiles profile 50 0
  = {| fr_value := 20; fr_level := 0; fr_lower := 0; fr_upper := 100;
       fr_log := [] |}
  /\ filter_data profiles profile 400 0
     = {| fr_value := 90; fr_level := 2; fr_lower := 300; fr_upper := 65535;
          fr_log := [] |}.
Proof.
  intros Hranges Hp. unfold filter_data. rewrite Hp.
  assert (Hclamp : clamp_level 0 = 0).
  { unfold clamp_level. cbn [Z.eqb].
    destruct (0 >? Z.of_nat ALS_RANGES) eqn:Hgt; [|reflexivity].
    apply Z.gtb_lt in Hgt. lia. }
  rewrite Hclamp.
  destruct ALS_RANGES as [|[|[|k]]] eqn:HR; try lia.
  split; reflexivity.
Qed.

(** The same three triples taken as the rows of a table of just three
    ranges, without terminating row: the scan runs off the table after
    the third row, which leaves the level at 2 with 90% and the band
    (300, 65535), and the missing terminator is logged. *)
Lemma filter_data_scenario_three_rows profiles profile :
  ALS_RANGES = 3%nat ->
  profile_at profiles profile
  = {| range := [(0, 100); (100, 300); (300, -1)]; value := [20; 50; 90] |} ->
  filter_data profiles profile 400 0
  = {| fr_value := 90; fr_level := 2; fr_lower := 300; fr_upper := 65535;
       fr_log := [EvLog LL_CRIT "The ALS profile lacks terminating { -1, -1 }"] |}.
Proof.
  intros Hranges Hp. unfold filter_data. rewrite Hp.
  assert (Hclamp : clamp_level 0 = 0).
  { unfold clamp_level. cbn [Z.eqb].
    destruct (0 >? Z.of_nat ALS_RANGES) eqn:Hgt; [|reflexivity].
    apply Z.gtb_lt in Hgt. lia. }
  rewrite Hclamp, Hranges. reflexivity.
Qed.

End EvaluatorProperties.

Lemma filter_data_scan_rule_witness :
  exists n, (n <= 2)%nat
    /\ evaluator_outcome (hdr := sample_header) boundary_column hysteresis_profile 15 0
         (filter_data (hdr := sample_header) [hysteresis_profile] 0 15 0) n.
Proof.
  apply (filter_data_scan_rule (hdr := sample_header)
           [hysteresis_profile] 0 15 0 2%nat); [simpl; lia | reflexivity].
Defined.

(** C1 as the design document words it fails: with the level at row 0
    and lux between the two boundaries of row 0, the code stays at
    level 0, while comparing row 0 against its lower boundary would
    send the scan on to row 1. *)
Lemma filter_data_at_level_counterexample :
  exists profiles profile lux L s,
    (s < ALS_RANGES (als_header := sample_header))%nat
    /\ range_cell (profile_at profiles profile) s 0 = -1
    /\ fr_level (filter_data (hdr := sample_header) profiles profile lux L) = 0
    /\ ~ exists n,
          evaluator_outcome (hdr := sample_header) boundary_column_at_or_below
            (profile_at profiles profile) lux L
            (filter_data (hdr := sample_header) profiles profile lux L) n.
Proof.
  exists [hysteresis_profile], 0, 15, 0, 2%nat.
  split; [simpl; lia|]. split; [reflexivity|]. split; [reflexivity|].
  intros [n (Hlevel & Hstop & _)].
  assert (n = 0%nat) as -> by (cbn in Hlevel; lia).
  destruct Hstop as [Hs | Hl]; cbn in Hs || cbn in Hl; lia.
Qed.

Lemma filter_data_scenario_witness :
  filter_data (hdr := sample_header) [hysteresis_profile; scenario_profile] 1 50 0
  = {| fr_value := 20; fr_level := 0; fr_lower := 0; fr_upper := 100;
       fr_log := [] |}
  /\ filter_data (hdr := sample_header) [hysteresis_profile; scenario_profile] 1 400 0
     = {| fr_value := 90; fr_level := 2; fr_lower := 300; fr_upper := 65535;
          fr_log := [] |}.
Proof.
  apply (filter_data_scenario (hdr := sample_header)
           [hysteresis_profile; scenario_profile] 1 (repeat (0, 0) 8) (repeat 0 9)).
  - simpl. lia.
  - reflexivity.
Defined.

(** ** Calibration *)

Section CalibrationProperties.

Variable cfg : als_config.
Variables path0 path1 : string.
Hypothesis Hpath0 : als_calib0_path cfg = Some path0.
Hypothesis Hpath1 : als_calib1_path cfg = Some path1.

(** A blob whose length is not a multiple of 4 is logged as an error
    and nothing is written. *)
Lemma calibrate_als_misaligned blob :
  (List.length blob mod 4 <> 0)%nat ->
  calibrate_als cfg (Some blob) = [EvLog LL_ERR "Invalid calibration data returned"].
Proof.
  intros Hlen. unfold calibrate_als. rewrite Hpath0. cbn [not_null negb andb get_sysinfo_value].
  apply Nat.eqb_neq in Hlen. rewrite Hlen. reflexivity.
Qed.

(** An empty blob is "no calibration data available", logged at info
    level, and nothing is written. *)
Lemma calibrate_als_empty :
  calibrate_als cfg (Some []) = [EvLog LL_INFO "No calibration data available"].
Proof.
  unfold calibrate_als. rewrite Hpath0. reflexivity.
Qed.

(** Whatever the number of values in the blob, both channels receive
    the value at offset 0: both [memcpy] calls read from [tmp]. *)
Lemma calibrate_als_same_source blob :
  (List.length blob mod 4 = 0)%nat ->
  (8 <= List.length blob)%nat ->
  exists excess,
    calibrate_als cfg (Some blob)
    = excess ++ [EvWriteNumber path0 (memcpy_guint32 blob);
                 EvWriteNumber path1 (memcpy_guint32 blob)]
    /\ (excess = [] \/ excess = [EvLog LL_INFO "Ignored excess calibration data"]).
Proof.
  intros Hmod Hlen. unfold calibrate_als. rewrite Hpath0, Hpath1.
  cbn [not_null negb andb get_sysinfo_value].
  apply Nat.eqb_eq in Hmod. rewrite Hmod. cbn [negb].
  assert (Hcount : (2 <= List.length blob / 4)%nat).
  { change 2%nat with (8 / 4)%nat. apply Nat.Div0.div_le_mono. exact Hlen. }
  replace (List.length blob / 4 =? 0)%nat with false
    by (symmetry; apply Nat.eqb_neq; lia).
  replace (2 <=? List.length blob / 4)%nat with true
    by (symmetry; apply Nat.leb_le; lia).
  replace (1 <? List.length blob / 4)%nat with true
    by (symmetry; apply Nat.ltb_lt; lia).
  destruct (2 <? List.length blob / 4)%nat.
  - eexists. split; [reflexivity | right; reflexivity].
  - exists []. split; [reflexivity | left; reflexivity].
Qed.

End CalibrationProperties.

(** C3: on the 8-byte blob holding the little-endian values 1 and 2,
    [calibrate_als] writes 1 to the first calibration channel and 1,
    not 2, to the second: the second [memcpy] reads from the start of
    the blob as well. *)
Theorem calibrate_als_eight_bytes :
  calibrate_als tsl2563_config
    (Some [Byte.x01; Byte.x00; Byte.x00; Byte.x00;
           Byte.x02; Byte.x00; Byte.x00; Byte.x00])
  = [EvWriteNumber "calib0" 1; EvWriteNumber "calib1" 1].
Proof.
  reflexivity.
Qed.

(** ** The threshold cache *)

Section ThresholdCache.

Context {hdr : als_header}.
Variable cfg : als_config.
Variable path : string.
Hypothesis Hpath : als_threshold_range_path cfg = Some path.

Lemma threshold_writes_app es es' :
  threshold_writes (es ++ es') = threshold_writes es ++ threshold_writes es'.
Proof.
  unfold threshold_writes. apply flat_map_app.
Qed.

Lemma last_nondegenerate_snoc ws b :
  last_nondegenerate (ws ++ [b])
  = if degenerate_band b then last_nondegenerate ws else Some b.
Proof.
  unfold last_nondegenerate. rewrite fold_left_app. reflexivity.
Qed.

(** One call: exactly one band is written; the cache is left alone
    when that band is (0,0) or (0,65535) and holds that band otherwise;
    the restore request writes the cache, or (0,0) when the cached
    lower bound is still -1. *)
Lemma adjust_als_thresholds_step lower upper s :
  exists b,
    trace (adjust_als_thresholds cfg lower upper s)
    = trace s ++ [EvWriteThreshold path (fst b) (snd b)]
    /\ (degenerate_band b = true ->
        cached_band (adjust_als_thresholds cfg lower upper s) = cached_band s)
    /\ (degenerate_band b = false ->
        cached_band (adjust_als_thresholds cfg lower upper s) = b)
    /\ (lower = -1 -> upper = -1 ->
        b = if cached_lower s =? -1 then (0, 0) else cached_band s)
    /\ (caller_band (lower, upper) -> degenerate_band b = false -> fst b <> -1).
Proof.
  unfold adjust_als_thresholds, caller_band, cached_band.
  rewrite Hpath. destruct s; cbn.
  destruct (lower >? upper) eqn:Hgt, (lower =? upper) eqn:Heq,
           (lower =? 0) eqn:Hl0, (lower =? -1) eqn:Hlm, (upper =? 0) eqn:Hu0,
           (upper =? 65535) eqn:Hum, (cached_lower0 =? -1) eqn:Hc;
    cbn; eexists (_, _); cbn; (split; [reflexivity|]);
    unfold degenerate_band; cbn [fst snd];
    rewrite ?Hl0, ?Hu0, ?Hum, ?Hc; cbn;
    rewrite ?Z.gtb_ltb, ?Z.ltb_lt, ?Z.ltb_ge, ?Z.eqb_eq, ?Z.eqb_neq in *;
    repeat split; intros; subst; cbn in *;
    try congruence; try lia.
Qed.

Lemma adjust_als_thresholds_writes lower upper s :
  exists b,
    threshold_writes (trace (adjust_als_thresholds cfg lower upper s))
    = threshold_writes (trace s) ++ [b]
    /\ (degenerate_band b = true ->
        cached_band (adjust_als_thresholds cfg lower upper s) = cached_band s)
    /\ (degenerate_band b = false ->
        cached_band (adjust_als_thresholds cfg lower upper s) = b)
    /\ (lower = -1 -> upper = -1 ->
        b = if cached_lower s =? -1 then (0, 0) else cached_band s)
    /\ (caller_band (lower, upper) -> degenerate_band b = false -> fst b <> -1).
Proof.
  destruct (adjust_als_thresholds_step lower upper s) as (b & Htrace & H).
  exists b. split; [|exact H].
  rewrite Htrace, threshold_writes_app. destruct b; reflexivity.
Qed.

(** Along a run of requests from a state where nothing is cached, the
    cache holds the last written band that is neither (0,0) nor
    (0,65535), and its lower bound is -1 exactly when there is none. *)
Lemma run_adjust_cache reqs :
  forall s0,
    Forall caller_band reqs ->
    cached_band s0 = (-1, -1) ->
    threshold_writes (trace s0) = [] ->
    let s := run_adjust cfg reqs s0 in
    match last_nondegenerate (threshold_writes (trace s)) with
    | Some c => cached_band s = c /\ fst c <> -1
    | None => cached_band s = (-1, -1)
    end.
Proof.
  induction reqs as [|r reqs IH] using rev_ind; intros s0 Hreqs Hc Hw; cbn zeta.
  - cbn. rewrite Hw. cbn. exact Hc.
  - apply Forall_app in Hreqs. destruct Hreqs as [Hreqs Hr].
    inversion Hr as [|? ? Hr' _]; subst.
    specialize (IH s0 Hreqs Hc Hw). cbn zeta in IH.
    unfold run_adjust in *. rewrite fold_left_app. cbn [fold_left].
    set (s := fold_left _ reqs s0) in *.
    destruct (adjust_als_thresholds_writes (fst r) (snd r) s)
      as (b & Hwrites & Hdeg & Hnondeg & _ & Hwf).
    rewrite Hwrites, last_nondegenerate_snoc.
    destruct (degenerate_band b) eqn:Hb.
    + rewrite (Hdeg eq_refl). exact IH.
    + split; [exact (Hnondeg eq_refl)|].
      apply Hwf; [destruct r; exact Hr' | reflexivity].
Qed.

(** One call, with the band it writes spelled out: the band is the
    request itself, (0,0) for a request with its bounds out of order,
    and for the restore request the cache, or (0,0) while the cached
    lower bound is still -1; the cache is left alone when the band
    written is (0,0) or (0,65535) and is that band otherwise. *)
Lemma adjust_als_thresholds_band lower upper s :
  let b := written_band (lower, upper)
             (if cached_lower s =? -1 then None else Some (cached_band s)) in
  trace (adjust_als_thresholds cfg lower upper s)
  = trace s ++ [EvWriteThreshold path (fst b) (snd b)]
  /\ cached_band (adjust_als_thresholds cfg lower upper s)
     = (if degenerate_band b then cached_band s else b).
Proof.
  cbn zeta. unfold adjust_als_thresholds, written_band. rewrite Hpath.
  cbn [fst snd].
  destruct (lower >? upper) eqn:Hgt; cbn [orb].
  { destruct s; split; reflexivity. }
  destruct ((lower =? upper) && (lower =? 0)) eqn:H00.
  { apply andb_true_iff in H00. destruct H00 as [He H0].
    apply Z.eqb_eq in He, H0. subst upper lower.
    destruct s; split; reflexivity. }
  destruct ((lower =? upper) && (lower =? -1)) eqn:Hm.
  { apply andb_true_iff in Hm. destruct Hm as [He H1].
    apply Z.eqb_eq in He, H1. subst upper lower.
    cbn [Z.eqb Pos.eqb andb].
    destruct (cached_lower s =? -1).
    - destruct s; split; reflexivity.
    - split; [destruct s; reflexivity|].
      replace (cached_band
                 (emit (EvWriteThreshold path (cached_lower s) (cached_upper s)) s))
        with (cached_band s) by (destruct s; reflexivity).
      destruct (degenerate_band (cached_band s)); reflexivity. }
  assert (Hrestore : (lower =? -1) && (upper =? -1) = false).
  { destruct (lower =? -1) eqn:H1, (upper =? -1) eqn:H2; try reflexivity.
    apply Z.eqb_eq in H1, H2. subst. discriminate. }
  rewrite Hrestore.
  assert (Hdeg : degenerate_band (lower, upper) = (lower =? 0) && (upper =? 65535)).
  { unfold degenerate_band. cbn [fst snd].
    destruct (lower =? 0) eqn:H0, (upper =? 0) eqn:H1; try reflexivity.
    apply Z.eqb_eq in H0, H1. subst. discriminate. }
  rewrite Hdeg.
  destruct ((lower =? 0) && (upper =? 65535)); destruct s; split; reflexivity.
Qed.

(** C4: after any run of requests, a call of [adjust_als_thresholds]
    writes exactly one band: the request as it is, except that a
    request with its bounds out of order is written as (0,0) and the
    restore request (-1,-1) as the band cached last, or as (0,0) if
    none ever was.  When the band written is (0,0) or (0,65535) the
    cached band is left as it was; every other band written is the
    cached band afterwards.  The band cached last is the last band
    written that is neither of the two. *)
Theorem adjust_als_thresholds_cache reqs s0 lower upper :
  Forall caller_band reqs ->
  cached_band s0 = (-1, -1) ->
  threshold_writes (trace s0) = [] ->
  let s := run_adjust cfg reqs s0 in
  let s' := adjust_als_thresholds cfg lower upper s in
  let cached := last_nondegenerate (threshold_writes (trace s)) in
  let b := written_band (lower, upper) cached in
  threshold_writes (trace s') = threshold_writes (trace s) ++ [b]
  /\ cached_band s' = (if degenerate_band b then cached_band s else b)
  /\ cached_band s = match cached with
                     | Some c => c
                     | None => (-1, -1)
                     end.
Proof.
  intros Hreqs Hc Hw. cbn zeta.
  pose proof (run_adjust_cache reqs s0 Hreqs Hc Hw) as Hinv. cbn zeta in Hinv.
  remember (run_adjust cfg reqs s0) as s eqn:Hs. clear Hs.
  pose proof (adjust_als_thresholds_band lower upper s) as [Htrace Hcache].
  cbn zeta in Htrace, Hcache.
  assert (Hsame : (if cached_lower s =? -1 then None else Some (cached_band s))
                  = last_nondegenerate (threshold_writes (trace s))).
  { destruct (last_nondegenerate (threshold_writes (trace s))) as [c|].
    - destruct Hinv as [Hcb Hne]. rewrite Hcb.
      replace (cached_lower s) with (fst c)
        by (rewrite <- Hcb; reflexivity).
      apply Z.eqb_neq in Hne. rewrite Hne. reflexivity.
    - replace (cached_lower s) with (-1)
        by (change (cached_lower s) with (fst (cached_band s)); rewrite Hinv;
            reflexivity).
      reflexivity. }
  rewrite Hsame in Htrace, Hcache.
  split; [|split].
  - rewrite Htrace, threshold_writes_app.
    destruct (written_band _ _); reflexivity.
  - exact Hcache.
  - destruct (last_nondegenerate (threshold_writes (trace s))) as [c|];
      [exact (proj1 Hinv) | exact Hinv].
Qed.

End ThresholdCache.

Lemma adjust_als_thresholds_cache_witness :
  let s := run_adjust (hdr := sample_header) dipro_config
             [(100, 300); (0, 65535); (7, 3)] sample_state in
  (threshold_writes (trace s) = [(100, 300); (0, 65535); (0, 0)]
   /\ cached_band s = (100, 300))
  /\ (threshold_writes
        (trace (adjust_als_thresholds (hdr := sample_header) dipro_config 40 90 s))
      = threshold_writes (trace s) ++ [(40, 90)]
      /\ cached_band (adjust_als_thresholds (hdr := sample_header) dipro_config 40 90 s)
         = (40, 90))
  /\ (threshold_writes
        (trace (adjust_als_thresholds (hdr := sample_header) dipro_config (-1) (-1) s))
      = threshold_writes (trace s) ++ [(100, 300)]
      /\ cached_band
           (adjust_als_thresholds (hdr := sample_header) dipro_config (-1) (-1) s)
         = (100, 300)).
Proof.
  cbv zeta.
  pose proof (adjust_als_thresholds_cache (hdr := sample_header) dipro_config
                "als_thres_range" eq_refl [(100, 300); (0, 65535); (7, 3)]
                sample_state 40 90
                ltac:(repeat constructor; unfold caller_band; simpl; lia)
                eq_refl eq_refl) as (Hw & Hc & Hs).
  pose proof (adjust_als_thresholds_cache (hdr := sample_header) dipro_config
                "als_thres_range" eq_refl [(100, 300); (0, 65535); (7, 3)]
                sample_state (-1) (-1)
                ltac:(repeat constructor; unfold caller_band; simpl; lia)
                eq_refl eq_refl) as (Hw' & Hc' & _).
  split; [split; [reflexivity | exact Hs]|].
  split; [split; [exact Hw | exact Hc] | split; [exact Hw' | exact Hc']].
Defined.


(** ** What the lux-update path leaves alone *)

Section Frames.

Context {hdr : als_header}.
Variable cfg : als_config.

Lemma threshold_writes_filter es :
  threshold_writes (filter is_threshold_write es) = threshold_writes es.
Proof.
  unfold threshold_writes.
  induction es as [|e es IH]; [reflexivity|].
  destruct e; cbn; rewrite ?IH; reflexivity.
Qed.

Lemma filter_data_log_quiet profiles profile lux level :
  filter is_threshold_write (fr_log (filter_data profiles profile lux level)) = [].
Proof.
  unfold filter_data.
  destruct (filter_data_scan _ _ _ _ _ _) as [i level']. cbn.
  destruct (ALS_RANGES <=? i)%nat; reflexivity.
Qed.

Lemma execute_datapipe_outside pipe s :
  outside_filters (execute_datapipe cfg pipe s) = outside_filters s.
Proof.
  unfold execute_datapipe, display_brightness_filter, led_brightness_filter,
    key_backlight_filter, outside_filters, emit, emit_all.
  destruct pipe, s; cbn [display_state als_enabled display_brightness_pipe
                         led_brightness_pipe key_backlight_pipe];
    repeat match goal with
           | |- context [if ?c then _ else _] => destruct c
           | |- context [match ?c with Some _ => _ | None => _ end] => destruct c
           end;
    cbn; rewrite ?filter_app, ?filter_data_log_quiet; cbn;
    rewrite ?app_nil_r; reflexivity.
Qed.

Lemma refilter_brightness_outside s :
  outside_filters (refilter_brightness cfg s) = outside_filters s.
Proof.
  unfold refilter_brightness. rewrite !execute_datapipe_outside. reflexivity.
Qed.

Lemma adjust_colour_phase_outside s :
  outside_filters (adjust_colour_phase cfg s) = outside_filters s.
Proof.
  unfold adjust_colour_phase, write_string, outside_filters, emit.
  destruct (display_cpa_profiles cfg) as [profiles|]; [|reflexivity].
  destruct (cpa_find profiles (als_lux s)); [|reflexivity].
  destruct (display_cpa_enabled cfg), (display_cpa_coefficients_path cfg),
    (display_cpa_enable_path cfg), s; cbn;
    rewrite ?filter_app; cbn; rewrite ?app_nil_r; reflexivity.
Qed.

(** Everything but the per-consumer levels and bounds and the
    non-threshold events can be read off the image. *)
Lemma outside_filters_fields s s' :
  outside_filters s' = outside_filters s ->
  als_external_refcount s' = als_external_refcount s
  /\ threshold_writes (trace s') = threshold_writes (trace s)
  /\ als_lux s' = als_lux s
  /\ delayed_lux s' = delayed_lux s
  /\ sources s' = sources s
  /\ source_counter s' = source_counter s
  /\ brightness_delay_timer_cb_id s' = brightness_delay_timer_cb_id s
  /\ als_poll_timer_cb_id s' = als_poll_timer_cb_id s
  /\ cached_band s' = cached_band s.
Proof.
  intros H.
  pose proof (f_equal (fun x => threshold_writes (trace x)) H) as Ht.
  destruct s, s'. cbn in Ht. rewrite !threshold_writes_filter in Ht.
  unfold outside_filters in H. cbn in H. inversion H; subst.
  unfold cached_band. cbn. repeat split; try reflexivity. exact Ht.
Qed.

(** [adjust_als_thresholds] touches the cache and the trace only. *)
Lemma adjust_als_thresholds_fields lower upper s :
  als_external_refcount (adjust_als_thresholds cfg lower upper s)
  = als_external_refcount s
  /\ als_lux (adjust_als_thresholds cfg lower upper s) = als_lux s
  /\ delayed_lux (adjust_als_thresholds cfg lower upper s) = delayed_lux s
  /\ sources (adjust_als_thresholds cfg lower upper s) = sources s
  /\ source_counter (adjust_als_thresholds cfg lower upper s) = source_counter s
  /\ brightness_delay_timer_cb_id (adjust_als_thresholds cfg lower upper s)
     = brightness_delay_timer_cb_id s
  /\ als_poll_timer_cb_id (adjust_als_thresholds cfg lower upper s)
     = als_poll_timer_cb_id s
  /\ als_iomon_id (adjust_als_thresholds cfg lower upper s) = als_iomon_id s
  /\ als_poll_interval (adjust_als_thresholds cfg lower upper s)
     = als_poll_interval s
  /\ display_state (adjust_als_thresholds cfg lower upper s) = display_state s.
Proof.
  unfold adjust_als_thresholds, emit.
  destruct (als_threshold_range_path cfg); [|repeat split; reflexivity].
  destruct s; cbn.
  repeat match goal with
         | |- context [if ?c then _ else _] => destruct c
         end; cbn; repeat split; reflexivity.
Qed.

(** The common tail of the two lux-update paths: the new lux is
    stored; the refcount, the timers and the pending lux are left
    alone. *)
Lemma als_lux_update_fields new_lux s :
  als_lux (als_lux_update cfg new_lux s) = new_lux
  /\ als_external_refcount (als_lux_update cfg new_lux s) = als_external_refcount s
  /\ delayed_lux (als_lux_update cfg new_lux s) = delayed_lux s
  /\ sources (als_lux_update cfg new_lux s) = sources s
  /\ source_counter (als_lux_update cfg new_lux s) = source_counter s
  /\ brightness_delay_timer_cb_id (als_lux_update cfg new_lux s)
     = brightness_delay_timer_cb_id s
  /\ als_poll_timer_cb_id (als_lux_update cfg new_lux s) = als_poll_timer_cb_id s.
Proof.
  unfold als_lux_update.
  set (s1 := adjust_colour_phase cfg (refilter_brightness cfg (set_als_lux new_lux s))).
  assert (H1 : outside_filters s1 = outside_filters (set_als_lux new_lux s)).
  { unfold s1. rewrite adjust_colour_phase_outside, refilter_brightness_outside.
    reflexivity. }
  apply outside_filters_fields in H1.
  destruct H1 as (Hrc & _ & Hlux & Hdl & Hsrc & Hcnt & Hdid & Hpid & _).
  assert (Hs : als_lux (set_als_lux new_lux s) = new_lux
               /\ als_external_refcount (set_als_lux new_lux s)
                  = als_external_refcount s
               /\ delayed_lux (set_als_lux new_lux s) = delayed_lux s
               /\ sources (set_als_lux new_lux s) = sources s
               /\ source_counter (set_als_lux new_lux s) = source_counter s
               /\ brightness_delay_timer_cb_id (set_als_lux new_lux s)
                  = brightness_delay_timer_cb_id s
               /\ als_poll_timer_cb_id (set_als_lux new_lux s)
                  = als_poll_timer_cb_id s)
    by (destruct s; cbn; repeat split; reflexivity).
  destruct Hs as (Hs1 & Hs2 & Hs3 & Hs4 & Hs5 & Hs6 & Hs7).
  destruct (merged_thresholds cfg s1) as [lower upper].
  destruct (als_external_refcount s1 =? 0).
  - destruct (adjust_als_thresholds_fields lower upper s1)
      as (Ha1 & Ha2 & Ha3 & Ha4 & Ha5 & Ha6 & Ha7 & _).
    repeat split; congruence.
  - repeat split; congruence.
Qed.

(** While the sensor is externally owned the common tail writes no
    threshold. *)
Lemma als_lux_update_owned new_lux s :
  als_external_refcount s <> 0 ->
  threshold_writes (trace (als_lux_update cfg new_lux s)) = threshold_writes (trace s).
Proof.
  intros Hrc. unfold als_lux_update.
  set (s1 := adjust_colour_phase cfg (refilter_brightness cfg (set_als_lux new_lux s))).
  assert (H1 : outside_filters s1 = outside_filters (set_als_lux new_lux s)).
  { unfold s1. rewrite adjust_colour_phase_outside, refilter_brightness_outside.
    reflexivity. }
  apply outside_filters_fields in H1. destruct H1 as (Hrc1 & Htw & _).
  assert (Hs : als_external_refcount (set_als_lux new_lux s) = als_external_refcount s
               /\ trace (set_als_lux new_lux s) = trace s)
    by (destruct s; cbn; split; reflexivity).
  destruct Hs as [Hs1 Hs2]. rewrite Hs1 in Hrc1. rewrite Hs2 in Htw.
  destruct (merged_thresholds cfg s1) as [lower upper].
  rewrite Hrc1. apply Z.eqb_neq in Hrc. rewrite Hrc. exact Htw.
Qed.

Lemma als_median_filter_map_fields v s :
  trace (snd (als_median_filter_map cfg v s)) = trace s
  /\ als_external_refcount (snd (als_median_filter_map cfg v s))
     = als_external_refcount s
  /\ als_lux (snd (als_median_filter_map cfg v s)) = als_lux s
  /\ display_brightness_lower (snd (als_median_filter_map cfg v s))
     = display_brightness_lower s.
Proof.
  unfold als_median_filter_map.
  destruct (use_median_filter cfg); [|repeat split; reflexivity].
  destruct (median_filter_map (median_filter s) v) as [mf filtered].
  destruct s; cbn. repeat split; reflexivity.
Qed.

End Frames.

(** ** The lux-update paths *)

Section LuxUpdate.

Context {hdr : als_header}.
Variable cfg : als_config.

Lemma set_delay_timer_quiet id s :
  trace (set_brightness_delay_timer_cb_id id s) = trace s
  /\ als_external_refcount (set_brightness_delay_timer_cb_id id s)
     = als_external_refcount s.
Proof. destruct s; split; reflexivity. Qed.

Lemma cancel_brightness_delay_timer_quiet s :
  trace (cancel_brightness_delay_timer s) = trace s
  /\ als_external_refcount (cancel_brightness_delay_timer s)
     = als_external_refcount s.
Proof.
  unfold cancel_brightness_delay_timer, g_source_remove.
  destruct (brightness_delay_timer_cb_id s =? 0)%nat; [split; reflexivity|].
  destruct s; split; reflexivity.
Qed.

Lemma defer_step_down_quiet lux s :
  trace (defer_step_down cfg lux s) = trace s
  /\ als_external_refcount (defer_step_down cfg lux s) = als_external_refcount s
  /\ als_lux (defer_step_down cfg lux s) = als_lux s.
Proof.
  unfold defer_step_down, g_timeout_add.
  destruct (brightness_delay_timer_cb_id s =? 0)%nat; destruct s;
    repeat split; reflexivity.
Qed.

(** [als_iomon_common] by cases, after the median filter. *)
Lemma als_iomon_common_cases lux no_delay s :
  let new_lux := fst (als_median_filter_map cfg lux s) in
  let s1 := snd (als_median_filter_map cfg lux s) in
  als_iomon_common cfg lux no_delay s
  = if lux_unusable new_lux s1 then s1
    else match proximity_sensor_pipe s with
         | COVER_CLOSED => s1
         | _ =>
             if als_lux s1 >? new_lux then
               if no_delay
               then als_lux_update cfg new_lux
                      (set_brightness_delay_timer_cb_id 0%nat s1)
               else defer_step_down cfg lux s1
             else als_lux_update cfg new_lux (cancel_brightness_delay_timer s1)
         end.
Proof.
  cbn zeta. unfold als_iomon_common, defer_step_down.
  destruct (als_median_filter_map cfg lux s) as [new_lux s1]. cbn [fst snd].
  destruct (lux_unusable new_lux s1); [reflexivity|].
  destruct (proximity_sensor_pipe s); try reflexivity;
    destruct (als_lux s1 >? new_lux); try reflexivity;
    destruct no_delay; try reflexivity;
    destruct (brightness_delay_timer_cb_id s1 =? 0)%nat; try reflexivity;
    destruct (g_timeout_add _ s1); reflexivity.
Qed.

Lemma als_iomon_common_owned lux no_delay s :
  als_external_refcount s <> 0 ->
  threshold_writes (trace (als_iomon_common cfg lux no_delay s))
  = threshold_writes (trace s)
  /\ als_external_refcount (als_iomon_common cfg lux no_delay s)
     = als_external_refcount s.
Proof.
  intros Hrc. rewrite als_iomon_common_cases. cbn zeta.
  destruct (als_median_filter_map_fields cfg lux s) as (Ht & Hr & _).
  set (new_lux := fst (als_median_filter_map cfg lux s)) in *.
  set (s1 := snd (als_median_filter_map cfg lux s)) in *.
  assert (Hrc1 : als_external_refcount s1 <> 0) by congruence.
  assert (Hupd : forall s2,
             trace s2 = trace s1 ->
             als_external_refcount s2 = als_external_refcount s1 ->
             threshold_writes (trace (als_lux_update cfg new_lux s2))
             = threshold_writes (trace s)
             /\ als_external_refcount (als_lux_update cfg new_lux s2)
                = als_external_refcount s).
  { intros s2 Ht2 Hr2. split.
    - rewrite als_lux_update_owned by congruence. congruence.
    - destruct (als_lux_update_fields cfg new_lux s2) as (_ & Hr3 & _). congruence. }
  assert (Hdefer : threshold_writes (trace (defer_step_down cfg lux s1))
                   = threshold_writes (trace s)
                   /\ als_external_refcount (defer_step_down cfg lux s1)
                      = als_external_refcount s).
  { destruct (defer_step_down_quiet lux s1) as (Hd1 & Hd2 & _). split; congruence. }
  assert (Hsame : threshold_writes (trace s1) = threshold_writes (trace s)
                  /\ als_external_refcount s1 = als_external_refcount s)
    by (split; congruence).
  destruct (lux_unusable new_lux s1); [exact Hsame|].
  destruct (proximity_sensor_pipe s); [|exact Hsame|];
    (destruct (als_lux s1 >? new_lux);
     [destruct no_delay;
      [apply Hupd; apply set_delay_timer_quiet | exact Hdefer]
     |apply Hupd; apply cancel_brightness_delay_timer_quiet]).
Qed.

Lemma als_poll_timer_cb_owned raw s :
  als_external_refcount s <> 0 ->
  threshold_writes (trace (snd (als_poll_timer_cb cfg raw s)))
  = threshold_writes (trace s)
  /\ als_external_refcount (snd (als_poll_timer_cb cfg raw s))
     = als_external_refcount s.
Proof.
  intros Hrc. unfold als_poll_timer_cb, als_read_value_filtered.
  assert (Hid : forall s0 : als_state,
             trace (set_als_poll_timer_cb_id 0%nat s0) = trace s0
             /\ als_external_refcount (set_als_poll_timer_cb_id 0%nat s0)
                = als_external_refcount s0)
    by (intros s0; destruct s0; split; reflexivity).
  assert (Hgo : forall new_lux s1,
             trace s1 = trace s ->
             als_external_refcount s1 = als_external_refcount s ->
             threshold_writes
               (trace (snd (if new_lux =? -2
                            then (false, set_als_poll_timer_cb_id 0%nat s1)
                            else if lux_unusable new_lux s1 then (true, s1)
                                 else (true, als_lux_update cfg new_lux s1))))
             = threshold_writes (trace s)
             /\ als_external_refcount
                  (snd (if new_lux =? -2
                        then (false, set_als_poll_timer_cb_id 0%nat s1)
                        else if lux_unusable new_lux s1 then (true, s1)
                             else (true, als_lux_update cfg new_lux s1)))
                = als_external_refcount s).
  { intros new_lux s1 Ht Hr.
    destruct (new_lux =? -2); cbn [snd].
    - destruct (Hid s1). split; congruence.
    - destruct (lux_unusable new_lux s1); cbn [snd]; [split; congruence|].
      split.
      + rewrite als_lux_update_owned by congruence. congruence.
      + destruct (als_lux_update_fields cfg new_lux s1) as (_ & Hr3 & _).
        congruence. }
  destruct (negb (als_enabled s)); [apply Hgo; reflexivity|].
  destruct raw as [lux|]; [|apply Hgo; reflexivity].
  destruct (als_median_filter_map_fields cfg lux s) as (Ht & Hr & _).
  destruct (als_median_filter_map cfg lux s) as [new_lux s1]. cbn [snd] in *.
  apply Hgo; assumption.
Qed.

(** C6, as amended: while the external ownership refcount is
    non-zero, neither the poll-timer lux-update path nor the
    I/O-monitor lux-update path (the delayed step-down re-evaluation
    included) writes a threshold band, and neither changes the
    refcount. *)
Theorem lux_update_respects_ownership raw lux no_delay s :
  als_external_refcount s <> 0 ->
  (threshold_writes (trace (snd (als_poll_timer_cb cfg raw s)))
   = threshold_writes (trace s)
   /\ als_external_refcount (snd (als_poll_timer_cb cfg raw s))
      = als_external_refcount s)
  /\ (threshold_writes (trace (als_iomon_common cfg lux no_delay s))
      = threshold_writes (trace s)
      /\ als_external_refcount (als_iomon_common cfg lux no_delay s)
         = als_external_refcount s)
  /\ (threshold_writes (trace (snd (brightness_delay_timer_cb cfg s)))
      = threshold_writes (trace s)
      /\ als_external_refcount (snd (brightness_delay_timer_cb cfg s))
         = als_external_refcount s).
Proof.
  intros Hrc. split; [|split].
  - apply als_poll_timer_cb_owned. exact Hrc.
  - apply als_iomon_common_owned. exact Hrc.
  - unfold brightness_delay_timer_cb. cbn [snd].
    apply als_iomon_common_owned. exact Hrc.
Qed.

(** C10: while the proximity sensor reports "cover closed", a lux
    sample handed to [als_iomon_common] only passes through the median
    filter: the cached lux, the pending lux and the timers, the
    per-consumer levels and bounds, the cached threshold band and the
    trace (so no datapipe is executed and no threshold is written) are
    what they were. *)
Theorem als_iomon_common_cover_closed lux no_delay s :
  proximity_sensor_pipe s = COVER_CLOSED ->
  let s' := als_iomon_common cfg lux no_delay s in
  s' = snd (als_median_filter_map cfg lux s)
  /\ set_median_filter (median_filter s) s' = s
  /\ trace s' = trace s
  /\ als_lux s' = als_lux s
  /\ (display_als_level s', led_als_level s', kbd_als_level s')
     = (display_als_level s, led_als_level s, kbd_als_level s)
  /\ cached_band s' = cached_band s
  /\ brightness_delay_timer_cb_id s' = brightness_delay_timer_cb_id s.
Proof.
  intros Hprox. cbn zeta. rewrite als_iomon_common_cases. cbn zeta.
  rewrite Hprox.
  assert (Heq : (if lux_unusable (fst (als_median_filter_map cfg lux s))
                                 (snd (als_median_filter_map cfg lux s))
                 then snd (als_median_filter_map cfg lux s)
                 else snd (als_median_filter_map cfg lux s))
                = snd (als_median_filter_map cfg lux s))
    by (destruct (lux_unusable _ _); reflexivity).
  rewrite Heq. split; [reflexivity|].
  unfold als_median_filter_map, cached_band.
  destruct (use_median_filter cfg).
  - destruct (median_filter_map (median_filter s) lux) as [mf filtered].
    destruct s; cbn. repeat split; reflexivity.
  - destruct s; cbn. repeat split; reflexivity.
Qed.

End LuxUpdate.

Lemma lux_update_respects_ownership_witness :
  let s := snd (als_enable_req_dbus_cb (hdr := sample_header) dipro_config
                  {| sender := Some "client"; no_reply := true; sent := true |}
                  sample_on_state) in
  threshold_writes (trace (als_iomon_common (hdr := sample_header)
                             dipro_config 900 false s))
  = threshold_writes (trace s)
  /\ als_external_refcount (als_iomon_common (hdr := sample_header)
                              dipro_config 900 false s)
     = als_external_refcount s.
Proof.
  cbv zeta.
  refine (proj1 (proj2 (lux_update_respects_ownership (hdr := sample_header)
                          dipro_config None 900 false _ _))).
  cbn. lia.
Defined.

(** C6 as the design document words it fails: with one external
    owner, the display going off writes (0,65535) and the display
    coming back on writes the cached band; the enable request itself
    writes (0,0) once it has raised the refcount to 1. *)
Lemma display_state_trigger_owned_counterexample :
  let enable := {| sender := Some "client"; no_reply := true; sent := true |} in
  let s1 := snd (als_enable_req_dbus_cb (hdr := sample_header) dipro_config enable
                   sample_on_state) in
  let s2 := display_state_trigger (hdr := sample_header) dipro_config None None
              MCE_DISPLAY_OFF s1 in
  let s3 := display_state_trigger (hdr := sample_header) dipro_config (Some 500)
              (Some 2%nat) MCE_DISPLAY_ON s2 in
  als_external_refcount s1 = 1
  /\ threshold_writes (trace s1) = [(0, 0)]
  /\ als_external_refcount s2 = 1
  /\ threshold_writes (trace s2) = [(0, 0); (0, 65535)]
  /\ als_external_refcount s3 = 1
  /\ threshold_writes (trace s3) = [(0, 0); (0, 65535); (300, 65535)].
Proof.
  cbv zeta. repeat split; reflexivity.
Qed.

Lemma als_iomon_common_cover_closed_witness :
  als_iomon_common (hdr := sample_header) dipro_config 900 false sample_covered_state
  = sample_covered_state.
Proof.
  exact (proj1 (als_iomon_common_cover_closed (hdr := sample_header) dipro_config
                  900 false sample_covered_state eq_refl)).
Defined.

(** ** Merging the per-consumer bands *)

Section Merge.

Context {hdr : als_header}.

Lemma MAX_max a b : MAX a b = Z.max a b.
Proof.
  unfold MAX. destruct (a >? b) eqn:H.
  - apply Z.gtb_lt in H. lia.
  - rewrite Z.gtb_ltb in H. apply Z.ltb_ge in H. lia.
Qed.

Lemma MIN_min a b : MIN a b = Z.min a b.
Proof.
  unfold MIN. destruct (a <? b) eqn:H.
  - apply Z.ltb_lt in H. lia.
  - apply Z.ltb_ge in H. lia.
Qed.

Lemma band_merge_swap a b c :
  band_merge (band_merge a b) c = band_merge (band_merge a c) b.
Proof.
  unfold band_merge. cbn. f_equal; lia.
Qed.

Lemma band_merge_comm a b : band_merge a b = band_merge b a.
Proof.
  unfold band_merge. f_equal; lia.
Qed.

Lemma fold_band_merge_perm l l' :
  Permutation l l' ->
  forall a, fold_left band_merge l a = fold_left band_merge l' a.
Proof.
  induction 1 as [|x l l' _ IH|x y l|l l' l'' _ IH1 _ IH2]; intros a; cbn.
  - reflexivity.
  - apply IH.
  - rewrite band_merge_swap. reflexivity.
  - rewrite IH1. apply IH2.
Qed.

Lemma band_union_perm l l' :
  Permutation l l' -> band_union l = band_union l'.
Proof.
  induction 1 as [|x l l' Hp _|x y l|l l' l'' _ IH1 _ IH2]; cbn.
  - reflexivity.
  - f_equal. apply fold_band_merge_perm. exact Hp.
  - f_equal. f_equal. apply band_merge_comm.
  - rewrite IH1. exact IH2.
Qed.

(** The fold yields an upper bound of the lower bounds and a lower
    bound of the upper bounds, both attained. *)
Lemma fold_band_merge_extremes l :
  forall a,
    let m := fold_left band_merge l a in
    (forall b, In b (a :: l) -> fst b <= fst m /\ snd m <= snd b)
    /\ (exists b, In b (a :: l) /\ fst b = fst m)
    /\ (exists b, In b (a :: l) /\ snd b = snd m).
Proof.
  induction l as [|x l IH]; intros a; cbn zeta.
  - cbn. split; [|split].
    + intros b [<-|[]]. lia.
    + exists a. split; [left|]; reflexivity.
    + exists a. split; [left|]; reflexivity.
  - cbn [fold_left]. destruct (IH (band_merge a x)) as (Hall & (bl & Hbl & Hl) & (bu & Hbu & Hu)).
    split; [|split].
    + intros b [<-|[<-|Hin]].
      * destruct (Hall (band_merge a x) (or_introl eq_refl)) as [H1 H2].
        unfold band_merge in H1, H2 |- *. cbn [fst snd] in H1, H2 |- *. lia.
      * destruct (Hall (band_merge a x) (or_introl eq_refl)) as [H1 H2].
        unfold band_merge in H1, H2 |- *. cbn [fst snd] in H1, H2 |- *. lia.
      * apply Hall. right. exact Hin.
    + destruct Hbl as [<-|Hin].
      * assert (E : fst (band_merge a x) = fst a \/ fst (band_merge a x) = fst x)
          by (unfold band_merge; cbn [fst]; lia).
        destruct E as [E|E]; rewrite E in Hl.
        -- exists a. split; [left; reflexivity | exact Hl].
        -- exists x. split; [right; left; reflexivity | exact Hl].
      * exists bl. split; [right; right; exact Hin | exact Hl].
    + destruct Hbu as [<-|Hin].
      * assert (E : snd (band_merge a x) = snd a \/ snd (band_merge a x) = snd x)
          by (unfold band_merge; cbn [snd]; lia).
        destruct E as [E|E]; rewrite E in Hu.
        -- exists a. split; [left; reflexivity | exact Hu].
        -- exists x. split; [right; left; reflexivity | exact Hu].
      * exists bu. split; [right; right; exact Hin | exact Hu].
Qed.

Lemma merged_thresholds_union_in_order cfg s :
  not_null (display_als_profiles cfg) = true ->
  band_union (active_bands cfg s) = Some (merged_thresholds cfg s).
Proof.
  intros Hd. unfold active_bands, merged_thresholds. rewrite Hd.
  destruct (not_null (led_als_profiles cfg)), (not_null (kbd_als_profiles cfg));
    cbn; rewrite ?MAX_max, ?MIN_min; reflexivity.
Qed.

(** C7: the band handed to the threshold write is the largest of the
    lower bounds and the smallest of the upper bounds of the consumers
    whose profile table is configured, and merging their bands in any
    order gives that same pair. *)
Theorem merged_thresholds_order_independent cfg s bands :
  not_null (display_als_profiles cfg) = true ->
  Permutation bands (active_bands cfg s) ->
  band_union bands = Some (merged_thresholds cfg s)
  /\ (forall b, In b (active_bands cfg s) ->
                fst b <= fst (merged_thresholds cfg s)
                /\ snd (merged_thresholds cfg s) <= snd b)
  /\ (exists b, In b (active_bands cfg s) /\ fst b = fst (merged_thresholds cfg s))
  /\ (exists b, In b (active_bands cfg s) /\ snd b = snd (merged_thresholds cfg s)).
Proof.
  intros Hd Hperm.
  pose proof (merged_thresholds_union_in_order cfg s Hd) as Hunion.
  split.
  - rewrite (band_union_perm _ _ Hperm). exact Hunion.
  - destruct (active_bands cfg s) as [|a l] eqn:Hact; [discriminate|].
    cbn in Hunion. injection Hunion as Hm. rewrite <- Hm.
    apply (fold_band_merge_extremes l a).
Qed.

(** The filters keep [bounds_paired]: a lower bound they store is
    never -1. *)
Lemma execute_datapipe_bounds_paired cfg pipe s :
  bounds_paired s -> bounds_paired (execute_datapipe cfg pipe s).
Proof.
  unfold bounds_paired, execute_datapipe, display_brightness_filter,
    led_brightness_filter, key_backlight_filter, emit, emit_all.
  intros (Hd & Hl & Hk).
  destruct pipe, s; cbn [display_state als_enabled display_brightness_pipe
                         led_brightness_pipe key_backlight_pipe] in *;
    repeat match goal with
           | |- context [if ?c then _ else _] => destruct c
           | |- context [match ?c with Some _ => _ | None => _ end] => destruct c
           end;
    cbn in *; repeat split; try assumption;
    intros Hm; exfalso; revert Hm; apply filter_data_lower_not_sentinel.
Qed.

(** The merged band of consumers in that state is a request
    [adjust_als_thresholds] either treats as special or caches with a
    lower bound other than -1. *)
Lemma merged_thresholds_caller_band cfg s :
  bounds_paired s -> caller_band (merged_thresholds cfg s).
Proof.
  unfold bounds_paired, caller_band, merged_thresholds.
  intros (Hd & Hl & Hk).
  destruct (not_null (led_als_profiles cfg)), (not_null (kbd_als_profiles cfg));
    cbn [fst snd]; rewrite ?MAX_max, ?MIN_min; lia.
Qed.

End Merge.

Lemma merged_thresholds_order_independent_witness :
  band_union [(-1, -1); (300, 65535); (-1, -1)]
  = Some (merged_thresholds (hdr := sample_header) three_consumer_config
                            sample_on_state).
Proof.
  refine (proj1 (merged_thresholds_order_independent (hdr := sample_header)
                   three_consumer_config sample_on_state
                   [(-1, -1); (300, 65535); (-1, -1)] eq_refl _)).
  cbn. apply perm_swap.
Defined.

(** ** External ownership *)

Section Ownership.

Context {hdr : als_header}.
Variable cfg : als_config.
Variable path : string.
Hypothesis Hpath : als_threshold_range_path cfg = Some path.

Lemma adjust_als_thresholds_force s :
  threshold_writes (trace (adjust_als_thresholds cfg 0 0 s))
  = threshold_writes (trace s) ++ [(0, 0)].
Proof.
  unfold adjust_als_thresholds, emit. rewrite Hpath.
  destruct s; cbn. rewrite threshold_writes_app. reflexivity.
Qed.

Lemma adjust_als_thresholds_restore s :
  threshold_writes (trace (adjust_als_thresholds cfg (-1) (-1) s))
  = threshold_writes (trace s) ++ [restore_band s].
Proof.
  unfold adjust_als_thresholds, emit, restore_band, cached_band. rewrite Hpath.
  destruct s; cbn. destruct (cached_lower0 =? -1); cbn;
    rewrite threshold_writes_app; reflexivity.
Qed.

Lemma threshold_writes_log es level msg :
  threshold_writes (es ++ [EvLog level msg]) = threshold_writes es.
Proof.
  rewrite threshold_writes_app. cbn. apply app_nil_r.
Qed.

(** The release of an owner, as both [als_disable_req_dbus_cb] and
    [als_owner_monitor_dbus_cb] perform it on the state [s0] they have
    reached: the restore request is issued exactly when the release
    succeeds and leaves no owner. *)
Lemma release_owner who (s0 s : als_state) log :
  als_owner_monitor_list s0 = als_owner_monitor_list s ->
  cached_band s0 = cached_band s ->
  threshold_writes (trace s0) = threshold_writes (trace s) ->
  let '(retval, l) := mce_dbus_owner_monitor_remove who (als_owner_monitor_list s0) in
  let s1 := set_als_owner_monitor_list l s0 in
  let s' :=
    if retval =? -1 then emit (EvLog LL_INFO log) s1
    else
      let s2 := set_als_external_refcount retval s1 in
      if als_external_refcount s2 =? 0 then adjust_als_thresholds cfg (-1) (-1) s2
      else s2 in
  threshold_writes (trace s')
  = threshold_writes (trace s)
    ++ (if tracked who s && (als_external_refcount s' =? 0)
        then [restore_band s] else [])
  /\ (tracked who s = true -> refcount_consistent s')
  /\ (tracked who s = false ->
      als_external_refcount s' = als_external_refcount s0)
  /\ (tracked who s = true -> als_external_refcount s' = 0 ->
      exists mid,
        s' = adjust_als_thresholds cfg (-1) (-1) mid
        /\ cached_band mid = cached_band s
        /\ threshold_writes (trace mid) = threshold_writes (trace s)).
Proof.
  intros Hlist Hcache Htw.
  unfold mce_dbus_owner_monitor_remove, tracked. rewrite <- Hlist.
  destruct (existsb (String.eqb who) (als_owner_monitor_list s0)) eqn:Hknown.
  - set (l := filter (fun x => negb (String.eqb who x)) (als_owner_monitor_list s0)).
    assert (Hneg : (Z.of_nat (List.length l) =? -1) = false)
      by (apply Z.eqb_neq; lia).
    rewrite Hneg.
    set (s2 := set_als_external_refcount (Z.of_nat (List.length l))
                 (set_als_owner_monitor_list l s0)).
    assert (H2 : als_external_refcount s2 = Z.of_nat (List.length l)
                 /\ als_owner_monitor_list s2 = l
                 /\ trace s2 = trace s0
                 /\ cached_band s2 = cached_band s0)
      by (unfold s2, cached_band; destruct s0; cbn; repeat split; reflexivity).
    destruct H2 as (Hrc2 & Hl2 & Ht2 & Hc2).
    destruct (als_external_refcount s2 =? 0) eqn:Hzero.
    + destruct (adjust_als_thresholds_fields cfg (-1) (-1) s2) as (Hrc & _).
      assert (Hl' : als_owner_monitor_list (adjust_als_thresholds cfg (-1) (-1) s2)
                    = l).
      { unfold adjust_als_thresholds, emit. rewrite Hpath, <- Hl2.
        destruct s2; cbn. destruct (cached_lower0 =? -1); reflexivity. }
      rewrite Hrc, Hzero. cbn [andb].
      repeat split.
      * rewrite adjust_als_thresholds_restore, Ht2, Htw.
        unfold restore_band. unfold cached_band in *.
        injection Hc2 as Hc2l Hc2u. injection Hcache as Hcl Hcu.
        rewrite Hc2l, Hc2u, Hcl, Hcu. reflexivity.
      * intros _. unfold refcount_consistent. rewrite Hrc, Hl'. exact Hrc2.
      * discriminate.
      * intros _ _. exists s2. repeat split; congruence.
    + rewrite Hzero. cbn [andb].
      repeat split.
      * rewrite app_nil_r, Ht2. exact Htw.
      * intros _. unfold refcount_consistent. rewrite Hl2. exact Hrc2.
      * discriminate.
      * intros _ Hz. apply Z.eqb_neq in Hzero. contradiction.
  - rewrite Z.eqb_refl. cbn [andb].
    assert (Hs : trace (emit (EvLog LL_INFO log)
                          (set_als_owner_monitor_list (als_owner_monitor_list s0) s0))
                 = trace s0 ++ [EvLog LL_INFO log]
                 /\ als_external_refcount
                      (emit (EvLog LL_INFO log)
                         (set_als_owner_monitor_list (als_owner_monitor_list s0) s0))
                    = als_external_refcount s0)
      by (destruct s0; split; reflexivity).
    destruct Hs as [Ht Hrc].
    repeat split.
    + rewrite Ht, threshold_writes_log, app_nil_r. exact Htw.
    + discriminate.
    + intros _. exact Hrc.
    + discriminate.
Qed.

(** C5, as amended: on the refcount going from 0 to 1 the enable
    request writes the band (0,0); an enable request writes (0,0)
    exactly when it succeeds and leaves the refcount at 1 (the request
    of the first owner, or a repeated request of the only owner) and
    writes nothing otherwise; a disable request, and the loss of an
    owner's process, issue the restore request (-1,-1) exactly when
    they succeed and leave the refcount at 0, and write nothing
    otherwise. *)
Theorem ownership_transitions msg who service new_name s :
  sender msg = Some who ->
  refcount_consistent s ->
  let enabled := snd (als_enable_req_dbus_cb cfg msg s) in
  let disabled := snd (als_disable_req_dbus_cb cfg msg s) in
  let lost := snd (als_owner_monitor_dbus_cb cfg (Some (service, who, new_name)) s) in
  (als_external_refcount s = 0 ->
   als_external_refcount enabled = 1
   /\ threshold_writes (trace enabled) = threshold_writes (trace s) ++ [(0, 0)])
  /\ threshold_writes (trace enabled)
     = threshold_writes (trace s)
       ++ (if can_track who s && (als_external_refcount enabled =? 1)
           then [(0, 0)] else [])
  /\ threshold_writes (trace disabled)
     = threshold_writes (trace s)
       ++ (if tracked who s && (als_external_refcount disabled =? 0)
           then [restore_band s] else [])
  /\ (tracked who s = true -> als_external_refcount disabled = 0 ->
      exists mid,
        disabled = adjust_als_thresholds cfg (-1) (-1) mid
        /\ cached_band mid = cached_band s
        /\ threshold_writes (trace mid) = threshold_writes (trace s))
  /\ threshold_writes (trace lost)
     = threshold_writes (trace s)
       ++ (if tracked who s && (als_external_refcount lost =? 0)
           then [restore_band s] else [])
  /\ (tracked who s = true -> als_external_refcount lost = 0 ->
      exists mid,
        lost = adjust_als_thresholds cfg (-1) (-1) mid
        /\ cached_band mid = cached_band s
        /\ threshold_writes (trace mid) = threshold_writes (trace s)).
Proof.
  intros Hsender Hcons. cbn zeta.
  assert (Henable :
            (als_external_refcount s = 0 ->
             als_external_refcount (snd (als_enable_req_dbus_cb cfg msg s)) = 1
             /\ threshold_writes (trace (snd (als_enable_req_dbus_cb cfg msg s)))
                = threshold_writes (trace s) ++ [(0, 0)])
            /\ threshold_writes (trace (snd (als_enable_req_dbus_cb cfg msg s)))
               = threshold_writes (trace s)
                 ++ (if can_track who s
                        && (als_external_refcount
                              (snd (als_enable_req_dbus_cb cfg msg s)) =? 1)
                     then [(0, 0)] else [])).
  { unfold als_enable_req_dbus_cb. rewrite Hsender.
    set (s0 := emit (EvLog LL_DEBUG "Received ALS enable request") s).
    assert (H0 : als_owner_monitor_list s0 = als_owner_monitor_list s
                 /\ threshold_writes (trace s0) = threshold_writes (trace s)
                 /\ als_external_refcount s0 = als_external_refcount s).
    { unfold s0, emit. destruct s; cbn. repeat split.
      apply threshold_writes_log. }
    destruct H0 as (Hl0 & Ht0 & Hrc0).
    unfold mce_dbus_owner_monitor_add, can_track, tracked. rewrite Hl0.
    assert (Hset : forall n l (s1 : als_state),
               als_external_refcount
                 (set_als_external_refcount n (set_als_owner_monitor_list l s1)) = n
               /\ trace (set_als_external_refcount n (set_als_owner_monitor_list l s1))
                  = trace s1)
      by (intros n l s1; destruct s1; split; reflexivity).
    assert (Hwrite : forall n l,
               n <> -1 ->
               let s' :=
                 let s2 := set_als_external_refcount n
                             (set_als_owner_monitor_list l s0) in
                 if als_external_refcount s2 =? 1
                 then adjust_als_thresholds cfg 0 0 s2 else s2 in
               als_external_refcount s' = n
               /\ threshold_writes (trace s')
                  = threshold_writes (trace s)
                    ++ (if n =? 1 then [(0, 0)] else [])).
    { intros n l Hn. cbn zeta. destruct (Hset n l s0) as [Hrc Ht].
      rewrite Hrc. destruct (n =? 1) eqn:Hone.
      - destruct (adjust_als_thresholds_fields cfg 0 0
                    (set_als_external_refcount n (set_als_owner_monitor_list l s0)))
          as (Hrc' & _).
        split; [congruence|].
        rewrite adjust_als_thresholds_force, Ht, Ht0. reflexivity.
      - split; [exact Hrc|]. rewrite Ht, Ht0, app_nil_r. reflexivity. }
    cbn zeta in Hwrite.
    destruct (existsb (String.eqb who) (als_owner_monitor_list s)) eqn:Hknown.
    - cbn [orb andb snd].
      assert (Hn : Z.of_nat (List.length (als_owner_monitor_list s)) <> -1) by lia.
      apply Z.eqb_neq in Hn. rewrite Hn.
      apply Z.eqb_neq in Hn.
      destruct (Hwrite _ (als_owner_monitor_list s) Hn) as [Hrc Ht].
      split.
      + intros Hzero. unfold refcount_consistent in Hcons.
        rewrite Hzero in Hcons.
        destruct (als_owner_monitor_list s); [discriminate|cbn in Hcons; lia].
      + rewrite Ht, Hrc. reflexivity.
    - cbn [orb].
      destruct (ALS_MAX_MONITORED <=? List.length (als_owner_monitor_list s))%nat
        eqn:Hfull.
      + rewrite Z.eqb_refl. cbn [snd].
        replace (List.length (als_owner_monitor_list s) <? ALS_MAX_MONITORED)%nat
          with false
          by (symmetry; apply Nat.ltb_ge; apply Nat.leb_le; exact Hfull).
        cbn [andb].
        assert (Hs : trace (emit (EvLog LL_INFO "Failed to add name owner monitoring")
                              (set_als_owner_monitor_list (als_owner_monitor_list s) s0))
                     = trace s0 ++ [EvLog LL_INFO "Failed to add name owner monitoring"])
          by (destruct s0; reflexivity).
        split.
        * intros Hzero. unfold refcount_consistent in Hcons.
          apply Nat.leb_le in Hfull. unfold ALS_MAX_MONITORED in Hfull. lia.
        * rewrite Hs, threshold_writes_log, Ht0, app_nil_r. reflexivity.
      + cbn [snd].
        replace (List.length (als_owner_monitor_list s) <? ALS_MAX_MONITORED)%nat
          with true
          by (symmetry; apply Nat.ltb_lt; apply Nat.leb_gt; exact Hfull).
        cbn [andb].
        assert (Hn : Z.of_nat (S (List.length (als_owner_monitor_list s))) <> -1)
          by lia.
        apply Z.eqb_neq in Hn. rewrite Hn. apply Z.eqb_neq in Hn.
        destruct (Hwrite _ (who :: als_owner_monitor_list s) Hn) as [Hrc Ht].
        split.
        * intros Hzero. unfold refcount_consistent in Hcons.
          rewrite Hzero in Hcons. rewrite Hrc, Ht.
          assert (Hlen : List.length (als_owner_monitor_list s) = 0%nat) by lia.
          rewrite Hlen. split; reflexivity.
        * rewrite Ht, Hrc. reflexivity. }
  destruct Henable as [He1 He2].
  split; [exact He1|]. split; [exact He2|].
  assert (Hdisable := release_owner who
                        (emit (EvLog LL_DEBUG "Received ALS disable request") s) s
                        "Failed to remove name owner monitoring").
  assert (Hlost := release_owner who s s "Failed to remove name owner monitoring").
  unfold als_disable_req_dbus_cb, als_owner_monitor_dbus_cb. rewrite Hsender.
  destruct (mce_dbus_owner_monitor_remove who
              (als_owner_monitor_list
                 (emit (EvLog LL_DEBUG "Received ALS disable request") s)))
    as [retval l] eqn:Hrem.
  assert (Hrem' : mce_dbus_owner_monitor_remove who (als_owner_monitor_list s)
                  = (retval, l)).
  { rewrite <- Hrem. destruct s; reflexivity. }
  rewrite Hrem' in Hlost |- *. cbn zeta in Hdisable, Hlost. cbn [snd].
  destruct Hdisable as (Hd1 & _ & _ & Hd4).
  { destruct s; reflexivity. }
  { destruct s; reflexivity. }
  { unfold emit. destruct s; cbn. apply threshold_writes_log. }
  destruct Hlost as (Hl1 & _ & _ & Hl4); try reflexivity.
  split; [exact Hd1|]. split; [exact Hd4|].
  destruct (retval =? -1); cbn [snd]; split; [exact Hl1 | exact Hl4 | exact Hl1 | exact Hl4].
Qed.

(** A request without sender is refused before anything is touched. *)
Lemma ownership_request_without_sender msg s :
  sender msg = None ->
  threshold_writes (trace (snd (als_enable_req_dbus_cb cfg msg s)))
  = threshold_writes (trace s)
  /\ als_external_refcount (snd (als_enable_req_dbus_cb cfg msg s))
     = als_external_refcount s
  /\ threshold_writes (trace (snd (als_disable_req_dbus_cb cfg msg s)))
     = threshold_writes (trace s)
  /\ als_external_refcount (snd (als_disable_req_dbus_cb cfg msg s))
     = als_external_refcount s.
Proof.
  intros Hs. unfold als_enable_req_dbus_cb, als_disable_req_dbus_cb, emit.
  rewrite Hs. destruct s; cbn. rewrite !threshold_writes_log.
  repeat split; reflexivity.
Qed.

End Ownership.

Lemma ownership_transitions_witness :
  let enable := {| sender := Some "client"; no_reply := true; sent := true |} in
  let enabled := snd (als_enable_req_dbus_cb (hdr := sample_header) dipro_config
                        enable sample_on_state) in
  als_external_refcount enabled = 1
  /\ threshold_writes (trace enabled)
     = threshold_writes (trace sample_on_state) ++ [(0, 0)].
Proof.
  cbv zeta.
  refine (proj1 (ownership_transitions (hdr := sample_header) dipro_config
                   "als_thres_range" eq_refl
                   {| sender := Some "client"; no_reply := true; sent := true |}
                   "client" "client" "" sample_on_state eq_refl _) _).
  - reflexivity.
  - reflexivity.
Defined.

(** C5 as the design document words it fails: the only owner asking
    again leaves the refcount at 1, no transition, and yet the band
    (0,0) is written a second time. *)
Lemma repeated_enable_counterexample :
  let enable := {| sender := Some "client"; no_reply := true; sent := true |} in
  let s1 := snd (als_enable_req_dbus_cb (hdr := sample_header) dipro_config enable
                   sample_on_state) in
  let s2 := snd (als_enable_req_dbus_cb (hdr := sample_header) dipro_config enable
                   s1) in
  als_external_refcount s1 = 1
  /\ als_external_refcount s2 = 1
  /\ als_owner_monitor_list s2 = als_owner_monitor_list s1
  /\ threshold_writes (trace s1) = [(0, 0)]
  /\ threshold_writes (trace s2) = [(0, 0); (0, 0)].
Proof.
  cbv zeta. repeat split; reflexivity.
Qed.

(** ** The delayed step-down *)

Section StepDown.

Context {hdr : als_header}.
Variable cfg : als_config.


Lemma lux_unusable_step_down L s :
  0 <= L -> L < als_lux s -> lux_unusable L s = false.
Proof.
  intros H0 Hlt. unfold lux_unusable.
  replace (L =? -1) with false by (symmetry; apply Z.eqb_neq; lia).
  replace (als_lux s =? L) with false by (symmetry; apply Z.eqb_neq; lia).
  reflexivity.
Qed.

(** A step-down sample on a sensor without median filter, with the
    proximity sensor not covered. *)
Lemma als_iomon_common_step_down L no_delay s :
  use_median_filter cfg = false ->
  proximity_sensor_pipe s <> COVER_CLOSED ->
  0 <= L -> L < als_lux s ->
  als_iomon_common cfg L no_delay s
  = if no_delay
    then als_lux_update cfg L (set_brightness_delay_timer_cb_id 0%nat s)
    else defer_step_down cfg L s.
Proof.
  intros Hmf Hprox H0 Hlt. rewrite als_iomon_common_cases. cbn zeta.
  unfold als_median_filter_map. rewrite Hmf. cbn [fst snd].
  rewrite lux_unusable_step_down by assumption.
  replace (als_lux s >? L) with true by (symmetry; apply Z.gtb_lt; lia).
  destruct (proximity_sensor_pipe s); [reflexivity | contradiction | reflexivity].
Qed.

(** ** The display going off *)

Lemma cancel_als_poll_timer_keeps_delay id cb s :
  In (id, cb) (armed_delay_timers s) ->
  als_poll_timer_cb_id s <> id ->
  In (id, cb) (armed_delay_timers (cancel_als_poll_timer s))
  /\ brightness_delay_timer_cb_id (cancel_als_poll_timer s)
     = brightness_delay_timer_cb_id s
  /\ delayed_lux (cancel_als_poll_timer s) = delayed_lux s
  /\ threshold_writes (trace (cancel_als_poll_timer s)) = threshold_writes (trace s)
  /\ als_poll_interval (cancel_als_poll_timer s) = als_poll_interval s.
Proof.
  intros Hin Hne. unfold cancel_als_poll_timer, armed_delay_timers, g_source_remove,
                    emit in *.
  destruct s; cbn in *.
  destruct als_iomon_id0 as [iomon|]; cbn;
    (destruct (als_poll_timer_cb_id0 =? 0)%nat; cbn;
     rewrite ?threshold_writes_app, ?app_nil_r;
     repeat split; try reflexivity; try assumption;
     apply filter_In; apply filter_In in Hin; destruct Hin as [Hin Hd];
     (split; [|exact Hd]); apply filter_In; (split; [exact Hin|]);
     cbn; apply negb_true_iff; apply Nat.eqb_neq; congruence).
Qed.

Lemma setup_als_poll_timer_keeps_delay iomon id cb s :
  In (id, cb) (armed_delay_timers s) ->
  als_poll_timer_cb_id s <> id ->
  In (id, cb) (armed_delay_timers (setup_als_poll_timer cfg iomon s))
  /\ brightness_delay_timer_cb_id (setup_als_poll_timer cfg iomon s)
     = brightness_delay_timer_cb_id s
  /\ delayed_lux (setup_als_poll_timer cfg iomon s) = delayed_lux s
  /\ threshold_writes (trace (setup_als_poll_timer cfg iomon s))
     = threshold_writes (trace s).
Proof.
  intros Hin Hne.
  destruct (cancel_als_poll_timer_keeps_delay id cb s Hin Hne)
    as (Cin & Cid & Cdl & Ctw & Cint).
  assert (Hadd : forall s0 : als_state,
             In (id, cb) (armed_delay_timers s0) ->
             let '(new, s1) :=
               g_timeout_add (ALS_POLL_TIMER_CB (als_poll_interval s0)) s0 in
             In (id, cb) (armed_delay_timers (set_als_poll_timer_cb_id new s1))
             /\ brightness_delay_timer_cb_id (set_als_poll_timer_cb_id new s1)
                = brightness_delay_timer_cb_id s0
             /\ delayed_lux (set_als_poll_timer_cb_id new s1) = delayed_lux s0
             /\ trace (set_als_poll_timer_cb_id new s1) = trace s0).
  { intros s0 Hin0. unfold g_timeout_add, armed_delay_timers in *.
    destruct s0; cbn in *. repeat split.
    rewrite filter_app. apply in_or_app. left. exact Hin0. }
  assert (Hpoll : In (id, cb)
                     (armed_delay_timers
                        (let s0 := cancel_als_poll_timer s in
                         let '(new, s1) :=
                           g_timeout_add (ALS_POLL_TIMER_CB (als_poll_interval s0)) s0 in
                         set_als_poll_timer_cb_id new s1))
                  /\ brightness_delay_timer_cb_id
                       (let s0 := cancel_als_poll_timer s in
                        let '(new, s1) :=
                          g_timeout_add (ALS_POLL_TIMER_CB (als_poll_interval s0)) s0 in
                        set_als_poll_timer_cb_id new s1)
                     = brightness_delay_timer_cb_id s
                  /\ delayed_lux
                       (let s0 := cancel_als_poll_timer s in
                        let '(new, s1) :=
                          g_timeout_add (ALS_POLL_TIMER_CB (als_poll_interval s0)) s0 in
                        set_als_poll_timer_cb_id new s1)
                     = delayed_lux s
                  /\ threshold_writes
                       (trace
                          (let s0 := cancel_als_poll_timer s in
                           let '(new, s1) :=
                             g_timeout_add (ALS_POLL_TIMER_CB (als_poll_interval s0)) s0 in
                           set_als_poll_timer_cb_id new s1))
                     = threshold_writes (trace s)).
  { cbn zeta. specialize (Hadd (cancel_als_poll_timer s) Cin).
    destruct (g_timeout_add _ (cancel_als_poll_timer s)) as [new s1].
    destruct Hadd as (A1 & A2 & A3 & A4). repeat split; congruence. }
  assert (Hiomon : forall v,
             In (id, cb) (armed_delay_timers (set_als_iomon_id v s))
             /\ brightness_delay_timer_cb_id (set_als_iomon_id v s)
                = brightness_delay_timer_cb_id s
             /\ delayed_lux (set_als_iomon_id v s) = delayed_lux s
             /\ threshold_writes (trace (set_als_iomon_id v s))
                = threshold_writes (trace s)).
  { intros v. unfold armed_delay_timers in *. destruct s; cbn in *.
    repeat split. exact Hin. }
  unfold setup_als_poll_timer.
  destruct (als_poll_interval s =? 0).
  - assert (Hclose : forall s0 : als_state,
               armed_delay_timers (emit EvCloseFile s0) = armed_delay_timers s0
               /\ brightness_delay_timer_cb_id (emit EvCloseFile s0)
                  = brightness_delay_timer_cb_id s0
               /\ delayed_lux (emit EvCloseFile s0) = delayed_lux s0
               /\ trace (emit EvCloseFile s0) = trace s0 ++ [EvCloseFile])
      by (intros s0; destruct s0; repeat split; reflexivity).
    destruct (Hclose (cancel_als_poll_timer s)) as (H1 & H2 & H3 & H4).
    rewrite H1, H2, H3, H4, threshold_writes_app. cbn. rewrite app_nil_r.
    repeat split; assumption.
  - destruct (als_type cfg); try exact Hpoll;
      (destruct (als_iomon_id s);
       [repeat split; try reflexivity; exact Hin | apply Hiomon]).
Qed.

(** C9, as amended: when the display goes from on or dim to off or
    one of the low-power states while a step-down delay timer is
    pending, the band (0,65535) is written whatever the pending lux
    is; the pending timer stays armed and the pending lux stays
    recorded. *)
Theorem display_off_with_pending_timer path raw iomon data id cb s :
  als_threshold_range_path cfg = Some path ->
  als_enabled s = true ->
  display_is_on (old_display_state s) = true ->
  display_is_off data = true ->
  brightness_delay_timer_cb_id s = id ->
  id <> 0%nat ->
  In (id, cb) (armed_delay_timers s) ->
  als_poll_timer_cb_id s <> id ->
  let s' := display_state_trigger cfg raw iomon data s in
  threshold_writes (trace s') = threshold_writes (trace s) ++ [(0, 65535)]
  /\ brightness_delay_timer_cb_id s' = id
  /\ In (id, cb) (armed_delay_timers s')
  /\ delayed_lux s' = delayed_lux s.
Proof.
  intros Hpath Hen Hon Hoff Hid Hid0 Hin Hpoll. cbn zeta.
  unfold display_state_trigger.
  set (s0 := set_display_state data s).
  assert (F0 : als_enabled s0 = true
               /\ old_display_state s0 = old_display_state s
               /\ display_state s0 = data)
    by (unfold s0; destruct s; cbn in *; repeat split; assumption).
  destruct F0 as (F0en & F0old & F0d).
  rewrite F0en. cbn [negb].
  set (s1 := set_als_poll_interval (poll_interval_for (display_state s0)) s0).
  assert (F1 : old_display_state s1 = old_display_state s
               /\ display_state s1 = data
               /\ armed_delay_timers s1 = armed_delay_timers s
               /\ brightness_delay_timer_cb_id s1 = brightness_delay_timer_cb_id s
               /\ delayed_lux s1 = delayed_lux s
               /\ trace s1 = trace s
               /\ als_poll_timer_cb_id s1 = als_poll_timer_cb_id s)
    by (unfold s1, s0, armed_delay_timers; destruct s; cbn in *;
        repeat split; reflexivity).
  destruct F1 as (F1old & F1d & F1arm & F1id & F1dl & F1tr & F1poll).
  rewrite F1old, F1d, Hon, Hoff.
  replace (display_is_on data) with false
    by (destruct data; cbn in Hoff |- *; congruence).
  rewrite andb_false_r. cbn [andb].
  set (s2 := adjust_als_thresholds cfg 0 65535 s1).
  assert (F2 : trace s2 = trace s1 ++ [EvWriteThreshold path 0 65535]
               /\ armed_delay_timers s2 = armed_delay_timers s1
               /\ brightness_delay_timer_cb_id s2 = brightness_delay_timer_cb_id s1
               /\ delayed_lux s2 = delayed_lux s1
               /\ als_poll_timer_cb_id s2 = als_poll_timer_cb_id s1).
  { unfold s2, adjust_als_thresholds, emit, armed_delay_timers. rewrite Hpath.
    destruct s1; cbn. repeat split; reflexivity. }
  destruct F2 as (F2tr & F2arm & F2id & F2dl & F2poll).
  assert (Hin2 : In (id, cb) (armed_delay_timers s2)) by congruence.
  assert (Hpoll2 : als_poll_timer_cb_id s2 <> id) by congruence.
  assert (Hold : forall s3 : als_state,
             armed_delay_timers (set_old_display_state (display_state s3) s3)
             = armed_delay_timers s3
             /\ brightness_delay_timer_cb_id
                  (set_old_display_state (display_state s3) s3)
                = brightness_delay_timer_cb_id s3
             /\ delayed_lux (set_old_display_state (display_state s3) s3)
                = delayed_lux s3
             /\ trace (set_old_display_state (display_state s3) s3) = trace s3)
    by (intros s3; destruct s3; repeat split; reflexivity).
  assert (Htw2 : threshold_writes (trace s2)
                 = threshold_writes (trace s) ++ [(0, 65535)]).
  { rewrite F2tr, threshold_writes_app, F1tr. reflexivity. }
  unfold display_state_reprogram.
  destruct (negb (als_poll_interval s2 =? als_poll_interval s)
            || (als_poll_timer_cb_id s2 =? 0)%nat && negb (not_null (als_iomon_id s2))).
  - destruct (setup_als_poll_timer_keeps_delay iomon id cb s2 Hin2 Hpoll2)
      as (S1 & S2 & S3 & S4).
    destruct (Hold (setup_als_poll_timer cfg iomon s2)) as (O1 & O2 & O3 & O4).
    rewrite O1, O2, O3, O4. repeat split; congruence.
  - destruct (Hold s2) as (O1 & O2 & O3 & O4).
    rewrite O1, O2, O3, O4. repeat split; congruence.
Qed.

End StepDown.


Lemma display_off_with_pending_timer_witness :
  let s := als_iomon_common (hdr := sample_header) dipro_config 50 false
             sample_on_state in
  let s' := display_state_trigger (hdr := sample_header) dipro_config None None
              MCE_DISPLAY_OFF s in
  threshold_writes (trace s') = threshold_writes (trace s) ++ [(0, 65535)]
  /\ brightness_delay_timer_cb_id s' = 1%nat
  /\ In (1%nat, BRIGHTNESS_DELAY_TIMER_CB 5) (armed_delay_timers s')
  /\ delayed_lux s' = delayed_lux s.
Proof.
  cbv zeta.
  apply (display_off_with_pending_timer (hdr := sample_header) dipro_config
           "als_thres_range" None None MCE_DISPLAY_OFF 1%nat
           (BRIGHTNESS_DELAY_TIMER_CB 5)
           (als_iomon_common (hdr := sample_header) dipro_config 50 false
              sample_on_state)).
  - reflexivity.
  - reflexivity.
  - reflexivity.
  - reflexivity.
  - reflexivity.
  - discriminate.
  - left. reflexivity.
  - discriminate.
Defined.

(** C9 as the design document words it fails: the display going off
    while a step-down is pending writes (0,65535) but cancels nothing;
    the timer is still armed, and when it fires it applies the pending
    lux and writes the merged band over (0,65535). *)
Lemma display_off_pending_timer_counterexample :
  let s1 := als_iomon_common (hdr := sample_header) dipro_config 50 false
              sample_on_state in
  let s2 := display_state_trigger (hdr := sample_header) dipro_config None None
              MCE_DISPLAY_OFF s1 in
  let s3 := dispatch_timeout (hdr := sample_header) dipro_config 1%nat None s2 in
  brightness_delay_timer_cb_id s1 = 1%nat
  /\ armed_delay_timers s1 = [(1%nat, BRIGHTNESS_DELAY_TIMER_CB 5)]
  /\ display_state s2 = MCE_DISPLAY_OFF
  /\ threshold_writes (trace s2) = [(0, 65535)]
  /\ brightness_delay_timer_cb_id s2 = 1%nat
  /\ armed_delay_timers s2 = [(1%nat, BRIGHTNESS_DELAY_TIMER_CB 5)]
  /\ als_lux s3 = 50
  /\ threshold_writes (trace s3) = [(0, 65535); (300, 65535)].
Proof.
  cbv zeta. repeat split; reflexivity.
Qed.

(** * Further properties of the code *)

(** ** The profile evaluator beyond the sentinel case *)

Section EvaluatorBounds.

Context {hdr : als_header}.

(** [*level] at the end of the loop: the exit index when the loop was
    left by [break], the last index otherwise (the old level when the
    loop body never ran). *)
Lemma filter_data_scan_level p lux tmp fuel :
  forall i level n level',
    filter_data_scan p lux tmp fuel i level = (n, level') ->
    (fuel = 0%nat -> level' = level)
    /\ ((n < i + fuel)%nat -> level' = Z.of_nat n)
    /\ ((0 < fuel)%nat -> n = (i + fuel)%nat -> level' = Z.of_nat n - 1).
Proof.
  induction fuel as [|fuel IH]; intros i level n level' Hscan;
    cbn [filter_data_scan] in Hscan.
  - inversion Hscan; subst. repeat split; intros; try lia; try reflexivity.
  - destruct (range_cell p i 0 =? -1).
    + inversion Hscan; subst. repeat split; intros; try lia; try reflexivity.
    + destruct (lux <? range_cell p i (boundary_column tmp i)).
      * inversion Hscan; subst. repeat split; intros; try lia; try reflexivity.
      * pose proof (IH _ _ _ _ Hscan) as (H0 & Hlt & Hend).
        split; [intros; lia|]. split.
        -- intros Hn. apply Hlt. lia.
        -- intros _ Hn. destruct fuel as [|fuel'].
           ++ rewrite (H0 eq_refl). lia.
           ++ apply Hend; lia.
Qed.

(** The result of [filter_data] when the scan ends at row [n] below
    [ALS_RANGES]. *)
Lemma filter_data_first_stop profiles profile lux L n :
  (n < ALS_RANGES)%nat ->
  scan_stops boundary_column (profile_at profiles profile) lux L n ->
  (forall j, (j < n)%nat ->
             ~ scan_stops boundary_column (profile_at profiles profile) lux L j) ->
  filter_data profiles profile lux L
  = {| fr_value := nth n (value (profile_at profiles profile)) 0;
       fr_level := Z.of_nat n;
       fr_lower := if (n =? 0)%nat then 0
                   else range_cell (profile_at profiles profile) (n - 1) 0;
       fr_upper := if range_cell (profile_at profiles profile) n 1 =? -1 then 65535
                   else range_cell (profile_at profiles profile) n 1;
       fr_log := [] |}.
Proof.
  intros Hn Hstop Hbefore. unfold filter_data.
  destruct (filter_data_scan (profile_at profiles profile) lux (clamp_level L)
                             ALS_RANGES 0 L) as [m level'] eqn:Hscan.
  pose proof (filter_data_scan_first _ _ _ _ _ _ _ _ Hscan
                ltac:(intros; lia)) as (Hr & Hall & Hm).
  assert (Hmn : m = n).
  { destruct (Nat.lt_trichotomy m n) as [Hlt|[Heq|Hgt]]; [|exact Heq|].
    - exfalso. apply (Hbefore m Hlt). apply Hm. lia.
    - exfalso. apply (Hall n Hgt). exact Hstop. }
  subst m. destruct (Hm ltac:(lia)) as [_ Hlevel]. subst level'.
  replace (ALS_RANGES <=? n)%nat with false by (symmetry; apply Nat.leb_gt; lia).
  rewrite Nat2Z.id. reflexivity.
Qed.

(** X1: The new level is always a row index: whatever the profile, the
    lux and the old level, [0 <= *level < ALS_RANGES] on return. *)
Theorem filter_data_level_in_range profiles profile lux L :
  (0 < ALS_RANGES)%nat ->
  0 <= fr_level (filter_data profiles profile lux L) < Z.of_nat ALS_RANGES.
Proof.
  intros HR. unfold filter_data.
  destruct (filter_data_scan (profile_at profiles profile) lux (clamp_level L)
                             ALS_RANGES 0 L) as [n level'] eqn:Hscan.
  pose proof (filter_data_scan_first _ _ _ _ _ _ _ _ Hscan
                ltac:(intros; lia)) as (Hr & _ & _).
  pose proof (filter_data_scan_level _ _ _ _ _ _ _ _ Hscan) as (_ & Hlt & Hend).
  cbn [fr_level].
  destruct (Nat.eq_dec n ALS_RANGES) as [Heq|Hne].
  - rewrite (Hend HR ltac:(lia)). lia.
  - rewrite (Hlt ltac:(lia)). lia.
Qed.

(** X2: A profile without terminating row that the lux runs past: the
    level stays at the last row, the upper bound is left open at 65535
    and the defect is logged as critical. *)
Theorem filter_data_missing_sentinel profiles profile lux L :
  (0 < ALS_RANGES)%nat ->
  (forall j, (j < ALS_RANGES)%nat ->
             ~ scan_stops boundary_column (profile_at profiles profile) lux L j) ->
  filter_data profiles profile lux L
  = {| fr_value := nth (ALS_RANGES - 1) (value (profile_at profiles profile)) 0;
       fr_level := Z.of_nat ALS_RANGES - 1;
       fr_lower := range_cell (profile_at profiles profile) (ALS_RANGES - 1) 0;
       fr_upper := 65535;
       fr_log := [EvLog LL_CRIT "The ALS profile lacks terminating { -1, -1 }"] |}.
Proof.
  intros HR Hnone. unfold filter_data.
  destruct (filter_data_scan (profile_at profiles profile) lux (clamp_level L)
                             ALS_RANGES 0 L) as [n level'] eqn:Hscan.
  pose proof (filter_data_scan_first _ _ _ _ _ _ _ _ Hscan
                ltac:(intros; lia)) as (Hr & _ & Hstop).
  pose proof (filter_data_scan_level _ _ _ _ _ _ _ _ Hscan) as (_ & _ & Hend).
  assert (Hn : n = ALS_RANGES).
  { destruct (Nat.eq_dec n ALS_RANGES) as [Heq|Hne]; [exact Heq|].
    exfalso. apply (Hnone n); [lia|]. apply Hstop. lia. }
  subst n. rewrite (Hend HR eq_refl).
  rewrite Nat.leb_refl.
  replace (ALS_RANGES =? 0)%nat with false by (symmetry; apply Nat.eqb_neq; lia).
  replace (Z.to_nat (Z.of_nat ALS_RANGES - 1)) with (ALS_RANGES - 1)%nat by lia.
  reflexivity.
Qed.

(** X3: No oscillation at a single lux value: on a profile with a
    sentinel row whose rows have their lower boundary at or below
    their upper boundary, evaluating again at the same lux from the
    level just returned returns the same level, band and brightness. *)
Theorem filter_data_stable profiles profile lux L s :
  (s < ALS_RANGES)%nat ->
  range_cell (profile_at profiles profile) s 0 = -1 ->
  (forall j, (j < s)%nat ->
             range_cell (profile_at profiles profile) j 0
             <= range_cell (profile_at profiles profile) j 1) ->
  filter_data profiles profile lux
              (fr_level (filter_data profiles profile lux L))
  = filter_data profiles profile lux L.
Proof.
  intros Hs Hsent Hrows.
  set (p := profile_at profiles profile) in *.
  unfold filter_data at 2 3. fold p.
  destruct (filter_data_scan p lux (clamp_level L) ALS_RANGES 0 L)
    as [n level'] eqn:Hscan.
  pose proof (filter_data_scan_first _ _ _ _ _ _ _ _ Hscan
                ltac:(intros; lia)) as (Hr & Hall & Hstop).
  assert (Hns : (n <= s)%nat).
  { destruct (Nat.le_gt_cases n s) as [|Hgt]; [assumption|].
    exfalso. apply (Hall s Hgt). left; exact Hsent. }
  destruct (Hstop ltac:(lia)) as [Hstopn Hlevel]. subst level'.
  cbn [fr_level].
  assert (Hclamp : clamp_level (Z.of_nat n) = Z.of_nat n).
  { unfold clamp_level.
    replace (Z.of_nat n =? -1) with false by (symmetry; apply Z.eqb_neq; lia).
    replace (Z.of_nat n >? Z.of_nat ALS_RANGES) with false; [reflexivity|].
    symmetry. rewrite Z.gtb_ltb. apply Z.ltb_ge. lia. }
  assert (Hcol : forall j, boundary_column (Z.of_nat n) j
                           = if (j <? n)%nat then 0%nat else 1%nat).
  { intros j. unfold boundary_column.
    destruct (j <? n)%nat eqn:Hj.
    - apply Nat.ltb_lt in Hj.
      replace (Z.of_nat j + 1 - Z.of_nat n >? 0) with false; [reflexivity|].
      symmetry. rewrite Z.gtb_ltb. apply Z.ltb_ge. lia.
    - apply Nat.ltb_ge in Hj.
      replace (Z.of_nat j + 1 - Z.of_nat n >? 0) with true; [reflexivity|].
      symmetry. apply Z.gtb_lt. lia. }
  rewrite (filter_data_first_stop profiles profile lux (Z.of_nat n) n);
    fold p; try lia.
  - replace (ALS_RANGES <=? n)%nat with false by (symmetry; apply Nat.leb_gt; lia).
    rewrite Nat2Z.id. reflexivity.
  - (* row n still ends the scan *)
    destruct Hstopn as [Hsn|Hlt]; [left; exact Hsn|].
    destruct (Nat.eq_dec n s) as [->|Hne]; [left; exact Hsent|].
    right. rewrite Hclamp, Hcol, Nat.ltb_irrefl.
    unfold boundary_column in Hlt.
    destruct (Z.of_nat n + 1 - clamp_level L >? 0); [exact Hlt|].
    pose proof (Hrows n ltac:(lia)). lia.
  - (* no earlier row does *)
    intros j Hj [Hsj|Hlt].
    + apply (Hall j Hj). left; exact Hsj.
    + apply (Hall j Hj). right.
      rewrite Hclamp, Hcol in Hlt.
      replace (j <? n)%nat with true in Hlt by (symmetry; apply Nat.ltb_lt; lia).
      unfold boundary_column.
      destruct (Z.of_nat j + 1 - clamp_level L >? 0); [|exact Hlt].
      pose proof (Hrows j ltac:(lia)). lia.
Qed.

(** X4: More light never lowers the level: from the same old level, the
    level returned for a larger lux is at least the level returned for
    a smaller one. *)
Theorem filter_data_level_monotone profiles profile lux1 lux2 L :
  lux1 <= lux2 ->
  fr_level (filter_data profiles profile lux1 L)
  <= fr_level (filter_data profiles profile lux2 L).
Proof.
  intros Hle. unfold filter_data.
  set (p := profile_at profiles profile).
  destruct (filter_data_scan p lux1 (clamp_level L) ALS_RANGES 0 L)
    as [n1 l1] eqn:Hscan1.
  destruct (filter_data_scan p lux2 (clamp_level L) ALS_RANGES 0 L)
    as [n2 l2] eqn:Hscan2.
  cbn [fr_level].
  pose proof (filter_data_scan_first _ _ _ _ _ _ _ _ Hscan1
                ltac:(intros; lia)) as (Hr1 & Hall1 & Hstop1).
  pose proof (filter_data_scan_first _ _ _ _ _ _ _ _ Hscan2
                ltac:(intros; lia)) as (Hr2 & Hall2 & Hstop2).
  pose proof (filter_data_scan_level _ _ _ _ _ _ _ _ Hscan1) as (H01 & Hlt1 & Hend1).
  pose proof (filter_data_scan_level _ _ _ _ _ _ _ _ Hscan2) as (H02 & Hlt2 & Hend2).
  assert (Hn : (n1 <= n2)%nat).
  { destruct (Nat.le_gt_cases n1 n2) as [|Hgt]; [assumption|].
    exfalso. apply (Hall1 n2 Hgt).
    destruct (Hstop2 ltac:(lia)) as [[Hs|Hl] _]; [left; exact Hs|].
    right. lia. }
  destruct (Nat.eq_dec ALS_RANGES 0) as [HR|HR].
  - rewrite (H01 HR), (H02 HR). lia.
  - destruct (Nat.eq_dec n1 ALS_RANGES) as [E1|E1];
      destruct (Nat.eq_dec n2 ALS_RANGES) as [E2|E2].
    + rewrite (Hend1 ltac:(lia) ltac:(lia)), (Hend2 ltac:(lia) ltac:(lia)). lia.
    + lia.
    + rewrite (Hlt1 ltac:(lia)), (Hend2 ltac:(lia) ltac:(lia)). lia.
    + rewrite (Hlt1 ltac:(lia)), (Hlt2 ltac:(lia)). lia.
Qed.

End EvaluatorBounds.

Lemma filter_data_level_in_range_witness :
  0 <= fr_level (filter_data (hdr := sample_header) [hysteresis_profile] 0 35 7) < 11.
Proof.
  apply (filter_data_level_in_range (hdr := sample_header) [hysteresis_profile] 0 35 7).
  simpl. lia.
Defined.

Lemma filter_data_missing_sentinel_witness :
  filter_data (hdr := sample_header) [unterminated_profile] 0 25 0
  = {| fr_value := 50;
       fr_level := 10;
       fr_lower := 10;
       fr_upper := 65535;
       fr_log := [EvLog LL_CRIT "The ALS profile lacks terminating { -1, -1 }"] |}.
Proof.
  refine (filter_data_missing_sentinel (hdr := sample_header)
            [unterminated_profile] 0 25 0 _ _).
  - simpl. lia.
  - intros j Hj [H|H];
      do 11 (destruct j as [|j]; [vm_compute in H; discriminate|]);
      simpl in Hj; lia.
Defined.

Lemma filter_data_stable_witness :
  filter_data (hdr := sample_header) [hysteresis_profile] 0 15
              (fr_level (filter_data (hdr := sample_header) [hysteresis_profile] 0 15 1))
  = filter_data (hdr := sample_header) [hysteresis_profile] 0 15 1.
Proof.
  apply (filter_data_stable (hdr := sample_header) [hysteresis_profile] 0 15 1 2%nat).
  - simpl. lia.
  - reflexivity.
  - intros j Hj. do 2 (destruct j as [|j]; [vm_compute; discriminate|]). lia.
Defined.

Lemma filter_data_level_monotone_witness :
  fr_level (filter_data (hdr := sample_header) [hysteresis_profile] 0 15 1)
  <= fr_level (filter_data (hdr := sample_header) [hysteresis_profile] 0 35 1).
Proof.
  apply (filter_data_level_monotone (hdr := sample_header) [hysteresis_profile] 0 15 35 1).
  lia.
Defined.

(** ** What the operations of the module leave alone *)

Section Views.

Context {hdr : als_header}.
Variable cfg : als_config.

Ltac by_fields := intros s; destruct s; reflexivity.

Ltac quiet_emit :=
  intros s; unfold thresholds_of, emit; destruct s; cbn;
  rewrite threshold_writes_app; cbn; rewrite app_nil_r; reflexivity.

#[global] Instance set_als_iomon_id_thresholds v : KeepsThresholds (set_als_iomon_id v).
Proof. by_fields. Qed.
#[global] Instance set_als_enabled_thresholds v : KeepsThresholds (set_als_enabled v).
Proof. by_fields. Qed.
#[global] Instance set_als_lux_thresholds v : KeepsThresholds (set_als_lux v).
Proof. by_fields. Qed.
#[global] Instance set_delayed_lux_thresholds v : KeepsThresholds (set_delayed_lux v).
Proof. by_fields. Qed.
#[global] Instance set_display_state_thresholds v : KeepsThresholds (set_display_state v).
Proof. by_fields. Qed.
#[global] Instance set_old_display_state_thresholds v :
  KeepsThresholds (set_old_display_state v).
Proof. by_fields. Qed.
#[global] Instance set_median_filter_thresholds v : KeepsThresholds (set_median_filter v).
Proof. by_fields. Qed.
#[global] Instance set_als_poll_interval_thresholds v :
  KeepsThresholds (set_als_poll_interval v).
Proof. by_fields. Qed.
#[global] Instance set_als_poll_timer_cb_id_thresholds v :
  KeepsThresholds (set_als_poll_timer_cb_id v).
Proof. by_fields. Qed.
#[global] Instance set_brightness_delay_timer_cb_id_thresholds v :
  KeepsThresholds (set_brightness_delay_timer_cb_id v).
Proof. by_fields. Qed.
#[global] Instance set_als_external_refcount_thresholds v :
  KeepsThresholds (set_als_external_refcount v).
Proof. by_fields. Qed.
#[global] Instance set_als_owner_monitor_list_thresholds v :
  KeepsThresholds (set_als_owner_monitor_list v).
Proof. by_fields. Qed.
#[global] Instance set_sources_thresholds v n : KeepsThresholds (set_sources v n).
Proof. by_fields. Qed.
#[global] Instance set_datapipes_thresholds d l k p :
  KeepsThresholds (set_datapipes d l k p).
Proof. by_fields. Qed.
#[global] Instance g_source_remove_thresholds id : KeepsThresholds (g_source_remove id).
Proof. by_fields. Qed.
#[global] Instance emit_log_thresholds level msg :
  KeepsThresholds (emit (EvLog level msg)).
Proof. quiet_emit. Qed.
#[global] Instance emit_close_thresholds : KeepsThresholds (emit EvCloseFile).
Proof. quiet_emit. Qed.
#[global] Instance emit_unregister_thresholds id :
  KeepsThresholds (emit (EvUnregisterIoMonitor id)).
Proof. quiet_emit. Qed.

#[global] Instance set_als_iomon_id_bounds v : KeepsBounds (set_als_iomon_id v).
Proof. by_fields. Qed.
#[global] Instance set_als_enabled_bounds v : KeepsBounds (set_als_enabled v).
Proof. by_fields. Qed.
#[global] Instance set_als_lux_bounds v : KeepsBounds (set_als_lux v).
Proof. by_fields. Qed.
#[global] Instance set_delayed_lux_bounds v : KeepsBounds (set_delayed_lux v).
Proof. by_fields. Qed.
#[global] Instance set_display_state_bounds v : KeepsBounds (set_display_state v).
Proof. by_fields. Qed.
#[global] Instance set_old_display_state_bounds v : KeepsBounds (set_old_display_state v).
Proof. by_fields. Qed.
#[global] Instance set_median_filter_bounds v : KeepsBounds (set_median_filter v).
Proof. by_fields. Qed.
#[global] Instance set_als_poll_interval_bounds v : KeepsBounds (set_als_poll_interval v).
Proof. by_fields. Qed.
#[global] Instance set_als_poll_timer_cb_id_bounds v :
  KeepsBounds (set_als_poll_timer_cb_id v).
Proof. by_fields. Qed.
#[global] Instance set_brightness_delay_timer_cb_id_bounds v :
  KeepsBounds (set_brightness_delay_timer_cb_id v).
Proof. by_fields. Qed.
#[global] Instance set_als_external_refcount_bounds v :
  KeepsBounds (set_als_external_refcount v).
Proof. by_fields. Qed.
#[global] Instance set_als_owner_monitor_list_bounds v :
  KeepsBounds (set_als_owner_monitor_list v).
Proof. by_fields. Qed.
#[global] Instance set_sources_bounds v n : KeepsBounds (set_sources v n).
Proof. by_fields. Qed.
#[global] Instance set_datapipes_bounds d l k p : KeepsBounds (set_datapipes d l k p).
Proof. by_fields. Qed.
#[global] Instance set_cached_bounds l u : KeepsBounds (set_cached l u).
Proof. by_fields. Qed.
#[global] Instance g_source_remove_bounds id : KeepsBounds (g_source_remove id).
Proof. by_fields. Qed.
#[global] Instance emit_bounds e : KeepsBounds (emit e).
Proof. by_fields. Qed.

#[global] Instance set_als_iomon_id_timers v : KeepsTimers (set_als_iomon_id v).
Proof. by_fields. Qed.
#[global] Instance set_als_enabled_timers v : KeepsTimers (set_als_enabled v).
Proof. by_fields. Qed.
#[global] Instance set_als_lux_timers v : KeepsTimers (set_als_lux v).
Proof. by_fields. Qed.
#[global] Instance set_delayed_lux_timers v : KeepsTimers (set_delayed_lux v).
Proof. by_fields. Qed.
#[global] Instance set_display_state_timers v : KeepsTimers (set_display_state v).
Proof. by_fields. Qed.
#[global] Instance set_old_display_state_timers v : KeepsTimers (set_old_display_state v).
Proof. by_fields. Qed.
#[global] Instance set_median_filter_timers v : KeepsTimers (set_median_filter v).
Proof. by_fields. Qed.
#[global] Instance set_als_poll_interval_timers v : KeepsTimers (set_als_poll_interval v).
Proof. by_fields. Qed.
#[global] Instance set_als_poll_timer_cb_id_timers v :
  KeepsTimers (set_als_poll_timer_cb_id v).
Proof. by_fields. Qed.
#[global] Instance set_als_external_refcount_timers v :
  KeepsTimers (set_als_external_refcount v).
Proof. by_fields. Qed.
#[global] Instance set_als_owner_monitor_list_timers v :
  KeepsTimers (set_als_owner_monitor_list v).
Proof. by_fields. Qed.
#[global] Instance set_datapipes_timers d l k p : KeepsTimers (set_datapipes d l k p).
Proof. by_fields. Qed.
#[global] Instance set_cached_timers l u : KeepsTimers (set_cached l u).
Proof. by_fields. Qed.
#[global] Instance emit_timers e : KeepsTimers (emit e).
Proof. by_fields. Qed.

(** The filters and the colour phase adjustment. *)
Lemma outside_filters_views s s' :
  outside_filters s' = outside_filters s ->
  thresholds_of s' = thresholds_of s /\ timers_of s' = timers_of s.
Proof.
  intros H. apply outside_filters_fields in H.
  destruct H as (_ & Htw & _ & _ & Hsrc & _ & Hid & _ & Hc).
  unfold thresholds_of, timers_of. rewrite Htw, Hsrc, Hid, Hc. split; reflexivity.
Qed.

#[global] Instance execute_datapipe_thresholds pipe :
  KeepsThresholds (execute_datapipe cfg pipe).
Proof. intros s. apply outside_filters_views, execute_datapipe_outside. Qed.
#[global] Instance execute_datapipe_timers pipe : KeepsTimers (execute_datapipe cfg pipe).
Proof. intros s. apply outside_filters_views, execute_datapipe_outside. Qed.
#[global] Instance refilter_brightness_thresholds :
  KeepsThresholds (refilter_brightness cfg).
Proof. intros s. apply outside_filters_views, refilter_brightness_outside. Qed.
#[global] Instance refilter_brightness_timers : KeepsTimers (refilter_brightness cfg).
Proof. intros s. apply outside_filters_views, refilter_brightness_outside. Qed.
#[global] Instance adjust_colour_phase_thresholds :
  KeepsThresholds (adjust_colour_phase cfg).
Proof. intros s. apply outside_filters_views, adjust_colour_phase_outside. Qed.
#[global] Instance adjust_colour_phase_timers : KeepsTimers (adjust_colour_phase cfg).
Proof. intros s. apply outside_filters_views, adjust_colour_phase_outside. Qed.

#[global] Instance adjust_colour_phase_bounds : KeepsBounds (adjust_colour_phase cfg).
Proof.
  intros s. unfold adjust_colour_phase, write_string.
  destruct (display_cpa_profiles cfg) as [profiles|]; [|reflexivity].
  destruct (cpa_find profiles (als_lux s)); [|reflexivity].
  destruct (display_cpa_enabled cfg), (display_cpa_coefficients_path cfg),
    (display_cpa_enable_path cfg); rewrite ?keeps_bounds; reflexivity.
Qed.

#[global] Instance adjust_als_thresholds_bounds lower upper :
  KeepsBounds (adjust_als_thresholds cfg lower upper).
Proof.
  intros s. unfold adjust_als_thresholds.
  destruct (als_threshold_range_path cfg); [|reflexivity].
  repeat match goal with
         | |- context [if ?c then _ else _] => destruct c
         end; rewrite ?keeps_bounds; reflexivity.
Qed.

#[global] Instance adjust_als_thresholds_timers lower upper :
  KeepsTimers (adjust_als_thresholds cfg lower upper).
Proof.
  intros s. unfold adjust_als_thresholds.
  destruct (als_threshold_range_path cfg); [|reflexivity].
  repeat match goal with
         | |- context [if ?c then _ else _] => destruct c
         end; rewrite ?keeps_timers; reflexivity.
Qed.

Lemma bounds_paired_view s s' :
  bounds_of s' = bounds_of s -> bounds_paired s -> bounds_paired s'.
Proof.
  unfold bounds_of, bounds_paired. intros H. injection H as H1 H2 H3 H4 H5 H6.
  rewrite H1, H2, H3, H4, H5, H6. tauto.
Qed.

Lemma bounds_paired_keeps (f : als_state -> als_state) (Hf : KeepsBounds f) s :
  bounds_paired s -> bounds_paired (f s).
Proof. apply bounds_paired_view, keeps_bounds. Qed.

Lemma refilter_brightness_bounds_paired s :
  bounds_paired s -> bounds_paired (refilter_brightness cfg s).
Proof.
  intros H. unfold refilter_brightness.
  repeat apply execute_datapipe_bounds_paired. exact H.
Qed.

Lemma als_median_filter_map_views v s :
  thresholds_of (snd (als_median_filter_map cfg v s)) = thresholds_of s
  /\ bounds_of (snd (als_median_filter_map cfg v s)) = bounds_of s
  /\ timers_of (snd (als_median_filter_map cfg v s)) = timers_of s.
Proof.
  unfold als_median_filter_map.
  destruct (use_median_filter cfg); [|repeat split; reflexivity].
  destruct (median_filter_map (median_filter s) v) as [mf filtered]. cbn [snd].
  rewrite keeps_thresholds, keeps_bounds, keeps_timers. repeat split; reflexivity.
Qed.

Lemma als_lux_update_bounds_paired new_lux s :
  bounds_paired s -> bounds_paired (als_lux_update cfg new_lux s).
Proof.
  intros H. unfold als_lux_update.
  destruct (merged_thresholds cfg _) as [lower upper].
  assert (H1 : bounds_paired
                 (adjust_colour_phase cfg
                    (refilter_brightness cfg (set_als_lux new_lux s)))).
  { apply bounds_paired_keeps; [typeclasses eauto|].
    apply refilter_brightness_bounds_paired.
    apply bounds_paired_keeps; [typeclasses eauto | exact H]. }
  destruct (als_external_refcount _ =? 0); [|exact H1].
  apply bounds_paired_keeps; [typeclasses eauto | exact H1].
Qed.

#[global] Instance als_lux_update_timers new_lux : KeepsTimers (als_lux_update cfg new_lux).
Proof.
  intros s. unfold als_lux_update.
  destruct (merged_thresholds cfg _) as [lower upper].
  destruct (als_external_refcount _ =? 0); rewrite !keeps_timers; reflexivity.
Qed.

End Views.

(** ** Invariants of the module in the main loop *)

Section HandlerInvariants.

Context {hdr : als_header}.
Variable cfg : als_config.

(** A property of the state that survives the filters, the threshold
    adjustment and every operation that touches neither the threshold
    view nor the bounds survives every callback of the module. *)
Variable P : als_state -> Prop.
Hypothesis P_keeps :
  forall f, KeepsThresholds f -> KeepsBounds f -> forall s, P s -> P (f s).
Hypothesis P_filter : forall pipe s, P s -> P (execute_datapipe cfg pipe s).
Hypothesis P_adjust :
  forall lower upper s, P s -> P (adjust_als_thresholds cfg lower upper s).

Ltac split_tests :=
  match goal with
  | |- context [if ?c then _ else _] => destruct c
  | |- context [match ?c with Some _ => _ | None => _ end] => destruct c
  | |- context [match ?c with
                | COVER_UNDEF => _ | COVER_CLOSED => _ | COVER_OPEN => _
                end] => destruct c
  | |- context [match als_type ?c with _ => _ end] => destruct (als_type c)
  end.

Lemma als_median_filter_map_preserves v s :
  P s -> P (snd (als_median_filter_map cfg v s)).
Proof.
  intros H. unfold als_median_filter_map.
  destruct (use_median_filter cfg); [|exact H].
  destruct (median_filter_map (median_filter s) v) as [mf filtered]. cbn [snd].
  apply P_keeps; [typeclasses eauto | typeclasses eauto | exact H].
Qed.

Lemma refilter_brightness_preserves s :
  P s -> P (refilter_brightness cfg s).
Proof. intros H. unfold refilter_brightness. repeat apply P_filter. exact H. Qed.

Lemma als_lux_update_preserves new_lux s :
  P s -> P (als_lux_update cfg new_lux s).
Proof.
  intros H. unfold als_lux_update.
  destruct (merged_thresholds cfg _) as [lower upper].
  assert (H1 : P (adjust_colour_phase cfg
                    (refilter_brightness cfg (set_als_lux new_lux s)))).
  { apply P_keeps; [typeclasses eauto | typeclasses eauto |].
    apply refilter_brightness_preserves.
    apply P_keeps; [typeclasses eauto | typeclasses eauto | exact H]. }
  destruct (als_external_refcount _ =? 0); [|exact H1].
  apply P_adjust. exact H1.
Qed.

Ltac paired :=
  repeat first
    [ assumption
    | apply als_lux_update_preserves
    | apply refilter_brightness_preserves
    | apply P_filter
    | apply als_median_filter_map_preserves
    | apply P_adjust
    | apply P_keeps; [typeclasses eauto | typeclasses eauto |]
    | progress cbn beta iota zeta
    | split_tests ].

Lemma defer_step_down_preserves lux s :
  P s -> P (defer_step_down cfg lux s).
Proof. intros H. unfold defer_step_down, g_timeout_add. paired. Qed.

Lemma cancel_brightness_delay_timer_preserves s :
  P s -> P (cancel_brightness_delay_timer s).
Proof. intros H. unfold cancel_brightness_delay_timer. paired. Qed.

Lemma als_iomon_common_preserves lux no_delay s :
  P s -> P (als_iomon_common cfg lux no_delay s).
Proof.
  intros H. rewrite als_iomon_common_cases. cbn zeta.
  assert (H1 : P (snd (als_median_filter_map cfg lux s)))
    by (apply als_median_filter_map_preserves; assumption).
  repeat first
    [ assumption
    | apply als_lux_update_preserves
    | apply defer_step_down_preserves
    | apply cancel_brightness_delay_timer_preserves
    | apply P_keeps; [typeclasses eauto | typeclasses eauto |]
    | split_tests ].
Qed.

Lemma als_poll_timer_cb_preserves raw s :
  P s -> P (snd (als_poll_timer_cb cfg raw s)).
Proof.
  intros H. unfold als_poll_timer_cb, als_read_value_filtered.
  destruct (negb (als_enabled s)).
  - cbn beta iota zeta. repeat split_tests; cbn [snd]; paired.
  - destruct raw as [lux|].
    + assert (H1 : P (snd (als_median_filter_map cfg lux s)))
        by (apply als_median_filter_map_preserves; assumption).
      destruct (als_median_filter_map cfg lux s) as [new_lux s1]. cbn [snd] in H1.
      repeat split_tests; cbn [snd]; paired.
    + cbn beta iota zeta. repeat split_tests; cbn [snd]; paired.
Qed.

Lemma dispatch_timeout_preserves id raw s :
  P s -> P (dispatch_timeout cfg id raw s).
Proof.
  intros H. unfold dispatch_timeout, brightness_delay_timer_cb.
  destruct (find _ (sources s)) as [[id' cb]|]; [|exact H].
  destruct cb.
  - pose proof (als_poll_timer_cb_preserves raw s H) as H1.
    destruct (als_poll_timer_cb cfg raw s) as [keep s1]. cbn [snd] in H1.
    destruct keep; paired.
  - apply P_keeps; [typeclasses eauto | typeclasses eauto |].
    apply als_iomon_common_preserves. exact H.
Qed.

Lemma cancel_als_poll_timer_preserves s :
  P s -> P (cancel_als_poll_timer s).
Proof. intros H. unfold cancel_als_poll_timer. paired. Qed.

Lemma setup_als_poll_timer_preserves iomon s :
  P s -> P (setup_als_poll_timer cfg iomon s).
Proof.
  intros H. pose proof (cancel_als_poll_timer_preserves s H) as H1.
  unfold setup_als_poll_timer, g_timeout_add.
  repeat first [ assumption
               | apply P_keeps; [typeclasses eauto | typeclasses eauto |]
               | progress cbn beta iota zeta
               | split_tests ].
Qed.

Lemma als_median_filter_init_preserves s :
  P s -> P (snd (als_median_filter_init cfg s)).
Proof.
  intros H. unfold als_median_filter_init.
  destruct (negb (use_median_filter cfg)); [exact H|].
  destruct (median_filter_init _ _) as [mf ok].
  destruct ok; cbn [snd]; paired.
Qed.

Lemma display_state_trigger_preserves raw iomon data s :
  P s -> P (display_state_trigger cfg raw iomon data s).
Proof.
  intros H. unfold display_state_trigger, display_state_reprogram.
  set (s0 := set_als_poll_interval _ (set_display_state data s)).
  assert (H0 : P s0) by (unfold s0; paired).
  assert (Hc : P (cancel_als_poll_timer s0))
    by (apply cancel_als_poll_timer_preserves; exact H0).
  assert (Hinit : P (snd (als_median_filter_init cfg
                                         (cancel_als_poll_timer s0))))
    by (apply als_median_filter_init_preserves; exact Hc).
  destruct (negb (als_enabled (set_display_state data s))); [paired|].
  fold s0.
  destruct (display_is_off (old_display_state s0) && display_is_on (display_state s0)).
  - destruct (if ALS_DISPLAY_OFF_FLUSH_FILTER
              then als_median_filter_init cfg (cancel_als_poll_timer s0)
              else (true, cancel_als_poll_timer s0)) as [ok s1] eqn:Hflush.
    assert (H1 : P s1).
    { destruct ALS_DISPLAY_OFF_FLUSH_FILTER.
      - rewrite Hflush in Hinit. exact Hinit.
      - inversion Hflush; subst. exact Hc. }
    destruct (negb ok); [paired|].
    unfold als_read_value_filtered.
    destruct (negb (als_enabled s1)).
    + repeat first [ assumption
                   | apply setup_als_poll_timer_preserves
                   | apply refilter_brightness_preserves
                   | apply P_adjust
                   | apply P_keeps; [typeclasses eauto | typeclasses eauto |]
                   | progress cbn beta iota zeta
                   | split_tests ].
    + destruct raw as [lux|].
      * assert (H2 : P (snd (als_median_filter_map cfg lux s1)))
          by (apply als_median_filter_map_preserves; assumption).
        destruct (als_median_filter_map cfg lux s1) as [new_lux s2]. cbn [snd] in H2.
        repeat first [ assumption
                     | apply setup_als_poll_timer_preserves
                     | apply refilter_brightness_preserves
                     | apply P_adjust
                     | apply P_keeps; [typeclasses eauto | typeclasses eauto |]
                     | progress cbn beta iota zeta
                     | split_tests ].
      * repeat first [ assumption
                     | apply setup_als_poll_timer_preserves
                     | apply refilter_brightness_preserves
                     | apply P_adjust
                     | apply P_keeps; [typeclasses eauto | typeclasses eauto |]
                     | progress cbn beta iota zeta
                     | split_tests ].
  - repeat first [ assumption
                 | apply setup_als_poll_timer_preserves
                 | apply P_adjust
                 | apply P_keeps; [typeclasses eauto | typeclasses eauto |]
                 | progress cbn beta iota zeta
                 | split_tests ].
Qed.

Lemma ownership_handlers_preserves msg owner s :
  P s ->
  P (snd (als_enable_req_dbus_cb cfg msg s))
  /\ P (snd (als_disable_req_dbus_cb cfg msg s))
  /\ P (snd (als_owner_monitor_dbus_cb cfg owner s)).
Proof.
  intros H.
  unfold als_enable_req_dbus_cb, als_disable_req_dbus_cb, als_owner_monitor_dbus_cb.
  split; [|split].
  - destruct (sender msg); cbn [snd]; [|paired].
    match goal with
    | |- context [mce_dbus_owner_monitor_add ?a ?b ?c] =>
        destruct (mce_dbus_owner_monitor_add a b c) as [retval l]
    end. cbn [snd]. paired.
  - destruct (sender msg); cbn [snd]; [|paired].
    match goal with
    | |- context [mce_dbus_owner_monitor_remove ?a ?b] =>
        destruct (mce_dbus_owner_monitor_remove a b) as [retval l]
    end. cbn [snd]. paired.
  - destruct owner as [[[service old_name] new_name]|]; cbn [snd]; [|paired].
    match goal with
    | |- context [mce_dbus_owner_monitor_remove ?a ?b] =>
        destruct (mce_dbus_owner_monitor_remove a b) as [retval l]
    end.
    destruct (retval =? -1); cbn [snd]; paired.
Qed.

Lemma handle_event_preserves e s :
  P s -> P (handle_event cfg e s).
Proof.
  intros H. destruct e; cbn [handle_event].
  - apply dispatch_timeout_preserves. exact H.
  - unfold als_dipro_iomon_cb. destruct data.
    + apply als_iomon_common_preserves. exact H.
    + apply cancel_als_poll_timer_preserves. paired.
  - unfold als_avago_iomon_cb. destruct data as [[[lux updated] saturated]|].
    + destruct (negb updated); [exact H|].
      destruct saturated; apply als_iomon_common_preserves; exact H.
    + apply cancel_als_poll_timer_preserves. paired.
  - apply display_state_trigger_preserves. exact H.
  - apply (ownership_handlers_preserves msg None s H).
  - apply (ownership_handlers_preserves msg None s H).
  - apply (ownership_handlers_preserves
             {| sender := None; no_reply := true; sent := true |} msg s H).
  - apply P_filter. exact H.
  - paired.
Qed.

Lemma run_events_preserves events s :
  P s -> P (run_events cfg events s).
Proof.
  unfold run_events. revert s.
  induction events as [|e events IH]; intros s H; cbn [fold_left]; [exact H|].
  apply IH. apply handle_event_preserves. exact H.
Qed.

End HandlerInvariants.

Section ReachableStates.

Context {hdr : als_header}.
Variable cfg : als_config.

(** X5: In every state the module reaches, a consumer whose lower bound
    is -1 has not been evaluated yet (its upper bound is -1 too at
    most), so the band the lux-update paths hand to
    [adjust_als_thresholds] never has the lower bound -1 with an upper
    bound above -1. *)
Theorem reachable_bounds_paired events s :
  bounds_paired s ->
  bounds_paired (run_events cfg events s)
  /\ caller_band (merged_thresholds cfg (run_events cfg events s)).
Proof.
  intros H.
  assert (Hrun : bounds_paired (run_events cfg events s)).
  { apply (run_events_preserves cfg bounds_paired); try assumption.
    - intros f _ Hf s0. apply bounds_paired_keeps. exact Hf.
    - apply execute_datapipe_bounds_paired.
    - intros lower upper s0. apply bounds_paired_keeps. typeclasses eauto. }
  split; [exact Hrun|]. apply merged_thresholds_caller_band. exact Hrun.
Qed.

(** X6: Without a threshold channel no callback ever writes a threshold
    or touches the cached band: reconciliation is advisory only. *)
Theorem no_threshold_channel_no_write events s :
  als_threshold_range_path cfg = None ->
  threshold_writes (trace (run_events cfg events s)) = threshold_writes (trace s)
  /\ cached_band (run_events cfg events s) = cached_band s.
Proof.
  intros Hnone.
  assert (H : thresholds_of (run_events cfg events s) = thresholds_of s).
  { apply (run_events_preserves cfg (fun s' => thresholds_of s' = thresholds_of s)).
    - intros f Hf _ s0 H0. rewrite keeps_thresholds. exact H0.
    - intros pipe s0 H0. rewrite keeps_thresholds. exact H0.
    - intros lower upper s0 H0. unfold adjust_als_thresholds. rewrite Hnone. exact H0.
    - reflexivity. }
  split; [exact (f_equal fst H) | exact (f_equal snd H)].
Qed.

End ReachableStates.

Lemma reachable_bounds_paired_witness :
  let s := run_events (hdr := sample_header) three_consumer_config
             [DisplayStateChanged (Some 35) (Some 1%nat) MCE_DISPLAY_ON;
              DatapipeExecuted display_brightness_pipe_id;
              DiproData (Some 15)]
             sample_state in
  bounds_paired s /\ caller_band (merged_thresholds three_consumer_config s).
Proof.
  cbv zeta.
  apply (reachable_bounds_paired (hdr := sample_header) three_consumer_config).
  unfold bounds_paired. simpl. lia.
Defined.

Lemma no_threshold_channel_no_write_witness :
  let s := run_events (hdr := sample_header) tsl2563_config
             [DisplayStateChanged (Some 35) None MCE_DISPLAY_ON;
              TimeoutDispatched 1%nat (Some 120);
              EnableRequest {| sender := Some ":1.7"; no_reply := true; sent := true |};
              DisplayStateChanged None None MCE_DISPLAY_OFF]
             sample_state in
  threshold_writes (trace s) = [] /\ cached_band s = (-1, -1).
Proof.
  cbv zeta.
  apply (no_threshold_channel_no_write (hdr := sample_header) tsl2563_config).
  reflexivity.
Defined.

(** ** The step-down timer in the main loop *)

Section DelayTimer.

Context {hdr : als_header}.
Variable cfg : als_config.

Ltac split_tests :=
  match goal with
  | |- context [if ?c then _ else _] => destruct c
  | |- context [match ?c with Some _ => _ | None => _ end] => destruct c
  | |- context [match ?c with
                | COVER_UNDEF => _ | COVER_CLOSED => _ | COVER_OPEN => _
                end] => destruct c
  | |- context [match als_type ?c with _ => _ end] => destruct (als_type c)
  end.

Lemma delay_timer_tracked_view s s' :
  timers_of s' = timers_of s -> delay_timer_tracked s -> delay_timer_tracked s'.
Proof.
  unfold timers_of, delay_timer_tracked, armed_delay_timers.
  intros H. injection H as Hsrc Hid. rewrite Hsrc, Hid. tauto.
Qed.

Lemma delay_timer_tracked_keeps (f : als_state -> als_state) (Hf : KeepsTimers f) s :
  delay_timer_tracked s -> delay_timer_tracked (f s).
Proof. apply delay_timer_tracked_view, keeps_timers. Qed.

Lemma filter_length_le {A : Type} (f : A -> bool) (l : list A) :
  (List.length (filter f l) <= List.length l)%nat.
Proof.
  induction l as [|x l IH]; cbn; [lia|]. destruct (f x); cbn; lia.
Qed.

Lemma Forall_filter {A : Type} (Q : A -> Prop) (f : A -> bool) (l : list A) :
  Forall Q l -> Forall Q (filter f l).
Proof.
  intros H. apply Forall_forall. intros x Hx. apply filter_In in Hx.
  rewrite Forall_forall in H. apply H. tauto.
Qed.

Lemma filter_swap {A : Type} (f g : A -> bool) (l : list A) :
  filter f (filter g l) = filter g (filter f l).
Proof.
  induction l as [|x l IH]; cbn; [reflexivity|].
  destruct (f x) eqn:Hf, (g x) eqn:Hg; cbn; rewrite ?Hf, ?Hg, IH; reflexivity.
Qed.

(** Removing sources keeps the invariant as long as the recorded id
    stays. *)
Lemma delay_timer_tracked_removed keep s s' :
  sources s' = filter keep (sources s) ->
  brightness_delay_timer_cb_id s' = brightness_delay_timer_cb_id s ->
  delay_timer_tracked s -> delay_timer_tracked s'.
Proof.
  unfold delay_timer_tracked, armed_delay_timers.
  intros Hsrc Hid (Hnz & Hall & Hlen). rewrite Hsrc, Hid.
  rewrite (filter_swap is_delay_source keep).
  split; [apply Forall_filter; exact Hnz|].
  split; [apply Forall_filter; exact Hall|].
  pose proof (filter_length_le keep (filter is_delay_source (sources s))). lia.
Qed.

(** Removing the source the recorded id names leaves no delay timer,
    whatever is recorded afterwards. *)
Lemma delay_timer_tracked_cleared s s' :
  sources s'
  = filter (fun src => negb (fst src =? brightness_delay_timer_cb_id s)%nat) (sources s) ->
  delay_timer_tracked s ->
  delay_timer_tracked s' /\ armed_delay_timers s' = [].
Proof.
  unfold delay_timer_tracked, armed_delay_timers.
  intros Hsrc (Hnz & Hall & Hlen). rewrite Hsrc.
  assert (Hnil : filter is_delay_source
                   (filter (fun src => negb (fst src =? brightness_delay_timer_cb_id s)%nat)
                           (sources s)) = []).
  { rewrite filter_swap.
    induction (filter is_delay_source (sources s)) as [|x l IH]; [reflexivity|].
    inversion Hall as [|? ? Hx Hl]; subst. cbn.
    rewrite Hx, Nat.eqb_refl. cbn. apply IH; [exact Hl | cbn in Hlen; lia]. }
  rewrite Hnil. repeat split; try constructor.
  - apply Forall_filter. exact Hnz.
  - cbn. lia.
Qed.

Lemma delay_timer_tracked_idle s :
  delay_timer_tracked s ->
  brightness_delay_timer_cb_id s = 0%nat ->
  armed_delay_timers s = [].
Proof.
  unfold delay_timer_tracked. intros (Hnz & Hall & _) Hid.
  destruct (armed_delay_timers s) as [|src l] eqn:Harmed; [reflexivity|].
  exfalso. inversion Hall as [|? ? Hsrc _]; subst.
  assert (Hin : In src (sources s)).
  { unfold armed_delay_timers in Harmed.
    assert (Hin : In src (filter is_delay_source (sources s)))
      by (rewrite Harmed; left; reflexivity).
    apply filter_In in Hin. tauto. }
  rewrite Forall_forall in Hnz. apply (Hnz src Hin). congruence.
Qed.

Lemma g_source_remove_tracked id s :
  delay_timer_tracked s -> delay_timer_tracked (g_source_remove id s).
Proof.
  apply (delay_timer_tracked_removed (fun src => negb (fst src =? id)%nat));
    destruct s; reflexivity.
Qed.

Lemma cancel_brightness_delay_timer_tracked s :
  delay_timer_tracked s ->
  delay_timer_tracked (cancel_brightness_delay_timer s)
  /\ armed_delay_timers (cancel_brightness_delay_timer s) = []
  /\ brightness_delay_timer_cb_id (cancel_brightness_delay_timer s) = 0%nat.
Proof.
  intros H. unfold cancel_brightness_delay_timer.
  destruct (brightness_delay_timer_cb_id s =? 0)%nat eqn:Hid.
  - apply Nat.eqb_eq in Hid.
    split; [exact H | split; [apply delay_timer_tracked_idle; assumption | exact Hid]].
  - assert (Hc := delay_timer_tracked_cleared s
                    (set_brightness_delay_timer_cb_id 0%nat
                       (g_source_remove (brightness_delay_timer_cb_id s) s))
                    ltac:(destruct s; reflexivity) H).
    destruct Hc as [Hc1 Hc2].
    split; [exact Hc1 | split; [exact Hc2 | destruct s; reflexivity]].
Qed.

Lemma defer_step_down_tracked lux s :
  delay_timer_tracked s -> delay_timer_tracked (defer_step_down cfg lux s).
Proof.
  intros H. unfold defer_step_down, g_timeout_add.
  destruct (brightness_delay_timer_cb_id s =? 0)%nat eqn:Hid.
  - apply Nat.eqb_eq in Hid.
    pose proof (delay_timer_tracked_idle s H Hid) as Hidle.
    destruct H as (Hnz & _ & _).
    unfold delay_timer_tracked, armed_delay_timers in *.
    destruct s; cbn in *. rewrite filter_app, Hidle. cbn.
    repeat split.
    + apply Forall_app. split; [exact Hnz|]. constructor; [cbn; lia | constructor].
    + constructor; [reflexivity | constructor].
    + lia.
  - apply delay_timer_tracked_keeps; [typeclasses eauto | exact H].
Qed.

Lemma add_poll_timer_tracked interval s :
  delay_timer_tracked s ->
  delay_timer_tracked
    (let '(id, s1) := g_timeout_add (ALS_POLL_TIMER_CB interval) s in
     set_als_poll_timer_cb_id id s1).
Proof.
  unfold g_timeout_add, delay_timer_tracked, armed_delay_timers.
  intros (Hnz & Hall & Hlen). destruct s; cbn in *.
  rewrite filter_app. cbn. rewrite app_nil_r. repeat split; try assumption.
  apply Forall_app. split; [exact Hnz|]. constructor; [cbn; lia | constructor].
Qed.

Lemma cancel_als_poll_timer_tracked s :
  delay_timer_tracked s -> delay_timer_tracked (cancel_als_poll_timer s).
Proof.
  intros H. unfold cancel_als_poll_timer.
  repeat first
    [ assumption
    | apply g_source_remove_tracked
    | apply delay_timer_tracked_keeps; [typeclasses eauto|]
    | progress cbn beta iota zeta
    | split_tests ].
Qed.

Lemma setup_als_poll_timer_tracked iomon s :
  delay_timer_tracked s -> delay_timer_tracked (setup_als_poll_timer cfg iomon s).
Proof.
  intros H. pose proof (cancel_als_poll_timer_tracked s H) as Hc.
  pose proof (add_poll_timer_tracked (als_poll_interval (cancel_als_poll_timer s))
                (cancel_als_poll_timer s) Hc) as Ha.
  unfold setup_als_poll_timer.
  repeat first
    [ assumption
    | apply delay_timer_tracked_keeps; [typeclasses eauto|]
    | split_tests ].
Qed.

Lemma als_median_filter_map_tracked v s :
  delay_timer_tracked s -> delay_timer_tracked (snd (als_median_filter_map cfg v s)).
Proof.
  apply delay_timer_tracked_view. apply als_median_filter_map_views.
Qed.

Lemma als_median_filter_init_tracked s :
  delay_timer_tracked s -> delay_timer_tracked (snd (als_median_filter_init cfg s)).
Proof.
  intros H. unfold als_median_filter_init.
  destruct (negb (use_median_filter cfg)); [exact H|].
  destruct (median_filter_init _ _) as [mf ok].
  destruct ok; cbn [snd];
    repeat (apply delay_timer_tracked_keeps; [typeclasses eauto|]); exact H.
Qed.

(** A sample handed over by an I/O monitor. *)
Lemma als_iomon_common_tracked lux s :
  delay_timer_tracked s -> delay_timer_tracked (als_iomon_common cfg lux false s).
Proof.
  intros H. rewrite als_iomon_common_cases. cbn zeta.
  pose proof (als_median_filter_map_tracked lux s H) as H1.
  pose proof (cancel_brightness_delay_timer_tracked _ H1) as (Hc & _ & _).
  pose proof (defer_step_down_tracked lux _ H1) as Hd.
  repeat first
    [ assumption
    | apply delay_timer_tracked_keeps; [typeclasses eauto|]
    | split_tests ].
Qed.

Lemma als_poll_timer_cb_timers raw s :
  timers_of (snd (als_poll_timer_cb cfg raw s)) = timers_of s.
Proof.
  unfold als_poll_timer_cb, als_read_value_filtered.
  destruct (negb (als_enabled s)).
  - cbn beta iota zeta. repeat split_tests; cbn [snd]; rewrite ?keeps_timers; reflexivity.
  - destruct raw as [lux|].
    + pose proof (als_median_filter_map_views cfg lux s) as (_ & _ & Hv).
      destruct (als_median_filter_map cfg lux s) as [new_lux s1]. cbn [snd] in Hv.
      repeat split_tests; cbn [snd]; rewrite ?keeps_timers; exact Hv.
    + cbn beta iota zeta.
      repeat split_tests; cbn [snd]; rewrite ?keeps_timers; reflexivity.
Qed.

Lemma find_source_some id (srcs : list (nat * source_cb)) src :
  find (fun src => (fst src =? id)%nat) srcs = Some src ->
  In src srcs /\ fst src = id.
Proof.
  intros H. apply find_some in H. destruct H as [Hin Heq].
  apply Nat.eqb_eq in Heq. split; assumption.
Qed.

(** The main loop dispatching one of the sources. *)
Lemma dispatch_timeout_tracked id raw s :
  delay_timer_tracked s -> delay_timer_tracked (dispatch_timeout cfg id raw s).
Proof.
  intros H. unfold dispatch_timeout.
  destruct (find _ (sources s)) as [[id' cb]|] eqn:Hfind; [|exact H].
  apply find_source_some in Hfind. destruct Hfind as [Hin Hid]. cbn in Hid. subst id'.
  destruct cb as [interval|seconds].
  - pose proof (als_poll_timer_cb_timers raw s) as Hv.
    destruct (als_poll_timer_cb cfg raw s) as [keep s1]. cbn [snd] in Hv.
    pose proof (delay_timer_tracked_view _ _ Hv H) as H1.
    destruct keep; [exact H1 | apply g_source_remove_tracked; exact H1].
  - (* the source is the recorded delay timer *)
    assert (Hrec : brightness_delay_timer_cb_id s = id).
    { destruct H as (_ & Hall & _). rewrite Forall_forall in Hall.
      symmetry. apply (Hall (id, BRIGHTNESS_DELAY_TIMER_CB seconds)).
      apply filter_In. split; [exact Hin | reflexivity]. }
    unfold brightness_delay_timer_cb. cbn beta iota zeta.
    rewrite als_iomon_common_cases. cbn zeta.
    pose proof (als_median_filter_map_views cfg (delayed_lux s) s) as (_ & _ & Hv).
    set (s1 := snd (als_median_filter_map cfg (delayed_lux s) s)) in *.
    pose proof (delay_timer_tracked_view _ _ Hv H) as H1.
    assert (Hview : sources s1 = sources s
                    /\ brightness_delay_timer_cb_id s1 = brightness_delay_timer_cb_id s).
    { unfold timers_of in Hv. injection Hv as Hv1 Hv2. split; assumption. }
    destruct Hview as [Hsrc1 Hid1].
    assert (Hdrop : forall s2,
               sources s2 = sources s1 ->
               delay_timer_tracked (g_source_remove id s2)).
    { intros s2 Hs2.
      apply (delay_timer_tracked_cleared s1); [|exact H1].
      rewrite Hid1, Hrec, <- Hs2. destruct s2; reflexivity. }
    assert (Hupd : forall n s2, sources (als_lux_update cfg n s2) = sources s2).
    { intros n s2. pose proof (keeps_timers (f := als_lux_update cfg n) s2) as Hk.
      unfold timers_of in Hk. injection Hk as Hk1 _. exact Hk1. }
    destruct (lux_unusable _ s1); [apply g_source_remove_tracked; exact H1|].
    destruct (proximity_sensor_pipe s);
      try (apply g_source_remove_tracked; exact H1);
      (destruct (als_lux s1 >? _);
       [apply Hdrop; rewrite Hupd; destruct s1; reflexivity
       |apply g_source_remove_tracked;
        apply delay_timer_tracked_keeps; [typeclasses eauto|];
        apply cancel_brightness_delay_timer_tracked; exact H1]).
Qed.

Lemma display_state_trigger_tracked raw iomon data s :
  delay_timer_tracked s ->
  delay_timer_tracked (display_state_trigger cfg raw iomon data s).
Proof.
  intros H. unfold display_state_trigger, display_state_reprogram.
  set (s0 := set_als_poll_interval _ (set_display_state data s)).
  assert (H0 : delay_timer_tracked s0)
    by (unfold s0; repeat (apply delay_timer_tracked_keeps; [typeclasses eauto|]);
        exact H).
  assert (Hc : delay_timer_tracked (cancel_als_poll_timer s0))
    by (apply cancel_als_poll_timer_tracked; exact H0).
  assert (Hinit : delay_timer_tracked
                    (snd (als_median_filter_init cfg (cancel_als_poll_timer s0))))
    by (apply als_median_filter_init_tracked; exact Hc).
  assert (Hgo : forall s2, delay_timer_tracked s2 ->
                           delay_timer_tracked
                             (set_old_display_state
                                (display_state
                                   (if negb (als_poll_interval s2 =? als_poll_interval s)
                                       || (als_poll_timer_cb_id s2 =? 0)%nat
                                          && negb (not_null (als_iomon_id s2))
                                    then setup_als_poll_timer cfg iomon s2 else s2))
                                (if negb (als_poll_interval s2 =? als_poll_interval s)
                                    || (als_poll_timer_cb_id s2 =? 0)%nat
                                       && negb (not_null (als_iomon_id s2))
                                 then setup_als_poll_timer cfg iomon s2 else s2))).
  { intros s2 H2. apply delay_timer_tracked_keeps; [typeclasses eauto|].
    destruct (_ || _); [apply setup_als_poll_timer_tracked|]; exact H2. }
  destruct (negb (als_enabled (set_display_state data s))).
  { repeat (apply delay_timer_tracked_keeps; [typeclasses eauto|]). exact H. }
  fold s0.
  destruct (display_is_off (old_display_state s0) && display_is_on (display_state s0)).
  - destruct (if ALS_DISPLAY_OFF_FLUSH_FILTER
              then als_median_filter_init cfg (cancel_als_poll_timer s0)
              else (true, cancel_als_poll_timer s0)) as [ok s1] eqn:Hflush.
    assert (H1 : delay_timer_tracked s1).
    { destruct ALS_DISPLAY_OFF_FLUSH_FILTER.
      - rewrite Hflush in Hinit. exact Hinit.
      - inversion Hflush; subst. exact Hc. }
    destruct (negb ok).
    { apply delay_timer_tracked_keeps; [typeclasses eauto | exact H1]. }
    assert (Hread : delay_timer_tracked (snd (als_read_value_filtered cfg raw s1))).
    { unfold als_read_value_filtered.
      destruct (negb (als_enabled s1)); [exact H1|].
      destruct raw; [apply als_median_filter_map_tracked|]; exact H1. }
    destruct (als_read_value_filtered cfg raw s1) as [new_lux s2]. cbn [snd] in Hread.
    apply Hgo. apply delay_timer_tracked_keeps; [typeclasses eauto|].
    destruct (_ && _); [apply delay_timer_tracked_keeps; [typeclasses eauto|]|];
      exact Hread.
  - destruct (display_is_on (old_display_state s0) && display_is_off (display_state s0)).
    + apply Hgo. apply delay_timer_tracked_keeps; [typeclasses eauto | exact H0].
    + apply Hgo. exact H0.
Qed.

Lemma ownership_handlers_timers msg owner s :
  timers_of (snd (als_enable_req_dbus_cb cfg msg s)) = timers_of s
  /\ timers_of (snd (als_disable_req_dbus_cb cfg msg s)) = timers_of s
  /\ timers_of (snd (als_owner_monitor_dbus_cb cfg owner s)) = timers_of s.
Proof.
  unfold als_enable_req_dbus_cb, als_disable_req_dbus_cb, als_owner_monitor_dbus_cb.
  split; [|split].
  - destruct (sender msg); cbn [snd]; [|rewrite keeps_timers; reflexivity].
    match goal with
    | |- context [mce_dbus_owner_monitor_add ?a ?b ?c] =>
        destruct (mce_dbus_owner_monitor_add a b c) as [retval l]
    end. cbn [snd].
    repeat split_tests; rewrite !keeps_timers; reflexivity.
  - destruct (sender msg); cbn [snd]; [|rewrite keeps_timers; reflexivity].
    match goal with
    | |- context [mce_dbus_owner_monitor_remove ?a ?b] =>
        destruct (mce_dbus_owner_monitor_remove a b) as [retval l]
    end. cbn [snd].
    repeat split_tests; rewrite !keeps_timers; reflexivity.
  - destruct owner as [[[service old_name] new_name]|]; cbn [snd];
      [|rewrite keeps_timers; reflexivity].
    match goal with
    | |- context [mce_dbus_owner_monitor_remove ?a ?b] =>
        destruct (mce_dbus_owner_monitor_remove a b) as [retval l]
    end.
    destruct (retval =? -1); cbn [snd];
      repeat split_tests; rewrite !keeps_timers; reflexivity.
Qed.

Lemma handle_event_tracked e s :
  delay_timer_tracked s -> delay_timer_tracked (handle_event cfg e s).
Proof.
  intros H. destruct e; cbn [handle_event].
  - apply dispatch_timeout_tracked. exact H.
  - unfold als_dipro_iomon_cb. destruct data.
    + apply als_iomon_common_tracked. exact H.
    + apply cancel_als_poll_timer_tracked.
      apply delay_timer_tracked_keeps; [typeclasses eauto | exact H].
  - unfold als_avago_iomon_cb. destruct data as [[[lux updated] saturated]|].
    + destruct (negb updated); [exact H|].
      destruct saturated; apply als_iomon_common_tracked; exact H.
    + apply cancel_als_poll_timer_tracked.
      apply delay_timer_tracked_keeps; [typeclasses eauto | exact H].
  - apply display_state_trigger_tracked. exact H.
  - eapply delay_timer_tracked_view; [|exact H].
    apply (ownership_handlers_timers msg None s).
  - eapply delay_timer_tracked_view; [|exact H].
    apply (ownership_handlers_timers msg None s).
  - eapply delay_timer_tracked_view; [|exact H].
    apply (ownership_handlers_timers
             {| sender := None; no_reply := true; sent := true |} msg s).
  - apply delay_timer_tracked_keeps; [typeclasses eauto | exact H].
  - apply delay_timer_tracked_keeps; [typeclasses eauto | exact H].
Qed.

(** X7: Whatever reaches the module and in whatever order, at most one
    step-down timer is armed at any time, and it is the one
    [brightness_delay_timer_cb_id] names. *)
Theorem one_delay_timer events s :
  delay_timer_tracked s ->
  delay_timer_tracked (run_events cfg events s)
  /\ (List.length (armed_delay_timers (run_events cfg events s)) <= 1)%nat.
Proof.
  intros H.
  assert (Hrun : delay_timer_tracked (run_events cfg events s)).
  { unfold run_events. revert s H.
    induction events as [|e events IH]; intros s H; cbn [fold_left]; [exact H|].
    apply IH. apply handle_event_tracked. exact H. }
  split; [exact Hrun|]. apply Hrun.
Qed.

End DelayTimer.

Lemma one_delay_timer_witness :
  let s := run_events (hdr := sample_header) dipro_config
             [DiproData (Some 200); DiproData (Some 50);
              DatapipesChanged 3 100 100 COVER_CLOSED;
              TimeoutDispatched 1%nat None; DiproData (Some 20)]
             sample_on_state in
  delay_timer_tracked s /\ (List.length (armed_delay_timers s) <= 1)%nat.
Proof.
  cbv zeta.
  apply (one_delay_timer (hdr := sample_header) dipro_config).
  unfold delay_timer_tracked. simpl. split; [constructor | split; [constructor | lia]].
Defined.

(** ** What reaches the threshold channel *)

Section OrderedBands.

Context {hdr : als_header}.
Variable cfg : als_config.

Lemma bands_ordered_view s s' :
  thresholds_of s' = thresholds_of s -> bands_ordered s -> bands_ordered s'.
Proof.
  unfold thresholds_of, bands_ordered. intros H.
  rewrite (f_equal fst H : threshold_writes (trace s') = threshold_writes (trace s)).
  rewrite (f_equal snd H : cached_band s' = cached_band s). tauto.
Qed.

Lemma bands_ordered_write path lower upper s :
  bands_ordered s -> lower <= upper ->
  bands_ordered (emit (EvWriteThreshold path lower upper) s).
Proof.
  unfold bands_ordered, band_ordered, cached_band. intros [Hw Hc] Hle.
  replace (trace (emit (EvWriteThreshold path lower upper) s))
    with (trace s ++ [EvWriteThreshold path lower upper]) by (destruct s; reflexivity).
  replace (cached_lower (emit (EvWriteThreshold path lower upper) s))
    with (cached_lower s) by (destruct s; reflexivity).
  replace (cached_upper (emit (EvWriteThreshold path lower upper) s))
    with (cached_upper s) by (destruct s; reflexivity).
  rewrite threshold_writes_app. split; [|exact Hc].
  apply Forall_app. split; [exact Hw|]. constructor; [exact Hle | constructor].
Qed.

Lemma bands_ordered_cached lower upper s :
  bands_ordered s -> lower <= upper -> bands_ordered (set_cached lower upper s).
Proof.
  unfold bands_ordered, band_ordered, cached_band. intros [Hw Hc] Hle.
  destruct s; cbn [trace cached_lower cached_upper set_cached fst snd] in *.
  split; assumption.
Qed.

Lemma adjust_als_thresholds_ordered lower upper s :
  bands_ordered s -> bands_ordered (adjust_als_thresholds cfg lower upper s).
Proof.
  intros H. unfold adjust_als_thresholds.
  destruct (als_threshold_range_path cfg) as [path|]; [|exact H].
  destruct (lower >? upper) eqn:T1; cbn [orb].
  { apply bands_ordered_write; [exact H | lia]. }
  assert (Hle : lower <= upper).
  { rewrite Z.gtb_ltb in T1. apply Z.ltb_ge in T1. exact T1. }
  destruct ((lower =? upper) && (lower =? 0)).
  { apply bands_ordered_write; [exact H | lia]. }
  destruct ((lower =? upper) && (lower =? -1)).
  { destruct (cached_lower s =? -1); apply bands_ordered_write;
      try exact H; try lia. apply H. }
  destruct ((lower =? 0) && (upper =? 65535)).
  { apply bands_ordered_write; [exact H | exact Hle]. }
  apply bands_ordered_write; [|exact Hle].
  apply bands_ordered_cached; [exact H | exact Hle].
Qed.

(** X8: Whatever reaches the module and in whatever order, no band with
    its lower bound above its upper bound reaches the threshold
    channel or the cache. *)
Theorem threshold_bands_ordered events s :
  bands_ordered s ->
  bands_ordered (run_events cfg events s).
Proof.
  apply (run_events_preserves cfg bands_ordered).
  - intros f Hf _ s0. apply bands_ordered_view, keeps_thresholds.
  - intros pipe s0. apply bands_ordered_view, keeps_thresholds.
  - apply adjust_als_thresholds_ordered.
Qed.

End OrderedBands.

Section StaleDelayTimer.

Context {hdr : als_header}.
Variable cfg : als_config.

(** X9: The delay timer expires while the proximity sensor is covered: the
    callback leaves without clearing [brightness_delay_timer_cb_id],
    and the main loop drops the source.  A later step-down sample, the
    cover being away again, finds the id set and arms nothing: the
    sample is recorded in [delayed_lux] only, nothing is written, and
    no source is left that would apply it. *)
Theorem delay_timer_expiry_under_cover id seconds raw lux d l k prox s :
  delay_timer_tracked s ->
  find (fun src => (fst src =? id)%nat) (sources s)
  = Some (id, BRIGHTNESS_DELAY_TIMER_CB seconds) ->
  proximity_sensor_pipe s = COVER_CLOSED ->
  use_median_filter cfg = false ->
  prox <> COVER_CLOSED ->
  0 <= lux -> lux < als_lux s ->
  let s1 := dispatch_timeout cfg id raw s in
  let s2 := als_iomon_common cfg lux false (set_datapipes d l k prox s1) in
  (brightness_delay_timer_cb_id s1 = id /\ id <> 0%nat /\ armed_delay_timers s1 = [])
  /\ (armed_delay_timers s2 = [] /\ als_lux s2 = als_lux s /\ delayed_lux s2 = lux
      /\ trace s2 = trace s).
Proof.
  intros Htr Hfind Hprox Hmf Hopen H0 Hlt. cbn zeta.
  assert (Hs1 : dispatch_timeout cfg id raw s = g_source_remove id s).
  { unfold dispatch_timeout. rewrite Hfind. unfold brightness_delay_timer_cb.
    rewrite als_iomon_common_cases. cbn zeta.
    unfold als_median_filter_map. rewrite Hmf. cbn [fst snd]. rewrite Hprox.
    destruct (lux_unusable (delayed_lux s) s); reflexivity. }
  rewrite Hs1.
  pose proof (find_source_some _ _ _ Hfind) as [Hin _].
  assert (Hrec : brightness_delay_timer_cb_id s = id).
  { destruct Htr as (_ & Hall & _). rewrite Forall_forall in Hall.
    symmetry. apply (Hall (id, BRIGHTNESS_DELAY_TIMER_CB seconds)).
    apply filter_In. split; [exact Hin | reflexivity]. }
  assert (Hnz : id <> 0%nat).
  { destruct Htr as (Hnz & _ & _). rewrite Forall_forall in Hnz.
    apply (Hnz _ Hin). }
  assert (Harmed : armed_delay_timers (g_source_remove id s) = []).
  { apply (delay_timer_tracked_cleared s); [|exact Htr].
    rewrite Hrec. destruct s; reflexivity. }
  set (s2 := set_datapipes d l k prox (g_source_remove id s)).
  assert (F2 : brightness_delay_timer_cb_id s2 = brightness_delay_timer_cb_id s
               /\ sources s2 = sources (g_source_remove id s)
               /\ als_lux s2 = als_lux s /\ trace s2 = trace s
               /\ proximity_sensor_pipe s2 = prox)
    by (unfold s2; destruct s; repeat split; reflexivity).
  destruct F2 as (F2id & F2src & F2lux & F2tr & F2prox).
  assert (Hstep : als_iomon_common cfg lux false s2 = set_delayed_lux lux s2).
  { rewrite als_iomon_common_step_down;
      [|exact Hmf | rewrite F2prox; exact Hopen | exact H0 | rewrite F2lux; exact Hlt].
    unfold defer_step_down. rewrite F2id, Hrec.
    replace (id =? 0)%nat with false by (symmetry; apply Nat.eqb_neq; exact Hnz).
    reflexivity. }
  rewrite Hstep.
  split.
  - split; [destruct s; exact Hrec | split; [exact Hnz | exact Harmed]].
  - split; [|split; [|split]].
    + unfold armed_delay_timers in *.
      replace (sources (set_delayed_lux lux s2)) with (sources s2)
        by (destruct s2; reflexivity).
      rewrite F2src. exact Harmed.
    + rewrite <- F2lux. destruct s2; reflexivity.
    + destruct s2; reflexivity.
    + rewrite <- F2tr. destruct s2; reflexivity.
Qed.

End StaleDelayTimer.

Lemma threshold_bands_ordered_witness :
  bands_ordered
    (run_events (hdr := sample_header) three_consumer_config
       [DisplayStateChanged (Some 35) (Some 1%nat) MCE_DISPLAY_ON;
        DiproData (Some 15);
        EnableRequest {| sender := Some ":1.7"; no_reply := true; sent := true |};
        DisplayStateChanged None None MCE_DISPLAY_OFF]
       sample_state).
Proof.
  apply (threshold_bands_ordered (hdr := sample_header) three_consumer_config).
  unfold bands_ordered, band_ordered. simpl. split; [constructor | lia].
Defined.

Lemma delay_timer_expiry_under_cover_witness :
  let s1 := dispatch_timeout (hdr := sample_header) dipro_config 1%nat None
              sample_pending_state in
  let s2 := als_iomon_common (hdr := sample_header) dipro_config 100 false
              (set_datapipes 3 100 100 COVER_OPEN s1) in
  (brightness_delay_timer_cb_id s1 = 1%nat /\ 1%nat <> 0%nat
   /\ armed_delay_timers s1 = [])
  /\ (armed_delay_timers s2 = [] /\ als_lux s2 = 500 /\ delayed_lux s2 = 100
      /\ trace s2 = []).
Proof.
  cbv zeta.
  apply (delay_timer_expiry_under_cover (hdr := sample_header) dipro_config
           1%nat 5 None 100 3 100 100 COVER_OPEN sample_pending_state).
  - unfold delay_timer_tracked. simpl.
    split; [|split; [|lia]]; (constructor; [simpl; lia | constructor]).
  - reflexivity.
  - reflexivity.
  - reflexivity.
  - discriminate.
  - lia.
  - simpl. lia.
Defined.

(** ** Blanking and unblanking *)

Section DisplayCycle.

Context {hdr : als_header}.
Variable cfg : als_config.

Ltac split_tests :=
  match goal with
  | |- context [if ?c then _ else _] => destruct c
  | |- context [match ?c with Some _ => _ | None => _ end] => destruct c
  | |- context [match als_type ?c with _ => _ end] => destruct (als_type c)
  end.

Lemma cancel_als_poll_timer_display s :
  als_enabled (cancel_als_poll_timer s) = als_enabled s
  /\ display_state (cancel_als_poll_timer s) = display_state s
  /\ old_display_state (cancel_als_poll_timer s) = old_display_state s
  /\ als_lux (cancel_als_poll_timer s) = als_lux s
  /\ thresholds_of (cancel_als_poll_timer s) = thresholds_of s.
Proof.
  unfold cancel_als_poll_timer.
  repeat split_tests; rewrite ?keeps_thresholds; destruct s; repeat split; reflexivity.
Qed.

Lemma display_state_reprogram_display old iomon s :
  als_enabled (display_state_reprogram cfg old iomon s) = als_enabled s
  /\ display_state (display_state_reprogram cfg old iomon s) = display_state s
  /\ old_display_state (display_state_reprogram cfg old iomon s) = display_state s
  /\ thresholds_of (display_state_reprogram cfg old iomon s) = thresholds_of s.
Proof.
  unfold display_state_reprogram, setup_als_poll_timer, g_timeout_add.
  pose proof (cancel_als_poll_timer_display s) as (C1 & C2 & C3 & _ & C5).
  repeat split_tests; cbn beta iota zeta;
    rewrite ?keeps_thresholds, ?C5;
    (split; [|split; [|split]]); try reflexivity;
    try (destruct s; reflexivity);
    try (rewrite <- C1; destruct (cancel_als_poll_timer s); reflexivity);
    try (rewrite <- C2; destruct (cancel_als_poll_timer s); reflexivity).
Qed.

Lemma display_on_not_off d : display_is_on d = true -> display_is_off d = false.
Proof. destruct d; cbn; congruence. Qed.

Lemma display_off_not_on d : display_is_off d = true -> display_is_on d = false.
Proof. destruct d; cbn; congruence. Qed.

(** Blanking writes the widest band without touching the cache. *)
Lemma display_state_trigger_blank raw iomon d_off path s :
  als_threshold_range_path cfg = Some path ->
  als_enabled s = true ->
  display_is_on (old_display_state s) = true ->
  display_is_off d_off = true ->
  let s1 := display_state_trigger cfg raw iomon d_off s in
  als_enabled s1 = true
  /\ old_display_state s1 = d_off
  /\ thresholds_of s1 = (threshold_writes (trace s) ++ [(0, 65535)], cached_band s).
Proof.
  intros Hpath Hen Hon Hoff. cbn zeta. unfold display_state_trigger.
  replace (als_enabled (set_display_state d_off s)) with true
    by (rewrite <- Hen; destruct s; reflexivity).
  cbn [negb].
  set (s0 := set_als_poll_interval _ (set_display_state d_off s)).
  assert (F0 : old_display_state s0 = old_display_state s /\ display_state s0 = d_off
               /\ als_enabled s0 = als_enabled s /\ thresholds_of s0 = thresholds_of s)
    by (unfold s0; destruct s; repeat split; reflexivity).
  destruct F0 as (F1 & F2 & F3 & F4).
  rewrite F1, F2, Hon, Hoff, (display_on_not_off _ Hon). cbn [andb].
  pose proof (display_state_reprogram_display (als_poll_interval s) iomon
                (adjust_als_thresholds cfg 0 65535 s0)) as (R1 & R2 & R3 & R4).
  rewrite R1, R3, R4.
  unfold adjust_als_thresholds. rewrite Hpath. cbn.
  split; [rewrite <- Hen, <- F3; destruct s0; reflexivity|].
  split; [rewrite <- F2; destruct s0; reflexivity|].
  assert (F4a : threshold_writes (trace s0) = threshold_writes (trace s))
    by exact (f_equal fst F4).
  assert (F4b : cached_band s0 = cached_band s) by exact (f_equal snd F4).
  unfold thresholds_of.
  replace (trace (emit (EvWriteThreshold path 0 65535) s0))
    with (trace s0 ++ [EvWriteThreshold path 0 65535]) by (destruct s0; reflexivity).
  replace (cached_band (emit (EvWriteThreshold path 0 65535) s0))
    with (cached_band s0) by (destruct s0; reflexivity).
  rewrite threshold_writes_app, F4a, F4b. reflexivity.
Qed.

(** Unblanking restores the cached band, or forces a reading when no
    band was cached yet. *)
Lemma display_state_trigger_unblank raw iomon d_on path s :
  als_threshold_range_path cfg = Some path ->
  use_median_filter cfg = false ->
  als_enabled s = true ->
  display_is_off (old_display_state s) = true ->
  display_is_on d_on = true ->
  let s1 := display_state_trigger cfg raw iomon d_on s in
  thresholds_of s1
  = (threshold_writes (trace s)
       ++ [if cached_lower s =? -1 then (0, 0) else cached_band s],
     cached_band s).
Proof.
  intros Hpath Hmf Hen Hoff Hon. cbn zeta. unfold display_state_trigger.
  replace (als_enabled (set_display_state d_on s)) with true
    by (rewrite <- Hen; destruct s; reflexivity).
  cbn [negb].
  set (s0 := set_als_poll_interval _ (set_display_state d_on s)).
  assert (F0 : old_display_state s0 = old_display_state s /\ display_state s0 = d_on
               /\ als_enabled s0 = als_enabled s /\ thresholds_of s0 = thresholds_of s)
    by (unfold s0; destruct s; repeat split; reflexivity).
  destruct F0 as (F1 & F2 & F3 & F4).
  rewrite F1, F2, Hon, Hoff. cbn [andb].
  pose proof (cancel_als_poll_timer_display s0) as (C1 & _ & _ & _ & C5).
  set (sc := cancel_als_poll_timer s0) in *.
  assert (Hflush : (if ALS_DISPLAY_OFF_FLUSH_FILTER
                    then als_median_filter_init cfg sc else (true, sc)) = (true, sc)).
  { unfold als_median_filter_init. rewrite Hmf. cbn [negb].
    destruct ALS_DISPLAY_OFF_FLUSH_FILTER; reflexivity. }
  rewrite Hflush. cbn [negb].
  assert (Hread : snd (als_read_value_filtered cfg raw sc) = sc).
  { unfold als_read_value_filtered, als_median_filter_map. rewrite Hmf.
    destruct (negb (als_enabled sc)); [reflexivity|]. destruct raw; reflexivity. }
  destruct (als_read_value_filtered cfg raw sc) as [new_lux sr]. cbn [snd] in Hread.
  subst sr.
  match goal with
  | |- context [adjust_als_thresholds cfg (-1) (-1) ?x] => set (sf := x)
  end.
  assert (Hsf : thresholds_of sf = thresholds_of s).
  { unfold sf. destruct (_ && _); rewrite ?keeps_thresholds, C5; exact F4. }
  pose proof (display_state_reprogram_display (als_poll_interval s) iomon
                (adjust_als_thresholds cfg (-1) (-1) sf)) as (_ & _ & _ & R4).
  rewrite R4.
  assert (Hsf1 : threshold_writes (trace sf) = threshold_writes (trace s))
    by exact (f_equal fst Hsf).
  assert (Hsf2 : cached_band sf = cached_band s) by exact (f_equal snd Hsf).
  assert (Hcl : cached_lower sf = cached_lower s) by exact (f_equal fst Hsf2).
  rewrite <- Hcl, <- Hsf1, <- Hsf2. clearbody sf.
  unfold adjust_als_thresholds, thresholds_of, cached_band. rewrite Hpath.
  change (-1 >? -1) with false. change (-1 =? -1) with true. cbn [orb andb].
  change (-1 =? 0) with false. cbn [orb andb].
  destruct (cached_lower sf =? -1); destruct sf; cbn;
    rewrite threshold_writes_app; reflexivity.
Qed.

(** X10: The display goes off and comes back: the widest band (0,65535) is
    written on the way down without disturbing the cache, and on the
    way up the band cached before is written again, or (0,0) to force
    a reading when none was cached.  The cache is the same before and
    after, and external ownership is not consulted. *)
Theorem display_blank_cycle raw raw' iomon iomon' d_off d_on path s :
  als_threshold_range_path cfg = Some path ->
  use_median_filter cfg = false ->
  als_enabled s = true ->
  display_is_on (old_display_state s) = true ->
  display_is_off d_off = true ->
  display_is_on d_on = true ->
  let s1 := display_state_trigger cfg raw iomon d_off s in
  let s2 := display_state_trigger cfg raw' iomon' d_on s1 in
  threshold_writes (trace s2)
  = threshold_writes (trace s)
      ++ [(0, 65535); if cached_lower s =? -1 then (0, 0) else cached_band s]
  /\ cached_band s2 = cached_band s.
Proof.
  intros Hpath Hmf Hen Hon Hoff Hon'. cbn zeta.
  pose proof (display_state_trigger_blank raw iomon d_off path s Hpath Hen Hon Hoff)
    as (E1 & O1 & T1).
  cbn zeta in E1, O1, T1.
  pose proof (display_state_trigger_unblank raw' iomon' d_on path _ Hpath Hmf E1
                ltac:(rewrite O1; exact Hoff) Hon') as T2.
  cbn zeta in T2.
  assert (Hc1 : cached_band (display_state_trigger cfg raw iomon d_off s) = cached_band s)
    by exact (f_equal snd T1).
  assert (Hw1 : threshold_writes (trace (display_state_trigger cfg raw iomon d_off s))
                = threshold_writes (trace s) ++ [(0, 65535)])
    by exact (f_equal fst T1).
  assert (Hcl : cached_lower (display_state_trigger cfg raw iomon d_off s)
                = cached_lower s) by exact (f_equal fst Hc1).
  rewrite Hw1, Hc1, Hcl in T2.
  split; [|exact (f_equal snd T2)].
  rewrite (f_equal fst T2 : threshold_writes _ = _). cbn [fst].
  rewrite <- app_assoc. reflexivity.
Qed.

End DisplayCycle.

Lemma display_blank_cycle_witness :
  let s1 := display_state_trigger (hdr := sample_header) dipro_config None None
              MCE_DISPLAY_OFF sample_on_state in
  let s2 := display_state_trigger (hdr := sample_header) dipro_config (Some 120)
              (Some 2%nat) MCE_DISPLAY_ON s1 in
  threshold_writes (trace s2) = [(0, 65535); (300, 65535)]
  /\ cached_band s2 = (300, 65535).
Proof.
  cbv zeta.
  apply (display_blank_cycle (hdr := sample_header) dipro_config None (Some 120) None
           (Some 2%nat) MCE_DISPLAY_OFF MCE_DISPLAY_ON "als_thres_range"
           sample_on_state); reflexivity.
Defined.

(** * The symbol tables of the command line tool *)

Section SymbolTables.

Import Mcetool.

Lemma lookup_named stab name v :
  NoDup (map fst (named_symbols stab)) ->
  In (name, v) (named_symbols stab) ->
  lookup stab name = Some v.
Proof.
  induction stab as [|sym stab IH]; cbn; [tauto|].
  destruct (key sym) as [k|]; cbn; [|tauto].
  intros Hnd Hin. inversion Hnd as [|? ? Hk Hnd']; subst.
  destruct Hin as [Heq|Hin].
  - inversion Heq; subst. rewrite String.eqb_refl. reflexivity.
  - destruct (String.eqb k name) eqn:E.
    + apply String.eqb_eq in E. subst k. exfalso. apply Hk.
      apply (in_map fst) in Hin. exact Hin.
    + apply IH; assumption.
Qed.

Lemma rlookup_named stab name v :
  NoDup (map snd (named_symbols stab)) ->
  In (name, v) (named_symbols stab) ->
  rlookup stab v = Some (Some name).
Proof.
  induction stab as [|sym stab IH]; cbn; [tauto|].
  destruct (key sym) as [k|]; cbn; [|tauto].
  intros Hnd Hin. inversion Hnd as [|? ? Hv Hnd']; subst.
  destruct Hin as [Heq|Hin].
  - inversion Heq; subst. rewrite Z.eqb_refl. reflexivity.
  - destruct (val sym =? v) eqn:E.
    + apply Z.eqb_eq in E. subst v. exfalso. apply Hv.
      apply (in_map snd) in Hin. exact Hin.
    + apply IH; assumption.
Qed.

Lemma lookup_found stab name v :
  In name (map fst (named_symbols stab)) ->
  lookup stab name = Some v ->
  In (name, v) (named_symbols stab).
Proof.
  induction stab as [|sym stab IH]; cbn; [tauto|].
  destruct (key sym) as [k|]; cbn; [|tauto].
  intros Hin Hl. destruct (String.eqb k name) eqn:E.
  - apply String.eqb_eq in E. subst k. inversion Hl; subst. left. reflexivity.
  - right. apply IH; [|exact Hl]. destruct Hin as [Hk|Hin]; [|exact Hin].
    subst k. rewrite String.eqb_refl in E. discriminate.
Qed.

Lemma rlookup_found stab name v :
  rlookup stab v = Some (Some name) ->
  In (name, v) (named_symbols stab).
Proof.
  induction stab as [|sym stab IH]; cbn; [discriminate|].
  destruct (key sym) as [k|]; cbn; [|discriminate].
  destruct (val sym =? v) eqn:E.
  - intros H. inversion H; subst. apply Z.eqb_eq in E. subst v. left. reflexivity.
  - intros H. right. apply IH. exact H.
Qed.

Lemma lookup_unnamed stab name :
  ~ In name (map fst (named_symbols stab)) ->
  lookup stab name = end_marker stab.
Proof.
  induction stab as [|sym stab IH]; cbn; [reflexivity|].
  destruct (key sym) as [k|]; cbn; [|reflexivity].
  intros Hnot. destruct (String.eqb k name) eqn:E.
  - apply String.eqb_eq in E. tauto.
  - apply IH. tauto.
Qed.

Lemma rlookup_unnamed stab v :
  ~ In v (map snd (named_symbols stab)) ->
  rlookup stab v = option_map (fun _ => None) (end_marker stab).
Proof.
  induction stab as [|sym stab IH]; cbn; [reflexivity|].
  destruct (key sym) as [k|]; cbn; [|reflexivity].
  intros Hnot. destruct (val sym =? v) eqn:E.
  - apply Z.eqb_eq in E. tauto.
  - apply IH. tauto.
Qed.

Lemma lookup_within_table stab name :
  end_marker stab <> None -> lookup stab name <> None.
Proof.
  induction stab as [|sym stab IH]; cbn; [congruence|].
  destruct (key sym) as [k|]; [|discriminate].
  destruct (String.eqb k name); [discriminate | exact IH].
Qed.

(** X13: A name or a value the table does not hold gets the end marker:
    its value from [lookup], [NULL] from [rlookup].  On a table
    without end marker both searches leave the array. *)
Theorem lookup_end_marker stab name value :
  ~ In name (map fst (named_symbols stab)) ->
  ~ In value (map snd (named_symbols stab)) ->
  lookup stab name = end_marker stab
  /\ rlookup stab value = option_map (fun _ => None) (end_marker stab).
Proof.
  intros Hn Hv. split; [apply lookup_unnamed | apply rlookup_unnamed]; assumption.
Qed.

(** X14: On a table whose names are distinct and whose values are distinct
    [rlookup] inverts [lookup]: a name of the table is looked up to
    [value] exactly when [value] is looked up backwards to that
    name. *)
Theorem lookup_rlookup_inverse stab name value :
  NoDup (map fst (named_symbols stab)) ->
  NoDup (map snd (named_symbols stab)) ->
  In name (map fst (named_symbols stab)) ->
  lookup stab name = Some value <-> rlookup stab value = Some (Some name).
Proof.
  intros Hk Hv Hin. split; intros H.
  - apply rlookup_named; [exact Hv|]. apply lookup_found; assumption.
  - apply lookup_named; [exact Hk|]. apply rlookup_found. exact H.
Qed.

(** X15: [repr_inhibitmode] inverts [parse_inhibitmode]: a name is parsed
    to a mode exactly when the mode is printed as that name. *)
Theorem parse_inhibitmode_repr args value :
  parse_inhibitmode args = Some (Return value)
  <-> repr_inhibitmode value = Some (Some args).
Proof.
  assert (Hk : NoDup (map fst (named_symbols inhibitmode_lut)))
    by (cbn; repeat constructor; cbn; intuition discriminate).
  assert (Hv : NoDup (map snd (named_symbols inhibitmode_lut)))
    by (cbn; repeat constructor; cbn; intuition discriminate).
  unfold parse_inhibitmode, repr_inhibitmode. split.
  - destruct (lookup inhibitmode_lut args) as [res|] eqn:Hl; [|discriminate].
    destruct (res <? 0) eqn:Hneg; [discriminate|].
    intros H. inversion H; subst. apply rlookup_named; [exact Hv|].
    apply lookup_found; [|exact Hl].
    destruct (in_dec string_dec args (map fst (named_symbols inhibitmode_lut)))
      as [Hin|Hnot]; [exact Hin|].
    rewrite (lookup_unnamed _ _ Hnot) in Hl. cbn in Hl. inversion Hl; subst.
    discriminate.
  - intros H. apply rlookup_found in H.
    rewrite (lookup_named _ _ _ Hk H).
    cbn in H.
    repeat (destruct H as [H|H]; [inversion H; subst; reflexivity|]).
    contradiction.
Qed.

(** X16: The name parsers end the process exactly for the names their
    table does not hold, and return for the others; neither leaves
    its table. *)
Theorem name_parsers_exit args :
  (exits (xmce_parse_powerkeyevent args)
   <-> ~ In args (map fst (named_symbols powerkeyevent_lut)))
  /\ (returns (xmce_parse_powerkeyevent args)
      <-> In args (map fst (named_symbols powerkeyevent_lut)))
  /\ (exits (parse_inhibitmode args)
      <-> ~ In args (map fst (named_symbols inhibitmode_lut)))
  /\ (returns (parse_inhibitmode args)
      <-> In args (map fst (named_symbols inhibitmode_lut)))
  /\ (exits (xmce_parse_enabled args)
      <-> ~ In args (map fst (named_symbols enabled_lut)))
  /\ (returns (xmce_parse_enabled args)
      <-> In args (map fst (named_symbols enabled_lut))).
Proof.
  assert (Hcase : forall (stab : list symbol_t),
             {In args (map fst (named_symbols stab))}
             + {~ In args (map fst (named_symbols stab))})
    by (intros stab; apply in_dec, string_dec).
  unfold exits, returns, xmce_parse_powerkeyevent, parse_inhibitmode, xmce_parse_enabled.
  repeat split; intros H.
  all: match goal with
       | |- context [named_symbols ?stab] => destruct (Hcase stab) as [Hin|Hnot]
       | H : context [named_symbols ?stab] |- _ => destruct (Hcase stab) as [Hin|Hnot]
       | H : context [lookup ?stab _] |- _ => destruct (Hcase stab) as [Hin|Hnot]
       end.
  all: try contradiction; try assumption.
  all: try (rewrite (lookup_unnamed _ _ Hnot) in *; cbn in *;
            first [ eexists; reflexivity
                  | destruct H as [? H]; discriminate ]).
  all: cbn in Hin;
    repeat match goal with
           | H : _ \/ _ |- _ => destruct H
           | H : False |- _ => destruct H
           end; subst;
    cbn in *;
    first [ eexists; reflexivity
          | destruct H as [? H]; discriminate
          | tauto ].
Qed.

End SymbolTables.

Lemma lookup_end_marker_witness :
  Mcetool.lookup Mcetool.tklockblank_values "early" = Some (-1)
  /\ Mcetool.rlookup Mcetool.tklockblank_values 2 = Some None.
Proof.
  apply (lookup_end_marker Mcetool.tklockblank_values "early" 2);
    cbn; intuition discriminate.
Defined.

Lemma lookup_rlookup_inverse_witness :
  Mcetool.lookup Mcetool.tklockblank_values "disabled" = Some 1
  <-> Mcetool.rlookup Mcetool.tklockblank_values 1 = Some (Some "disabled").
Proof.
  apply (lookup_rlookup_inverse Mcetool.tklockblank_values "disabled" 1).
  - cbn. repeat constructor; cbn; intuition discriminate.
  - cbn. repeat constructor; cbn; intuition discriminate.
  - cbn. left. reflexivity.
Defined.

(** * Radio state lists *)

Section RadioStateLists.

Import Mcetool.
Context {bits : radio_state_bits}.

Lemma string_length_append (a b : string) :
  String.length (a ++ b) = (String.length a + String.length b)%nat.
Proof. induction a as [|c a IH]; cbn; [reflexivity | rewrite IH; reflexivity]. Qed.

Lemma strchr_cut_last tok :
  no_comma tok -> strchr_cut ","%char tok = (tok, None).
Proof.
  unfold no_comma. induction tok as [|a tok IH]; cbn; [reflexivity|].
  intros Hno. destruct (Ascii.eqb a ","%char) eqn:E.
  - apply Ascii.eqb_eq in E. subst a. exfalso. apply Hno. left. reflexivity.
  - rewrite IH; [reflexivity|]. intros Hin. apply Hno. right. exact Hin.
Qed.

Lemma strchr_cut_comma tok rest :
  no_comma tok -> strchr_cut ","%char (tok ++ String ","%char rest) = (tok, Some rest).
Proof.
  unfold no_comma. induction tok as [|a tok IH]; cbn; [reflexivity|].
  intros Hno. destruct (Ascii.eqb a ","%char) eqn:E.
  - apply Ascii.eqb_eq in E. subst a. exfalso. apply Hno. left. reflexivity.
  - rewrite IH; [reflexivity|]. intros Hin. apply Hno. right. exact Hin.
Qed.

Lemma lookup_radio_state name :
  lookup radio_states_lut name = Some (radio_state_bit name).
Proof.
  unfold radio_state_bit.
  destruct (lookup radio_states_lut name) eqn:E; [reflexivity|].
  exfalso. revert E. apply lookup_within_table. discriminate.
Qed.

Lemma concat_tokens_length toks :
  (List.length toks <= S (String.length (String.concat "," toks)))%nat.
Proof.
  induction toks as [|t toks IH]; cbn; [lia|].
  destruct toks as [|t' toks]; [cbn; lia|].
  rewrite string_length_append. cbn [String.length append].
  cbn [List.length] in *. lia.
Qed.

(** The loop on a list of names joined by commas. *)
Lemma xmce_parse_radio_states_from_tokens toks :
  toks <> [] ->
  Forall no_comma toks ->
  forall rounds res,
    (List.length toks <= rounds)%nat ->
    xmce_parse_radio_states_from rounds (String.concat "," toks) res
    = match find (fun t => radio_state_bit t =? 0) toks with
      | Some t => Some (Exit (errorf (t ++ ": not a valid radio state" ++ newline)))
      | None =>
          Some (Return (to_unsigned (fold_left Z.lor (map radio_state_bit toks) res)))
      end.
Proof.
  induction toks as [|t toks IH]; [congruence|].
  intros _ Hno rounds res Hrounds. inversion Hno as [|? ? Ht Hno']; subst.
  destruct rounds as [|rounds]; [cbn in Hrounds; lia|].
  destruct toks as [|t' toks].
  - cbn [String.concat xmce_parse_radio_states_from find map fold_left].
    rewrite (strchr_cut_last t Ht), lookup_radio_state.
    destruct (radio_state_bit t =? 0); reflexivity.
  - change (String.concat "," (t :: t' :: toks))
      with (t ++ String ","%char (String.concat "," (t' :: toks)))%string.
    cbn [xmce_parse_radio_states_from].
    rewrite (strchr_cut_comma t _ Ht), lookup_radio_state.
    cbn [find]. destruct (radio_state_bit t =? 0); [reflexivity|].
    rewrite IH; [reflexivity | discriminate | exact Hno' | cbn in *; lia].
Qed.

Lemma fold_left_lor_perm l l' :
  Permutation l l' -> forall a, fold_left Z.lor l a = fold_left Z.lor l' a.
Proof.
  induction 1 as [|x l l' _ IH|x y l|l l' l'' _ IH1 _ IH2]; intros a; cbn.
  - reflexivity.
  - apply IH.
  - rewrite <- !Z.lor_assoc, (Z.lor_comm y x). reflexivity.
  - rewrite IH1. apply IH2.
Qed.

Lemma find_invalid_none toks :
  Forall (fun t => radio_state_bit t <> 0) toks ->
  find (fun t => radio_state_bit t =? 0) toks = None.
Proof.
  induction 1 as [|t toks Ht _ IH]; cbn; [reflexivity|].
  apply Z.eqb_neq in Ht. rewrite Ht. exact IH.
Qed.

(** X17: A list of names joined by commas is turned into the union of
    their bits; the first name that stands for no bit ends the
    process, also an empty name, as in an empty list or after a
    trailing comma. *)
Theorem xmce_parse_radio_states_tokens toks :
  toks <> [] ->
  Forall no_comma toks ->
  xmce_parse_radio_states (String.concat "," toks)
  = match find (fun t => radio_state_bit t =? 0) toks with
    | Some t => Some (Exit (errorf (t ++ ": not a valid radio state" ++ newline)))
    | None =>
        Some (Return (to_unsigned (fold_left Z.lor (map radio_state_bit toks) 0)))
    end.
Proof.
  intros Hne Hno. unfold xmce_parse_radio_states.
  apply xmce_parse_radio_states_from_tokens; try assumption.
  apply concat_tokens_length.
Qed.

(** X18: The order of the names in a list of valid radio states does not
    matter. *)
Theorem xmce_parse_radio_states_order toks toks' :
  Permutation toks toks' ->
  toks <> [] ->
  Forall no_comma toks ->
  Forall (fun t => radio_state_bit t <> 0) toks ->
  xmce_parse_radio_states (String.concat "," toks)
  = xmce_parse_radio_states (String.concat "," toks')
  /\ returns (xmce_parse_radio_states (String.concat "," toks)).
Proof.
  intros Hperm Hne Hno Hvalid.
  assert (Hne' : toks' <> []).
  { intros ->. apply Permutation_sym, Permutation_nil in Hperm. contradiction. }
  assert (Hno' : Forall no_comma toks')
    by (eapply Permutation_Forall; eassumption).
  assert (Hvalid' : Forall (fun t => radio_state_bit t <> 0) toks')
    by (eapply Permutation_Forall; eassumption).
  unfold xmce_parse_radio_states.
  rewrite !xmce_parse_radio_states_from_tokens
    by (try assumption; apply concat_tokens_length).
  rewrite !find_invalid_none by assumption.
  split; [|eexists; reflexivity].
  rewrite (fold_left_lor_perm _ _ (Permutation_map radio_state_bit Hperm)).
  reflexivity.
Qed.

End RadioStateLists.

Lemma xmce_parse_radio_states_tokens_witness :
  Mcetool.xmce_parse_radio_states (bits := Mcetool.sample_bits) "wlan,bluetooth"
  = Some (Mcetool.Return 12)
  /\ Mcetool.xmce_parse_radio_states (bits := Mcetool.sample_bits) "wlan,"
     = Some (Mcetool.Exit
               (Mcetool.errorf (": not a valid radio state" ++ Mcetool.newline))).
Proof.
  split.
  - apply (xmce_parse_radio_states_tokens (bits := Mcetool.sample_bits)
             ["wlan"; "bluetooth"]).
    + discriminate.
    + repeat constructor; unfold Mcetool.no_comma; cbn; intuition discriminate.
  - apply (xmce_parse_radio_states_tokens (bits := Mcetool.sample_bits)
             ["wlan"; EmptyString]).
    + discriminate.
    + repeat constructor; unfold Mcetool.no_comma; cbn; intuition discriminate.
Defined.

Lemma xmce_parse_radio_states_order_witness :
  Mcetool.xmce_parse_radio_states (bits := Mcetool.sample_bits) "wlan,nfc"
  = Mcetool.xmce_parse_radio_states (bits := Mcetool.sample_bits) "nfc,wlan"
  /\ Mcetool.returns
       (Mcetool.xmce_parse_radio_states (bits := Mcetool.sample_bits) "wlan,nfc").
Proof.
  apply (xmce_parse_radio_states_order (bits := Mcetool.sample_bits)
           ["wlan"; "nfc"] ["nfc"; "wlan"]).
  - apply perm_swap.
  - discriminate.
  - repeat constructor; unfold Mcetool.no_comma; cbn; intuition discriminate.
  - repeat constructor; cbn; discriminate.
Defined.

(** * The environment of the init process *)

Section InitEnvironment.

Import MceHal.

Variable key : list ascii.
Hypothesis key_ok : ~ In NUL key.

Lemma firstn_subset {A : Type} n (l : list A) x :
  In x (firstn n l) -> In x l.
Proof.
  revert n. induction l as [|a l IH]; intros [|n]; cbn; try tauto.
  intros [H|H]; [left; exact H | right; exact (IH n H)].
Qed.

Lemma c_string_plain s :
  ~ In NUL s -> c_string s = (s, []).
Proof.
  induction s as [|c s IH]; cbn; [reflexivity|]. intros Hno.
  destruct (Ascii.eqb c NUL) eqn:E.
  - apply Ascii.eqb_eq in E. subst c. exfalso. apply Hno. left. reflexivity.
  - rewrite IH; [reflexivity|]. intros Hin. apply Hno. right. exact Hin.
Qed.

Lemma c_string_terminated s rest :
  ~ In NUL s -> c_string (s ++ NUL :: rest) = (s, rest).
Proof.
  induction s as [|c s IH]; cbn.
  - intros _. reflexivity.
  - intros Hno. destruct (Ascii.eqb c NUL) eqn:E.
    + apply Ascii.eqb_eq in E. subst c. exfalso. apply Hno. left. reflexivity.
    + rewrite IH; [reflexivity|]. intros Hin. apply Hno. right. exact Hin.
Qed.

Lemma c_string_rest_length p :
  (List.length (snd (c_string p)) <= List.length p)%nat.
Proof.
  induction p as [|c p IH]; cbn; [lia|].
  destruct (Ascii.eqb c NUL); cbn; [lia|].
  destruct (c_string p) as [s rest]. cbn in *. lia.
Qed.

Lemma strchr_equals_length now name val :
  strchr_equals now = Some (name, val) ->
  (List.length val < List.length now)%nat.
Proof.
  revert name. induction now as [|c now IH]; cbn; [discriminate|]. intros name.
  destruct (Ascii.eqb c "="%char).
  - intros H. inversion H; subst. lia.
  - destruct (Ascii.eqb c NUL); [discriminate|].
    destruct (strchr_equals now) as [[name' val']|]; [|discriminate].
    intros H. inversion H; subst. specialize (IH _ eq_refl). lia.
Qed.

Lemma strchr_equals_name name rest :
  ~ In "="%char name -> ~ In NUL name ->
  strchr_equals (name ++ "="%char :: rest) = Some (name, rest).
Proof.
  induction name as [|c name IH]; cbn.
  - intros _ _. reflexivity.
  - intros He Hn. destruct (Ascii.eqb c "="%char) eqn:E.
    + apply Ascii.eqb_eq in E. subst c. exfalso. apply He. left. reflexivity.
    + destruct (Ascii.eqb c NUL) eqn:E0.
      * apply Ascii.eqb_eq in E0. subst c. exfalso. apply Hn. left. reflexivity.
      * rewrite IH; [reflexivity | |]; intros Hin; [apply He | apply Hn];
          right; exact Hin.
Qed.

Lemma strchr_equals_none now :
  no_assignment now -> strchr_equals now = None.
Proof.
  induction now as [|c now IH]; cbn; [reflexivity|]. intros [Hne Hrest].
  apply Ascii.eqb_neq in Hne. rewrite Hne.
  destruct (Ascii.eqb c NUL) eqn:E; [reflexivity|].
  destruct Hrest as [Hnul|Hrest].
  - subst c. cbn in E. discriminate.
  - rewrite (IH Hrest). reflexivity.
Qed.

Lemma no_assignment_firstn n now :
  no_assignment now -> no_assignment (firstn n now).
Proof.
  revert n. induction now as [|c now IH]; intros [|n]; cbn; try tauto.
  intros [Hne [Hnul|Hrest]]; split; auto.
Qed.

Lemma no_assignment_junk junk rest :
  ~ In "="%char junk -> no_assignment (junk ++ NUL :: rest).
Proof.
  induction junk as [|c junk IH]; cbn.
  - intros _. split; [discriminate | left; reflexivity].
  - intros Hno. split; [intros ->; apply Hno; left; reflexivity|].
    right. apply IH. intros Hin. apply Hno. right. exact Hin.
Qed.

Lemma no_assignment_name name :
  ~ In "="%char name -> no_assignment name.
Proof.
  induction name as [|c name IH]; cbn; [tauto|].
  intros Hno. split; [intros ->; apply Hno; left; reflexivity|].
  right. apply IH. intros Hin. apply Hno. right. exact Hin.
Qed.

Lemma environ_scan_none rounds now :
  no_assignment now -> environ_scan rounds now key = None.
Proof.
  intros H. destruct rounds as [|rounds]; [reflexivity|]. cbn.
  destruct now; [reflexivity|]. rewrite (strchr_equals_none _ H). reflexivity.
Qed.

(** The bound on the rounds is never what ends the loop. *)
Lemma environ_scan_rounds r r' now :
  (List.length now <= r)%nat -> (List.length now <= r')%nat ->
  environ_scan r now key = environ_scan r' now key.
Proof.
  revert r' now. induction r as [|r IH]; intros r' now Hr Hr'.
  - destruct now; [|cbn in Hr; lia]. destruct r'; reflexivity.
  - destruct r' as [|r'].
    { destruct now; [reflexivity | cbn in Hr'; lia]. }
    cbn. destruct now as [|c now]; [reflexivity|].
    destruct (strchr_equals (c :: now)) as [[name val]|] eqn:Hs; [|reflexivity].
    destruct (strcmp_equal name key); [reflexivity|].
    apply strchr_equals_length in Hs.
    pose proof (c_string_rest_length val).
    apply IH; cbn in *; lia.
Qed.

Lemma strcmp_equal_name name :
  ~ In NUL name ->
  strcmp_equal name key = if list_eq_dec Ascii.ascii_dec name key then true else false.
Proof.
  intros Hn. unfold strcmp_equal.
  rewrite (c_string_plain name Hn), (c_string_plain key key_ok). reflexivity.
Qed.

(** One round on an entry that is there in full. *)
Lemma environ_scan_entry e tail rounds :
  entry_ok e ->
  environ_scan (S rounds) (environ_entry e ++ tail) key
  = if list_eq_dec Ascii.ascii_dec (fst e) key then Some (snd e)
    else environ_scan rounds tail key.
Proof.
  intros (He & Hn & Hv). unfold environ_entry.
  rewrite <- !app_assoc. cbn [app]. rewrite <- app_assoc. cbn [app].
  cbn [environ_scan].
  rewrite (strchr_equals_name (fst e) _ He Hn), (strcmp_equal_name _ Hn).
  rewrite (c_string_terminated (snd e) tail Hv). cbn [fst snd].
  destruct (fst e) as [|c name]; cbn [app];
    destruct (list_eq_dec Ascii.ascii_dec _ key); reflexivity.
Qed.

Lemma environ_scan_block es tail rounds :
  Forall entry_ok es ->
  (List.length (environ_block es ++ tail) <= rounds)%nat ->
  environ_scan rounds (environ_block es ++ tail) key
  = match environ_value es key with
    | Some v => Some v
    | None => environ_scan (List.length tail) tail key
    end.
Proof.
  intros Hok. revert rounds. induction Hok as [|e es He _ IH]; intros rounds Hr.
  - cbn. apply environ_scan_rounds; [exact Hr | lia].
  - change (environ_block (e :: es)) with (environ_entry e ++ environ_block es) in *.
    rewrite <- app_assoc in Hr |- *.
    assert (Hlen : (1 <= List.length (environ_entry e))%nat)
      by (unfold environ_entry; rewrite length_app; cbn [List.length]; lia).
    rewrite length_app in Hr.
    destruct rounds as [|rounds]; [lia|].
    rewrite (environ_scan_entry e _ rounds He). cbn [environ_value].
    destruct (list_eq_dec Ascii.ascii_dec (fst e) key); [reflexivity|].
    apply IH. lia.
Qed.

(** Cutting the buffer anywhere within or after entries of other
    names finds nothing, as long as what follows them holds
    nothing. *)
Lemma environ_scan_cut es tail :
  Forall entry_ok es ->
  environ_value es key = None ->
  (forall m rounds, environ_scan rounds (firstn m tail) key = None) ->
  forall n rounds, environ_scan rounds (firstn n (environ_block es ++ tail)) key = None.
Proof.
  intros Hok. induction Hok as [|e es He _ IH]; intros Hval Htail n rounds.
  - cbn. apply Htail.
  - cbn [environ_value] in Hval.
    destruct (list_eq_dec Ascii.ascii_dec (fst e) key) as [|Hne]; [discriminate|].
    specialize (IH Hval Htail).
    destruct rounds as [|rounds]; [reflexivity|].
    destruct He as (He & Hn & Hv).
    unfold environ_block. cbn [map List.concat]. fold (environ_block es).
    unfold environ_entry. rewrite <- !app_assoc. cbn [app].
    rewrite <- app_assoc. cbn [app].
    rewrite firstn_app.
    destruct (n - List.length (fst e))%nat as [|k] eqn:Hk.
    + (* cut within the name *)
      cbn [firstn]. rewrite app_nil_r. apply environ_scan_none.
      apply no_assignment_firstn, no_assignment_name. exact He.
    + rewrite firstn_all2 by lia. cbn [firstn environ_scan].
      rewrite (strchr_equals_name (fst e) _ He Hn), (strcmp_equal_name _ Hn).
      destruct (list_eq_dec Ascii.ascii_dec (fst e) key); [contradiction|].
      assert (Hrest : environ_scan rounds
                        (snd (c_string
                                (firstn k (snd e ++ NUL :: environ_block es ++ tail))))
                        key = None).
      { rewrite firstn_app.
        destruct (k - List.length (snd e))%nat as [|k'] eqn:Hk'.
        - (* cut within the value *)
          cbn [firstn]. rewrite app_nil_r.
          rewrite c_string_plain.
          + destruct rounds; reflexivity.
          + intros Hin. apply Hv. revert Hin. apply firstn_subset.
        - rewrite firstn_all2 by lia. cbn [firstn].
          rewrite (c_string_terminated (snd e) _ Hv). cbn [snd]. apply IH. }
      destruct (fst e) as [|c name]; cbn [app]; exact Hrest.
Qed.

(** X19: Reading an environment block that fits into the buffer gives the
    value of the first entry of the name asked for, and nothing when
    there is none. *)
Theorem getenv_from_init_process_finds es :
  Forall entry_ok es ->
  Z.of_nat (List.length (environ_block es)) <= 0x1fff ->
  fst (getenv_from_init_process (ReadReturns (environ_block es)) key)
  = environ_value es key.
Proof.
  intros Hok Hfit. unfold getenv_from_init_process. cbn [fst].
  rewrite firstn_all2 by lia.
  pose proof (environ_scan_block es [] (List.length (environ_block es)) Hok) as H.
  rewrite app_nil_r in H. rewrite H by lia.
  destruct (environ_value es key); reflexivity.
Qed.

(** X20: The search ends at the first entry without '=': a variable
    defined after it is not found. *)
Theorem getenv_from_init_process_stops es junk rest :
  Forall entry_ok es ->
  environ_value es key = None ->
  ~ In "="%char junk ->
  fst (getenv_from_init_process
         (ReadReturns (environ_block es ++ junk ++ NUL :: rest)) key)
  = None.
Proof.
  intros Hok Hval Hjunk. unfold getenv_from_init_process. cbn [fst].
  apply environ_scan_cut; try assumption.
  intros m rounds. apply environ_scan_none, no_assignment_firstn.
  apply no_assignment_junk. exact Hjunk.
Qed.

(** X21: Only the first 0x1fff bytes are looked at: a variable defined
    after that much of other variables is not found. *)
Theorem getenv_from_init_process_limit es rest :
  Forall entry_ok es ->
  environ_value es key = None ->
  0x1fff <= Z.of_nat (List.length (environ_block es)) ->
  fst (getenv_from_init_process (ReadReturns (environ_block es ++ rest)) key)
  = None.
Proof.
  intros Hok Hval Hlong. unfold getenv_from_init_process. cbn [fst].
  set (n := Z.to_nat (0x2000 - 1)).
  assert (Hcut : firstn n (environ_block es ++ rest)
                 = firstn n (environ_block es ++ [])).
  { rewrite !firstn_app.
    replace (n - List.length (environ_block es))%nat with 0%nat by (unfold n; lia).
    reflexivity. }
  rewrite Hcut. apply environ_scan_cut; try assumption.
  intros m rounds. destruct m, rounds; reflexivity.
Qed.

End InitEnvironment.

(** X22: Asked for the product, [get_sysinfo_value_environ] answers from the
    environment of the process and, only when the variable is not set
    there, from that of the init process; the length is that of the
    value, and the status tells whether there is one. *)
Theorem get_sysinfo_value_environ_product getenv es :
  Forall MceHal.entry_ok es ->
  Z.of_nat (List.length (MceHal.environ_block es)) <= 0x1fff ->
  let product_name := list_ascii_of_string "product_name" in
  let value :=
    match getenv product_name with
    | Some val => Some val
    | None => MceHal.environ_value es product_name
    end in
  fst (MceHal.get_sysinfo_value_environ getenv
         (MceHal.ReadReturns (MceHal.environ_block es)) MceHal.PRODUCT_SYSINFO_KEY)
  = (match value with Some _ => true | None => false end,
     value,
     match value with Some val => List.length val | None => 0%nat end).
Proof.
  intros Hok Hfit. cbn zeta. unfold MceHal.get_sysinfo_value_environ.
  assert (Hcmp : MceHal.strcmp_equal MceHal.PRODUCT_SYSINFO_KEY
                   MceHal.PRODUCT_SYSINFO_KEY = true).
  { unfold MceHal.strcmp_equal.
    destruct (list_eq_dec Ascii.ascii_dec _ _); [reflexivity | contradiction]. }
  rewrite Hcmp.
  destruct (getenv (list_ascii_of_string "product_name")) as [val|]; [reflexivity|].
  unfold MceHal.getenv_from_init_process.
  rewrite firstn_all2 by lia.
  assert (Hkey : ~ In MceHal.NUL (list_ascii_of_string "product_name"))
    by (cbn; intuition discriminate).
  pose proof (environ_scan_block _ Hkey es [] (List.length (MceHal.environ_block es))
                Hok) as H.
  rewrite app_nil_r in H. rewrite H by lia.
  destruct (MceHal.environ_value es (list_ascii_of_string "product_name")); reflexivity.
Qed.

Lemma getenv_from_init_process_finds_witness :
  fst (MceHal.getenv_from_init_process
         (MceHal.ReadReturns (MceHal.environ_block MceHal.sample_environ))
         (list_ascii_of_string "product_name"))
  = Some (list_ascii_of_string "RM-696").
Proof.
  apply (getenv_from_init_process_finds (list_ascii_of_string "product_name")).
  - cbn. intuition discriminate.
  - repeat constructor; cbn; intuition discriminate.
  - vm_compute. discriminate.
Defined.

Lemma getenv_from_init_process_stops_witness :
  fst (MceHal.getenv_from_init_process
         (MceHal.ReadReturns
            (MceHal.environ_block
               [(list_ascii_of_string "PATH", list_ascii_of_string "/bin")]
             ++ list_ascii_of_string "TERM"
             ++ MceHal.NUL :: list_ascii_of_string "product_name=RM-696"))
         (list_ascii_of_string "product_name"))
  = None.
Proof.
  apply (getenv_from_init_process_stops (list_ascii_of_string "product_name")).
  - cbn. intuition discriminate.
  - repeat constructor; cbn; intuition discriminate.
  - reflexivity.
  - cbn. intuition discriminate.
Defined.

Lemma getenv_from_init_process_limit_witness :
  fst (MceHal.getenv_from_init_process
         (MceHal.ReadReturns
            (MceHal.environ_block
               [(list_ascii_of_string "PAD", repeat "x"%char (Z.to_nat 0x2000))]
             ++ list_ascii_of_string "product_name=RM-696"))
         (list_ascii_of_string "product_name"))
  = None.
Proof.
  apply (getenv_from_init_process_limit (list_ascii_of_string "product_name")).
  - cbn. intuition discriminate.
  - constructor; [|constructor].
    split; [cbn; intuition discriminate|].
    split; [cbn; intuition discriminate|].
    cbn [snd]. intros Hin. apply repeat_spec in Hin. discriminate.
  - reflexivity.
  - unfold MceHal.environ_block, MceHal.environ_entry.
    cbn [map List.concat fst snd].
    rewrite !length_app. cbn [List.length]. rewrite length_app, repeat_length. lia.
Defined.

Lemma get_sysinfo_value_environ_product_witness :
  fst (MceHal.get_sysinfo_value_environ (fun _ => None)
         (MceHal.ReadReturns (MceHal.environ_block MceHal.sample_environ))
         MceHal.PRODUCT_SYSINFO_KEY)
  = (true, Some (list_ascii_of_string "RM-696"), 6%nat).
Proof.
  apply (get_sysinfo_value_environ_product (fun _ => None) MceHal.sample_environ).
  - repeat constructor; cbn; intuition discriminate.
  - vm_compute. discriminate.
Defined.

(** ** The poll timer in the main loop, and what is left at unload *)

Section PollTimer.

Context {hdr : als_header}.
Variable cfg : als_config.

Ltac by_fields := intros s; destruct s; reflexivity.

Ltac split_tests :=
  match goal with
  | |- context [if ?c then _ else _] => destruct c
  | |- context [match ?c with Some _ => _ | None => _ end] => destruct c
  | |- context [match ?c with
                | COVER_UNDEF => _ | COVER_CLOSED => _ | COVER_OPEN => _
                end] => destruct c
  end.

#[global] Instance set_als_iomon_id_poll_id v : KeepsPollId (set_als_iomon_id v).
Proof. by_fields. Qed.
#[global] Instance set_als_enabled_poll_id v : KeepsPollId (set_als_enabled v).
Proof. by_fields. Qed.
#[global] Instance set_als_lux_poll_id v : KeepsPollId (set_als_lux v).
Proof. by_fields. Qed.
#[global] Instance set_delayed_lux_poll_id v : KeepsPollId (set_delayed_lux v).
Proof. by_fields. Qed.
#[global] Instance set_display_state_poll_id v : KeepsPollId (set_display_state v).
Proof. by_fields. Qed.
#[global] Instance set_old_display_state_poll_id v :
  KeepsPollId (set_old_display_state v).
Proof. by_fields. Qed.
#[global] Instance set_median_filter_poll_id v : KeepsPollId (set_median_filter v).
Proof. by_fields. Qed.
#[global] Instance set_als_poll_interval_poll_id v :
  KeepsPollId (set_als_poll_interval v).
Proof. by_fields. Qed.
#[global] Instance set_brightness_delay_timer_cb_id_poll_id v :
  KeepsPollId (set_brightness_delay_timer_cb_id v).
Proof. by_fields. Qed.
#[global] Instance set_als_external_refcount_poll_id v :
  KeepsPollId (set_als_external_refcount v).
Proof. by_fields. Qed.
#[global] Instance set_als_owner_monitor_list_poll_id v :
  KeepsPollId (set_als_owner_monitor_list v).
Proof. by_fields. Qed.
#[global] Instance set_datapipes_poll_id d l k p : KeepsPollId (set_datapipes d l k p).
Proof. by_fields. Qed.
#[global] Instance set_cached_poll_id l u : KeepsPollId (set_cached l u).
Proof. by_fields. Qed.
#[global] Instance emit_poll_id e : KeepsPollId (emit e).
Proof. by_fields. Qed.
#[global] Instance g_source_remove_poll_id id : KeepsPollId (g_source_remove id).
Proof. by_fields. Qed.

Lemma outside_filters_poll_id s s' :
  outside_filters s' = outside_filters s ->
  als_poll_timer_cb_id s' = als_poll_timer_cb_id s.
Proof.
  intros H. apply outside_filters_fields in H.
  destruct H as (_ & _ & _ & _ & _ & _ & _ & Hid & _). exact Hid.
Qed.

#[global] Instance execute_datapipe_poll_id pipe : KeepsPollId (execute_datapipe cfg pipe).
Proof. intros s. apply outside_filters_poll_id, execute_datapipe_outside. Qed.
#[global] Instance refilter_brightness_poll_id : KeepsPollId (refilter_brightness cfg).
Proof. intros s. apply outside_filters_poll_id, refilter_brightness_outside. Qed.
#[global] Instance adjust_colour_phase_poll_id : KeepsPollId (adjust_colour_phase cfg).
Proof. intros s. apply outside_filters_poll_id, adjust_colour_phase_outside. Qed.
#[global] Instance adjust_als_thresholds_poll_id lower upper :
  KeepsPollId (adjust_als_thresholds cfg lower upper).
Proof. intros s. apply adjust_als_thresholds_fields. Qed.
#[global] Instance als_lux_update_poll_id new_lux : KeepsPollId (als_lux_update cfg new_lux).
Proof.
  intros s. unfold als_lux_update.
  destruct (merged_thresholds cfg _) as [lower upper].
  destruct (als_external_refcount _ =? 0); rewrite !keeps_poll_id; reflexivity.
Qed.

Lemma poll_timer_tracked_view s s' :
  sources s' = sources s ->
  als_poll_timer_cb_id s' = als_poll_timer_cb_id s ->
  poll_timer_tracked cfg s -> poll_timer_tracked cfg s'.
Proof.
  unfold poll_timer_tracked, armed_poll_timers. intros H Hid.
  rewrite H, Hid. tauto.
Qed.

Lemma poll_timer_tracked_keeps (f : als_state -> als_state)
      (Hf : KeepsTimers f) (Hp : KeepsPollId f) s :
  poll_timer_tracked cfg s -> poll_timer_tracked cfg (f s).
Proof.
  apply poll_timer_tracked_view; [|apply keeps_poll_id].
  exact (f_equal fst (keeps_timers s)).
Qed.

Lemma filter_nil_keep {A : Type} (f keep : A -> bool) (l : list A) :
  filter f l = [] -> filter f (filter keep l) = [].
Proof.
  intros H. rewrite filter_swap, H. reflexivity.
Qed.

Lemma poll_timer_tracked_removed keep s s' :
  sources s' = filter keep (sources s) ->
  als_poll_timer_cb_id s' = als_poll_timer_cb_id s ->
  poll_timer_tracked cfg s -> poll_timer_tracked cfg s'.
Proof.
  unfold poll_timer_tracked, armed_poll_timers.
  intros Hsrc Hid (Hnz & Hall & Hlen & Hint). rewrite Hsrc, Hid.
  rewrite (filter_swap is_poll_source keep).
  split; [apply Forall_filter; exact Hnz|].
  split; [apply Forall_filter; exact Hall|].
  split.
  - pose proof (filter_length_le keep (filter is_poll_source (sources s))). lia.
  - intros Hi. rewrite (Hint Hi). reflexivity.
Qed.

(** Removing the source the recorded id names leaves no poll timer,
    whatever is recorded afterwards. *)
Lemma poll_timer_tracked_cleared s s' :
  sources s'
  = filter (fun src => negb (fst src =? als_poll_timer_cb_id s)%nat) (sources s) ->
  poll_timer_tracked cfg s ->
  poll_timer_tracked cfg s' /\ armed_poll_timers s' = [].
Proof.
  unfold poll_timer_tracked, armed_poll_timers.
  intros Hsrc (Hnz & Hall & Hlen & _). rewrite Hsrc.
  assert (Hnil : filter is_poll_source
                   (filter (fun src => negb (fst src =? als_poll_timer_cb_id s)%nat)
                           (sources s)) = []).
  { rewrite filter_swap.
    induction (filter is_poll_source (sources s)) as [|x l IH]; [reflexivity|].
    inversion Hall as [|? ? Hx Hl]; subst. cbn.
    rewrite Hx, Nat.eqb_refl. cbn. apply IH; [exact Hl | cbn in Hlen; lia]. }
  rewrite Hnil.
  split; [|reflexivity].
  split; [apply Forall_filter; exact Hnz|].
  split; [constructor|]. split; [cbn; lia | reflexivity].
Qed.

Lemma poll_timer_tracked_idle s :
  poll_timer_tracked cfg s ->
  als_poll_timer_cb_id s = 0%nat ->
  armed_poll_timers s = [].
Proof.
  unfold poll_timer_tracked. intros (Hnz & Hall & _) Hid.
  destruct (armed_poll_timers s) as [|src l] eqn:Harmed; [reflexivity|].
  exfalso. inversion Hall as [|? ? Hsrc _]; subst.
  assert (Hin : In src (sources s)).
  { unfold armed_poll_timers in Harmed.
    assert (Hin : In src (filter is_poll_source (sources s)))
      by (rewrite Harmed; left; reflexivity).
    apply filter_In in Hin. tauto. }
  rewrite Forall_forall in Hnz. apply (Hnz src Hin). congruence.
Qed.

Lemma cancel_als_poll_timer_poll s :
  poll_timer_tracked cfg s ->
  poll_timer_tracked cfg (cancel_als_poll_timer s)
  /\ armed_poll_timers (cancel_als_poll_timer s) = [].
Proof.
  intros H. unfold cancel_als_poll_timer.
  set (s0 := match als_iomon_id s with
             | Some id => set_als_iomon_id None (emit (EvUnregisterIoMonitor id) s)
             | None => s
             end).
  assert (H0 : poll_timer_tracked cfg s0).
  { unfold s0. destruct (als_iomon_id s); [|exact H].
    repeat (apply poll_timer_tracked_keeps; [typeclasses eauto | typeclasses eauto |]).
    exact H. }
  clearbody s0.
  destruct (als_poll_timer_cb_id s0 =? 0)%nat eqn:Hid.
  - apply Nat.eqb_eq in Hid. split; [exact H0|].
    apply poll_timer_tracked_idle; assumption.
  - apply (poll_timer_tracked_cleared s0); [|exact H0]. destruct s0; reflexivity.
Qed.

Lemma add_poll_timer_poll interval s :
  poll_timer_tracked cfg s ->
  armed_poll_timers s = [] ->
  interrupt_driven cfg = false ->
  poll_timer_tracked cfg
    (let '(id, s1) := g_timeout_add (ALS_POLL_TIMER_CB interval) s in
     set_als_poll_timer_cb_id id s1).
Proof.
  unfold g_timeout_add, poll_timer_tracked, armed_poll_timers.
  intros (Hnz & _ & _ & _) Hnone Hint. destruct s; cbn in *.
  rewrite filter_app, Hnone. cbn.
  split; [apply Forall_app; split; [exact Hnz|]; constructor; [cbn; lia | constructor]|].
  split; [constructor; [reflexivity | constructor]|].
  split; [lia | congruence].
Qed.

Lemma setup_als_poll_timer_poll iomon s :
  poll_timer_tracked cfg s -> poll_timer_tracked cfg (setup_als_poll_timer cfg iomon s).
Proof.
  intros H. pose proof (cancel_als_poll_timer_poll s H) as [Hc Hnone].
  unfold setup_als_poll_timer.
  destruct (als_poll_interval s =? 0).
  { apply poll_timer_tracked_keeps; [typeclasses eauto | typeclasses eauto | exact Hc]. }
  pose proof (add_poll_timer_poll (als_poll_interval (cancel_als_poll_timer s))
                (cancel_als_poll_timer s) Hc Hnone) as Ha.
  unfold interrupt_driven in Ha.
  destruct (als_type cfg); try (apply Ha; reflexivity);
    (destruct (als_iomon_id s);
     [exact H
     |apply poll_timer_tracked_keeps; [typeclasses eauto | typeclasses eauto | exact H]]).
Qed.

Lemma defer_step_down_poll lux s :
  poll_timer_tracked cfg s -> poll_timer_tracked cfg (defer_step_down cfg lux s).
Proof.
  intros H. unfold defer_step_down, g_timeout_add.
  destruct (brightness_delay_timer_cb_id s =? 0)%nat.
  - destruct H as (Hnz & Hall & Hlen & Hint).
    unfold poll_timer_tracked, armed_poll_timers in *.
    destruct s; cbn in *. rewrite filter_app. cbn. rewrite app_nil_r.
    split; [apply Forall_app; split; [exact Hnz|]; constructor; [cbn; lia | constructor]|].
    split; [exact Hall|]. split; assumption.
  - apply poll_timer_tracked_keeps; [typeclasses eauto | typeclasses eauto | exact H].
Qed.

Lemma g_source_remove_poll id s :
  poll_timer_tracked cfg s -> poll_timer_tracked cfg (g_source_remove id s).
Proof.
  apply (poll_timer_tracked_removed (fun src => negb (fst src =? id)%nat));
    destruct s; reflexivity.
Qed.

Lemma cancel_brightness_delay_timer_poll s :
  poll_timer_tracked cfg s -> poll_timer_tracked cfg (cancel_brightness_delay_timer s).
Proof.
  intros H. unfold cancel_brightness_delay_timer.
  destruct (brightness_delay_timer_cb_id s =? 0)%nat; [exact H|].
  apply (poll_timer_tracked_view (g_source_remove (brightness_delay_timer_cb_id s) s));
    [destruct s; reflexivity | destruct s; reflexivity |].
  apply g_source_remove_poll. exact H.
Qed.

Lemma als_median_filter_map_poll v s :
  poll_timer_tracked cfg s -> poll_timer_tracked cfg (snd (als_median_filter_map cfg v s)).
Proof.
  intros H. unfold als_median_filter_map.
  destruct (use_median_filter cfg); [|exact H].
  destruct (median_filter_map (median_filter s) v) as [mf filtered]. cbn [snd].
  apply poll_timer_tracked_keeps; [typeclasses eauto | typeclasses eauto | exact H].
Qed.

Lemma als_median_filter_init_poll s :
  poll_timer_tracked cfg s -> poll_timer_tracked cfg (snd (als_median_filter_init cfg s)).
Proof.
  intros H. unfold als_median_filter_init.
  destruct (negb (use_median_filter cfg)); [exact H|].
  destruct (median_filter_init _ _) as [mf ok].
  destruct ok; cbn [snd];
    repeat (apply poll_timer_tracked_keeps; [typeclasses eauto | typeclasses eauto |]);
    exact H.
Qed.

Lemma als_iomon_common_poll lux no_delay s :
  poll_timer_tracked cfg s -> poll_timer_tracked cfg (als_iomon_common cfg lux no_delay s).
Proof.
  intros H. rewrite als_iomon_common_cases. cbn zeta.
  pose proof (als_median_filter_map_poll lux s H) as H1.
  pose proof (cancel_brightness_delay_timer_poll _ H1) as Hc.
  pose proof (defer_step_down_poll lux _ H1) as Hd.
  assert (Hz : poll_timer_tracked cfg
                 (set_brightness_delay_timer_cb_id 0%nat
                    (snd (als_median_filter_map cfg lux s)))).
  { revert H1. apply poll_timer_tracked_view;
      destruct (snd (als_median_filter_map cfg lux s)); reflexivity. }
  repeat first
    [ assumption
    | apply poll_timer_tracked_keeps; [typeclasses eauto | typeclasses eauto |]
    | split_tests ].
Qed.

(** The poll callback leaves the sources alone; it keeps the recorded
    id unless it asks for its own removal. *)
Lemma als_poll_timer_cb_poll raw s :
  timers_of (snd (als_poll_timer_cb cfg raw s)) = timers_of s
  /\ (fst (als_poll_timer_cb cfg raw s) = true ->
      als_poll_timer_cb_id (snd (als_poll_timer_cb cfg raw s)) = als_poll_timer_cb_id s).
Proof.
  split; [apply als_poll_timer_cb_timers|].
  unfold als_poll_timer_cb, als_read_value_filtered.
  destruct (negb (als_enabled s)).
  - cbn beta iota zeta. repeat split_tests; cbn [fst snd]; intros Hk;
      rewrite ?keeps_poll_id; try reflexivity; discriminate.
  - destruct raw as [lux|].
    + assert (Hv : als_poll_timer_cb_id (snd (als_median_filter_map cfg lux s))
                   = als_poll_timer_cb_id s).
      { unfold als_median_filter_map. destruct (use_median_filter cfg); [|reflexivity].
        destruct (median_filter_map (median_filter s) lux). cbn [snd].
        apply keeps_poll_id. }
      destruct (als_median_filter_map cfg lux s) as [new_lux s1]. cbn [snd] in Hv.
      repeat split_tests; cbn [fst snd]; intros Hk;
        rewrite ?keeps_poll_id; try exact Hv; discriminate.
    + cbn beta iota zeta. repeat split_tests; cbn [fst snd]; intros Hk;
        rewrite ?keeps_poll_id; try reflexivity; discriminate.
Qed.

Lemma dispatch_timeout_poll id raw s :
  poll_timer_tracked cfg s -> poll_timer_tracked cfg (dispatch_timeout cfg id raw s).
Proof.
  intros H. unfold dispatch_timeout.
  destruct (find _ (sources s)) as [[id' cb]|] eqn:Hfind; [|exact H].
  apply find_source_some in Hfind. destruct Hfind as [Hin Hid]. cbn in Hid. subst id'.
  destruct cb as [interval|seconds].
  - assert (Hrec : als_poll_timer_cb_id s = id).
    { destruct H as (_ & Hall & _). rewrite Forall_forall in Hall.
      symmetry. apply (Hall (id, ALS_POLL_TIMER_CB interval)).
      apply filter_In. split; [exact Hin | reflexivity]. }
    pose proof (als_poll_timer_cb_poll raw s) as [Hv Hk].
    destruct (als_poll_timer_cb cfg raw s) as [keep s1]. cbn [fst snd] in Hv, Hk.
    destruct keep.
    + apply (poll_timer_tracked_view s);
        [exact (f_equal fst Hv) | exact (Hk eq_refl) | exact H].
    + apply (poll_timer_tracked_cleared s); [|exact H].
      rewrite Hrec, <- (f_equal fst Hv : sources s1 = sources s).
      destruct s1; reflexivity.
  - unfold brightness_delay_timer_cb. cbn beta iota zeta.
    apply g_source_remove_poll, als_iomon_common_poll. exact H.
Qed.

Lemma display_state_trigger_poll raw iomon data s :
  poll_timer_tracked cfg s ->
  poll_timer_tracked cfg (display_state_trigger cfg raw iomon data s).
Proof.
  intros H. unfold display_state_trigger, display_state_reprogram.
  set (s0 := set_als_poll_interval _ (set_display_state data s)).
  assert (H0 : poll_timer_tracked cfg s0)
    by (unfold s0;
        repeat (apply poll_timer_tracked_keeps; [typeclasses eauto | typeclasses eauto |]);
        exact H).
  assert (Hc : poll_timer_tracked cfg (cancel_als_poll_timer s0))
    by (apply cancel_als_poll_timer_poll; exact H0).
  assert (Hinit : poll_timer_tracked cfg
                    (snd (als_median_filter_init cfg (cancel_als_poll_timer s0))))
    by (apply als_median_filter_init_poll; exact Hc).
  assert (Hgo : forall s2, poll_timer_tracked cfg s2 ->
                           poll_timer_tracked cfg
                             (set_old_display_state
                                (display_state
                                   (if negb (als_poll_interval s2 =? als_poll_interval s)
                                       || (als_poll_timer_cb_id s2 =? 0)%nat
                                          && negb (not_null (als_iomon_id s2))
                                    then setup_als_poll_timer cfg iomon s2 else s2))
                                (if negb (als_poll_interval s2 =? als_poll_interval s)
                                    || (als_poll_timer_cb_id s2 =? 0)%nat
                                       && negb (not_null (als_iomon_id s2))
                                 then setup_als_poll_timer cfg iomon s2 else s2))).
  { intros s2 H2.
    apply poll_timer_tracked_keeps; [typeclasses eauto | typeclasses eauto |].
    destruct (_ || _); [apply setup_als_poll_timer_poll|]; exact H2. }
  destruct (negb (als_enabled (set_display_state data s))).
  { repeat (apply poll_timer_tracked_keeps; [typeclasses eauto | typeclasses eauto |]).
    exact H. }
  fold s0.
  destruct (display_is_off (old_display_state s0) && display_is_on (display_state s0)).
  - destruct (if ALS_DISPLAY_OFF_FLUSH_FILTER
              then als_median_filter_init cfg (cancel_als_poll_timer s0)
              else (true, cancel_als_poll_timer s0)) as [ok s1] eqn:Hflush.
    assert (H1 : poll_timer_tracked cfg s1).
    { destruct ALS_DISPLAY_OFF_FLUSH_FILTER.
      - rewrite Hflush in Hinit. exact Hinit.
      - inversion Hflush; subst. exact Hc. }
    destruct (negb ok).
    { apply poll_timer_tracked_keeps; [typeclasses eauto | typeclasses eauto | exact H1]. }
    assert (Hread : poll_timer_tracked cfg (snd (als_read_value_filtered cfg raw s1))).
    { unfold als_read_value_filtered.
      destruct (negb (als_enabled s1)); [exact H1|].
      destruct raw; [apply als_median_filter_map_poll|]; exact H1. }
    destruct (als_read_value_filtered cfg raw s1) as [new_lux s2]. cbn [snd] in Hread.
    apply Hgo. apply poll_timer_tracked_keeps; [typeclasses eauto | typeclasses eauto |].
    destruct (_ && _);
      [apply poll_timer_tracked_keeps; [typeclasses eauto | typeclasses eauto |]|];
      exact Hread.
  - destruct (display_is_on (old_display_state s0) && display_is_off (display_state s0)).
    + apply Hgo.
      apply poll_timer_tracked_keeps; [typeclasses eauto | typeclasses eauto | exact H0].
    + apply Hgo. exact H0.
Qed.

Lemma ownership_handlers_poll_id msg owner s :
  als_poll_timer_cb_id (snd (als_enable_req_dbus_cb cfg msg s)) = als_poll_timer_cb_id s
  /\ als_poll_timer_cb_id (snd (als_disable_req_dbus_cb cfg msg s))
     = als_poll_timer_cb_id s
  /\ als_poll_timer_cb_id (snd (als_owner_monitor_dbus_cb cfg owner s))
     = als_poll_timer_cb_id s.
Proof.
  unfold als_enable_req_dbus_cb, als_disable_req_dbus_cb, als_owner_monitor_dbus_cb.
  split; [|split].
  - destruct (sender msg); cbn [snd]; [|rewrite keeps_poll_id; reflexivity].
    match goal with
    | |- context [mce_dbus_owner_monitor_add ?a ?b ?c] =>
        destruct (mce_dbus_owner_monitor_add a b c) as [retval l]
    end. cbn [snd].
    repeat split_tests; rewrite !keeps_poll_id; reflexivity.
  - destruct (sender msg); cbn [snd]; [|rewrite keeps_poll_id; reflexivity].
    match goal with
    | |- context [mce_dbus_owner_monitor_remove ?a ?b] =>
        destruct (mce_dbus_owner_monitor_remove a b) as [retval l]
    end. cbn [snd].
    repeat split_tests; rewrite !keeps_poll_id; reflexivity.
  - destruct owner as [[[service old_name] new_name]|]; cbn [snd];
      [|rewrite keeps_poll_id; reflexivity].
    match goal with
    | |- context [mce_dbus_owner_monitor_remove ?a ?b] =>
        destruct (mce_dbus_owner_monitor_remove a b) as [retval l]
    end.
    destruct (retval =? -1); cbn [snd];
      repeat split_tests; rewrite !keeps_poll_id; reflexivity.
Qed.

(** An I/O monitor callback called with a record of the wrong size
    forgets the poll timer id before cancelling; nothing is lost on
    an interrupt-driven sensor, which has no poll timer. *)
Lemma short_read_poll s :
  interrupt_driven cfg = true ->
  poll_timer_tracked cfg s ->
  poll_timer_tracked cfg (cancel_als_poll_timer (set_als_poll_timer_cb_id 0%nat s)).
Proof.
  intros Hint H. apply cancel_als_poll_timer_poll.
  destruct H as (Hnz & _ & _ & Hnone). specialize (Hnone Hint).
  unfold poll_timer_tracked, armed_poll_timers in *.
  replace (sources (set_als_poll_timer_cb_id 0%nat s)) with (sources s)
    by (destruct s; reflexivity).
  rewrite Hnone. split; [exact Hnz|]. split; [constructor|].
  split; [cbn; lia | reflexivity].
Qed.

Lemma handle_event_poll e s :
  interrupt_driven cfg = true \/ is_short_read e = false ->
  poll_timer_tracked cfg s -> poll_timer_tracked cfg (handle_event cfg e s).
Proof.
  intros Hev H. destruct e; cbn [handle_event].
  - apply dispatch_timeout_poll. exact H.
  - unfold als_dipro_iomon_cb. destruct data.
    + apply als_iomon_common_poll. exact H.
    + destruct Hev as [Hint|Hshort]; [|discriminate].
      apply short_read_poll; assumption.
  - unfold als_avago_iomon_cb. destruct data as [[[lux updated] saturated]|].
    + destruct (negb updated); [exact H|].
      destruct saturated; apply als_iomon_common_poll; exact H.
    + destruct Hev as [Hint|Hshort]; [|discriminate].
      apply short_read_poll; assumption.
  - apply display_state_trigger_poll. exact H.
  - eapply poll_timer_tracked_view; [| |exact H].
    + exact (f_equal fst (proj1 (ownership_handlers_timers cfg msg None s))).
    + apply (ownership_handlers_poll_id msg None s).
  - eapply poll_timer_tracked_view; [| |exact H].
    + exact (f_equal fst
               (proj1 (proj2 (ownership_handlers_timers cfg msg None s)))).
    + apply (ownership_handlers_poll_id msg None s).
  - eapply poll_timer_tracked_view; [| |exact H].
    + exact (f_equal fst
               (proj2 (proj2 (ownership_handlers_timers cfg
                                {| sender := None; no_reply := true; sent := true |}
                                msg s)))).
    + apply (ownership_handlers_poll_id
               {| sender := None; no_reply := true; sent := true |} msg s).
  - apply poll_timer_tracked_keeps; [typeclasses eauto | typeclasses eauto | exact H].
  - apply poll_timer_tracked_keeps; [typeclasses eauto | typeclasses eauto | exact H].
Qed.

Lemma run_events_poll events s :
  interrupt_driven cfg = true \/ Forall (fun e => is_short_read e = false) events ->
  poll_timer_tracked cfg s -> poll_timer_tracked cfg (run_events cfg events s).
Proof.
  unfold run_events. revert s.
  induction events as [|e events IH]; intros s Hev H; cbn [fold_left]; [exact H|].
  apply IH.
  - destruct Hev as [Hint|Hall]; [left; exact Hint|].
    right. inversion Hall; assumption.
  - apply handle_event_poll; [|exact H].
    destruct Hev as [Hint|Hall]; [left; exact Hint|].
    right. inversion Hall; assumption.
Qed.

Lemma run_events_delay events s :
  delay_timer_tracked s -> delay_timer_tracked (run_events cfg events s).
Proof.
  unfold run_events. revert s.
  induction events as [|e events IH]; intros s H; cbn [fold_left]; [exact H|].
  apply IH. apply handle_event_tracked. exact H.
Qed.

Lemma sources_split (srcs : list (nat * source_cb)) :
  filter is_poll_source srcs = [] -> filter is_delay_source srcs = [] -> srcs = [].
Proof.
  destruct srcs as [|src srcs]; [reflexivity|]. cbn. unfold is_poll_source.
  destruct (is_delay_source src); cbn; discriminate.
Qed.

(** X23: Whatever has reached the module, at most one poll timer is armed
    and it is the one [als_poll_timer_cb_id] names, and the two calls
    that end [g_module_unload] leave no source of the module in the
    main loop.  A record of the wrong size is assumed to reach the
    I/O monitor callbacks of an interrupt-driven sensor only. *)
Theorem no_timer_left_at_unload events s :
  poll_timer_tracked cfg s ->
  delay_timer_tracked s ->
  interrupt_driven cfg = true \/ Forall (fun e => is_short_read e = false) events ->
  let s' := run_events cfg events s in
  poll_timer_tracked cfg s'
  /\ sources (cancel_brightness_delay_timer (cancel_als_poll_timer s')) = [].
Proof.
  intros Hp Hd Hev. cbn zeta.
  pose proof (run_events_poll events s Hev Hp) as Hp'.
  pose proof (run_events_delay events s Hd) as Hd'.
  split; [exact Hp'|].
  set (s' := run_events cfg events s) in *. clearbody s'.
  pose proof (cancel_als_poll_timer_poll s' Hp') as [_ Hnone].
  pose proof (cancel_als_poll_timer_tracked s' Hd') as Hd1.
  pose proof (cancel_brightness_delay_timer_tracked _ Hd1) as (_ & Hnone' & _).
  apply sources_split; [|exact Hnone'].
  pose proof (cancel_brightness_delay_timer_poll (cancel_als_poll_timer s')) as Hkeep.
  unfold cancel_brightness_delay_timer in *.
  destruct (brightness_delay_timer_cb_id (cancel_als_poll_timer s') =? 0)%nat;
    [exact Hnone|].
  unfold armed_poll_timers in *.
  replace (sources
             (set_brightness_delay_timer_cb_id 0%nat
                (g_source_remove
                   (brightness_delay_timer_cb_id (cancel_als_poll_timer s'))
                   (cancel_als_poll_timer s'))))
    with (filter (fun src => negb (fst src
                                   =? brightness_delay_timer_cb_id
                                        (cancel_als_poll_timer s'))%nat)
                 (sources (cancel_als_poll_timer s')))
    by (destruct (cancel_als_poll_timer s'); reflexivity).
  apply filter_nil_keep. exact Hnone.
Qed.

End PollTimer.

Lemma no_timer_left_at_unload_witness :
  let s' := run_events (hdr := sample_header) tsl2563_config
              [DisplayStateChanged (Some 120) None MCE_DISPLAY_DIM;
               TimeoutDispatched 1%nat (Some 80);
               DiproData (Some 20)]
              sample_on_state in
  poll_timer_tracked tsl2563_config s'
  /\ sources (cancel_brightness_delay_timer (cancel_als_poll_timer s')) = [].
Proof.
  cbv zeta.
  apply (no_timer_left_at_unload (hdr := sample_header) tsl2563_config).
  - unfold poll_timer_tracked. simpl.
    split; [constructor|]. split; [constructor|]. split; [lia | discriminate].
  - unfold delay_timer_tracked. simpl.
    split; [constructor | split; [constructor | lia]].
  - right. repeat constructor.
Defined.

(** ** Step-down samples while the delay runs *)

Section Coalescing.

Context {hdr : als_header}.
Variable cfg : als_config.
Hypothesis Hmf : use_median_filter cfg = false.






End Coalescing.


